(** * Scenario identity and index reconciliation of the telemetry logger

    A shallow embedding of [cli/interactive_capture.py] (scenario
    identifiers, pending scenarios, the prompts, the master index upsert), of
    [cli/backfill_index_links.py] and of the index update of
    [scripts/process_capture.py], together with the properties the
    specification states about them and further properties of the code.

    Modelling conventions.
    - A Python [str] is a [string]; a character is a code point below 256.
      Among those the decimal digits are exactly ['0'..'9'] and the white
      space characters are 9-13, 28-32, 133 and 160, which is what [\d],
      [int] and [str.strip] look at.
    - A Python [int] is a [Z]; [int(s)] has no limit on the number of digits.
    - A directory is the list of its entry names, in the order [glob]
      yields them, and which of them are symbolic links to nothing: [glob]
      lists those, [exists()] is false for them.
    - A CSV file is the list of its records as [csv.reader] yields them,
      a record being the list of its fields.
    - A row dictionary is a finite map from column names to cells, with the
      surplus fields [csv.DictReader] files under its [restkey] kept beside.
    - Paths and line ends are those of a POSIX system: [Path] is
      [PurePosixPath] and a text file is written with [\n] as it stands. *)

From Stdlib Require Import ZArith Ascii.
From stdpp Require Import gmap strings list pretty sorting.

Local Open Scope Z_scope.

(** ** Python built-ins *)

Module Py.

Definition ord (c : ascii) : N := N_of_ascii c.

(** [str.isspace] on one character. *)
Definition isspace (c : ascii) : bool :=
  let n := ord c in
  ((9 <=? n) && (n <=? 13) || (28 <=? n) && (n <=? 32)
   || (n =? 133) || (n =? 160))%N.

(** The value of a decimal digit, [None] for any other character. *)
Definition digit (c : ascii) : option Z :=
  let n := ord c in
  if ((48 <=? n) && (n <=? 57))%N then Some (Z.of_N n - 48) else None.

Definition isdigit (c : ascii) : bool := bool_decide (is_Some (digit c)).

(** [s[len(p):]] when [s.startswith(p)]. *)
Fixpoint removeprefix (p s : string) : option string :=
  match p, s with
  | "", _ => Some s
  | String a p', String b s' =>
      if decide (a = b) then removeprefix p' s' else None
  | String _ _, "" => None
  end.

Definition startswith (s p : string) : bool :=
  bool_decide (is_Some (removeprefix p s)).

Fixpoint endswith (s suffix : string) : bool :=
  bool_decide (s = suffix)
  || match s with
     | "" => false
     | String _ s' => endswith s' suffix
     end.

(** [s.replace(old, new)] for a non-empty [old]: occurrences are taken
    from the left and do not overlap; [skip] counts the characters of an
    occurrence still to be dropped. *)
Fixpoint replace_from (skip : nat) (old new s : string) : string :=
  match s with
  | "" => ""
  | String a s' =>
      match skip with
      | S k => replace_from k old new s'
      | O =>
          if startswith s old
          then new +:+ replace_from (String.length old - 1) old new s'
          else String a (replace_from 0 old new s')
      end
  end.

Definition replace (s old new : string) : string := replace_from 0 old new s.

(** [s.rfind(c)] for a single character. *)
Fixpoint rfind (c : ascii) (s : string) : option nat :=
  match s with
  | "" => None
  | String a s' =>
      match rfind c s' with
      | Some i => Some (S i)
      | None => if decide (a = c) then Some 0%nat else None
      end
  end.

(** [s.rsplit(c, 1)[-1]]: what follows the last [c], or [s] itself. *)
Definition rsplit_last (c : ascii) (s : string) : string :=
  match rfind c s with
  | Some i => String.substring (S i) (String.length s - S i) s
  | None => s
  end.

Fixpoint lstrip (s : string) : string :=
  match s with
  | "" => ""
  | String a s' => if isspace a then lstrip s' else s
  end.

Fixpoint rstrip (s : string) : string :=
  match s with
  | "" => ""
  | String a s' =>
      match rstrip s' with
      | "" => if isspace a then "" else String a ""
      | t => String a t
      end
  end.

Definition strip (s : string) : string := rstrip (lstrip s).

(** Truth value of a [str]. *)
Definition truthy (s : string) : bool := bool_decide (s ≠ "").

(** The digits of [int(...)], base 10: digits, single underscores allowed
    between two of them. [seen] tells whether the previous character was a
    digit. *)
Fixpoint int_digits (acc : Z) (seen : bool) (s : string) : option Z :=
  match s with
  | "" => if seen then Some acc else None
  | String c s' =>
      match digit c with
      | Some d => int_digits (10 * acc + d) true s'
      | None =>
          if bool_decide (c = "_"%char) && seen
          then int_digits acc false s'
          else None
      end
  end.

(** [int(s)]; [None] stands for [ValueError]. *)
Definition int (s : string) : option Z :=
  match strip s with
  | String "+" t => int_digits 0 false t
  | String "-" t => Z.opp <$> int_digits 0 false t
  | t => int_digits 0 false t
  end.

(** [str(n)]. *)
Definition str (n : Z) : string := pretty n.

Fixpoint zeros (k : nat) : string :=
  match k with
  | O => ""
  | S k' => String "0" (zeros k')
  end.

(** [format(n, "03d")]: the sign counts in the width. *)
Definition format_03d (n : Z) : string :=
  if n <? 0
  then let d := str (- n) in "-" +:+ zeros (2 - String.length d) +:+ d
  else let d := str n in zeros (3 - String.length d) +:+ d.

(** [c.lower()] on code points below 256. *)
Definition lower_char (c : ascii) : ascii :=
  let n := ord c in
  if ((65 <=? n) && (n <=? 90)
      || (192 <=? n) && (n <=? 222) && negb (n =? 215))%N
  then ascii_of_N (n + 32)
  else c.

Fixpoint lower (s : string) : string :=
  match s with
  | "" => ""
  | String c s' => String (lower_char c) (lower s')
  end.

End Py.

(** ** The archive directory *)

(** What a [Path] points at: nothing (or a symbolic link to nothing),
    something that is not a directory, or a directory with its entries as
    [glob] lists them. Entries can be symbolic links to nothing: [glob] lists
    them like the others, [exists()] is false for them. [Directory names] has
    no such entry, [DirectoryWithBrokenLinks names broken] has those of
    [broken]. *)
Inductive path_state :=
  | Absent
  | NotADirectory
  | Directory (names : list string)
  | DirectoryWithBrokenLinks (names broken : list string).

Definition path_exists (p : path_state) : bool :=
  match p with
  | Absent => false
  | _ => true
  end.

Definition entries (p : path_state) : list string :=
  match p with
  | Directory names => names
  | DirectoryWithBrokenLinks names _ => names
  | _ => []
  end.

Definition broken_links (p : path_state) : list string :=
  match p with
  | DirectoryWithBrokenLinks _ broken => broken
  | _ => []
  end.

(** [(p / name).exists()]: symbolic links are followed, so an entry that
    is a link to nothing does not exist. *)
Definition child_exists (p : path_state) (name : string) : bool :=
  bool_decide (name ∈ entries p ∧ name ∉ broken_links p).

(** [p.glob("*" + suffix)]; the scripts glob for ["*.log"] and
    ["*.metadata.json"] only. *)
Definition glob (p : path_state) (suffix : string) : list string :=
  filter (λ name, Py.endswith name suffix = true) (entries p).

(** [Path(name).stem] *)
Definition stem (name : string) : string :=
  match Py.rfind "." name with
  | Some i =>
      if bool_decide (0 < i < String.length name - 1)%nat
      then String.substring 0 i name
      else name
  | None => name
  end.

Definition newline : string := String "010" "".

(** ** Scenario identifiers *)

Definition date_token (for_date : string) : string :=
  Py.replace for_date "-" "_".

Definition scenario_prefix (for_date : string) : string :=
  "SCN_" +:+ date_token for_date +:+ "_".

(** [re.compile(rf"^SCN_{re.escape(date_token)}_(\d{{3}})\.log$").match(name)]:
    group 1 on a match. [$] also matches before a final newline. *)
Definition pattern_match (token name : string) : option string :=
  match Py.removeprefix ("SCN_" +:+ token +:+ "_") name with
  | Some (String d1 (String d2 (String d3 rest))) =>
      if Py.isdigit d1 && Py.isdigit d2 && Py.isdigit d3
         && (bool_decide (rest = ".log")
             || bool_decide (rest = ".log" +:+ newline))
      then Some (String d1 (String d2 (String d3 "")))
      else None
  | _ => None
  end.

(** One turn of the loop over [logs_dir.glob("*.log")]. *)
Definition scan_step (token : string) (next_idx : Z) (name : string) : Z :=
  match pattern_match token name with
  | Some group =>
      match Py.int group with
      | Some idx => if next_idx <=? idx then idx + 1 else next_idx
      | None => next_idx
      end
  | None => next_idx
  end.

(** The loop of [generate_scenario_id]: what it leaves in [next_idx]. *)
Definition next_index (for_date : string) (logs_dir : path_state) : Z :=
  if path_exists logs_dir
  then foldl (scan_step (date_token for_date)) 1 (glob logs_dir ".log")
  else 1.

Definition generate_scenario_id (for_date : string) (logs_dir : path_state)
  : string :=
  scenario_prefix for_date +:+ Py.format_03d (next_index for_date logs_dir).

(** ** Pending (metadata-only) scenarios *)

(** [metadata_path.stem.replace(".metadata", "")] *)
Definition scenario_of_metadata (name : string) : string :=
  Py.replace (stem name) ".metadata" "".

(** The inner function [suffix_num]: any exception gives 0. *)
Definition suffix_num (sid : string) : Z :=
  default 0 (Py.int (Py.rsplit_last "_" sid)).

(** One turn of the loop over [logs_dir.glob("*.metadata.json")]. *)
Definition pending_step (logs_dir : path_state) (for_date : string)
    (candidates : list string) (name : string) : list string :=
  let scenario_id := scenario_of_metadata name in
  if negb (child_exists logs_dir (scenario_id +:+ ".log"))
  then
    if Py.startswith scenario_id ("SCN_" +:+ date_token for_date +:+ "_")
    then candidates ++ [scenario_id]
    else candidates
  else candidates.

(** [list.sort(key=...)] is stable: an element is inserted before the first
    one of a strictly greater key. *)
Fixpoint insert_by_key {A} (key : A → Z) (x : A) (l : list A) : list A :=
  match l with
  | [] => [x]
  | y :: l' =>
      if key x <=? key y then x :: l else y :: insert_by_key key x l'
  end.

Definition sort_by_key {A} (key : A → Z) (l : list A) : list A :=
  foldr (insert_by_key key) [] l.

Definition list_metadata_only_scenarios (logs_dir : path_state)
    (for_date : string) : list string :=
  if negb (path_exists logs_dir) then []
  else
    sort_by_key suffix_num
      (foldl (pending_step logs_dir for_date) []
         (glob logs_dir ".metadata.json")).

(** ** Results, exceptions and the console *)

Inductive exn := EOFError | ValueError.

Inductive result (A : Type) :=
  | Return (a : A)
  | Raise (e : exn).
Arguments Return {A} a.
Arguments Raise {A} e.

(** A computation over a state [S] that returns or raises. *)
Definition io (S A : Type) : Type := S → result A * S.

Definition io_ret {S A} (a : A) : io S A := λ s, (Return a, s).

Definition io_bind {S A B} (m : io S A) (k : A → io S B) : io S B :=
  λ s, match m s with
       | (Return a, s') => k a s'
       | (Raise e, s') => (Raise e, s')
       end.

Notation "'do' x <- m ; k" := (io_bind m (λ x, k))
  (at level 10, x name, m at level 100, k at level 200, only parsing).

(** The console is the list of the lines still to be typed; [input()] on
    an exhausted console raises [EOFError]. Each turn of a prompt loop takes
    one line. *)
Fixpoint prompt_yes_no (message : string) (default : bool)
    (stdin : list string) : result bool * list string :=
  match stdin with
  | [] => (Raise EOFError, [])
  | line :: stdin' =>
      let response := Py.lower (Py.strip line) in
      if bool_decide (response = "") then (Return default, stdin')
      else if bool_decide (response ∈ ["y"; "yes"]) then (Return true, stdin')
      else if bool_decide (response ∈ ["n"; "no"]) then (Return false, stdin')
      else prompt_yes_no message default stdin'
  end.

Fixpoint prompt_select_from_list (title : string) (options : list string)
    (stdin : list string) : result (option string) * list string :=
  match stdin with
  | [] => (Raise EOFError, [])
  | line :: stdin' =>
      let choice := Py.strip line in
      if bool_decide (choice = "0") || bool_decide (choice = "")
      then (Return None, stdin')
      else
        match Py.int choice with
        | None => prompt_select_from_list title options stdin'
        | Some num =>
            if bool_decide (1 ≤ num ≤ Z.of_nat (length options))
            then (Return (options !! Z.to_nat (num - 1)), stdin')
            else prompt_select_from_list title options stdin'
        end
  end.

Definition choose_or_generate_scenario_id (for_date : string)
    (logs_dir : path_state) : io (list string) string :=
  let existing := list_metadata_only_scenarios logs_dir for_date in
  let fallback := io_ret (generate_scenario_id for_date logs_dir) in
  match existing with
  | [] => fallback
  | [pending] =>
      do reuse <-
        prompt_yes_no
          ("Reuse existing metadata-only scenario '" +:+ pending
           +:+ "' for this date?") true;
      if reuse then io_ret pending else fallback
  | _ =>
      do selected <-
        prompt_select_from_list
          "Select a metadata-only scenario to reuse, or create a new one:"
          existing;
      match selected with
      | Some sid => if Py.truthy sid then io_ret sid else fallback
      | None => fallback
      end
  end.

(** ** The master index *)

(** A value held by a row dictionary: [None], a [str] or an [int]. *)
Inductive cell :=
  | CNone
  | CStr (s : string)
  | CInt (n : Z).

Global Instance cell_eq_dec : EqDecision cell.
Proof. solve_decision. Defined.

(** A row as [csv.DictReader] yields it and as the script builds it: the
    named cells, and what the reader files under [restkey = None] when a
    record is longer than the header. *)
Record rowdict := RowDict {
  fields : gmap string cell;
  restkey : option (list string)
}.

Global Instance rowdict_eq_dec : EqDecision rowdict.
Proof. solve_decision. Defined.

(** Truth value of [d.get(key)]. *)
Definition cell_truthy (v : option cell) : bool :=
  match v with
  | Some (CStr s) => Py.truthy s
  | Some (CInt n) => bool_decide (n ≠ 0)
  | Some CNone | None => false
  end.

(** How [csv.writer] writes a cell. *)
Definition cell_text (v : cell) : string :=
  match v with
  | CNone => ""
  | CStr s => s
  | CInt n => Py.str n
  end.

Definition fieldnames : list string :=
  ["date"; "filename"; "file_size"; "record_count"; "metadata_file";
   "created_at"; "test_description"; "log_link"; "metadata_link"].

(** [dict(zip(fieldnames, row))] followed by the [restval = None] entries of
    the columns the record is too short for; a repeated column keeps the
    last value. *)
Fixpoint zip_cells (names row : list string) (d : gmap string cell)
  : gmap string cell :=
  match names with
  | [] => d
  | k :: names' =>
      match row with
      | v :: row' => zip_cells names' row' (<[k := CStr v]> d)
      | [] => zip_cells names' [] (<[k := CNone]> d)
      end
  end.

Definition read_row (names row : list string) : rowdict :=
  {| fields := zip_cells names row ∅;
     restkey := if bool_decide (length names < length row)%nat
                then Some (drop (length names) row) else None |}.

(** [list(csv.DictReader(f))]: the first record is the header, empty
    records are skipped. *)
Definition DictReader (records : list (list string)) : list rowdict :=
  match records with
  | [] => []
  | names :: data => read_row names <$> filter (λ row, row ≠ []) data
  end.

(** [DictWriter._dict_to_list] with [extrasaction="raise"] and
    [restval=""]: [None] stands for the [ValueError] on a key outside the
    field names. *)
Definition dict_to_list (names : list string) (d : rowdict)
  : option (list string) :=
  if bool_decide (restkey d = None ∧ ∀ k, k ∈ dom (fields d) → k ∈ names)
  then Some ((λ k, from_option cell_text "" (fields d !! k)) <$> names)
  else None.

(** [writer.writerows(rows)]: the records before the first offending row
    are written. *)
Fixpoint writerows (names : list string) (rows : list rowdict)
    (written : list (list string)) : result () * list (list string) :=
  match rows with
  | [] => (Return (), written)
  | d :: rows' =>
      match dict_to_list names d with
      | Some record => writerows names rows' (written ++ [record])
      | None => (Raise ValueError, written)
      end
  end.

(** The index file: [None] when it is absent or has no byte, else its
    records. *)
Definition index_file : Type := option (list (list string)).

(** The archived log file is its decoded text. *)
Definition file : Type := string.

(** [stat().st_size] of a file in UTF-8: a code point below 128 takes one
    byte, one below 256 two. *)
Fixpoint st_size (text : file) : Z :=
  match text with
  | "" => 0
  | String c text' => (if (Py.ord c <? 128)%N then 1 else 2) + st_size text'
  end.

(** Iterating a file opened in text mode: [\n], [\r] and [\r\n] end a line
    and are read as [\n]. *)
Fixpoint readlines (s : string) : list string :=
  match s with
  | "" => []
  | String c s' =>
      if decide (c = "010"%char) then newline :: readlines s'
      else if decide (c = "013"%char) then
        match s' with
        | String "010" s'' => newline :: readlines s''
        | _ => newline :: readlines s'
        end
      else
        match readlines s' with
        | [] => [String c ""]
        | line :: lines => String c line :: lines
        end
  end.

Definition file_size (log_file : option file) : Z :=
  match log_file with
  | Some f => st_size f
  | None => 0
  end.

(** [sum(1 for line in f if line.strip())] *)
Definition record_count (log_file : option file) : Z :=
  match log_file with
  | Some f =>
      foldl (λ n line, if Py.truthy (Py.strip line) then n + 1 else n) 0
        (readlines f)
  | None => 0
  end.

Definition github_link (repo path : string) : string :=
  if Py.truthy repo
  then "https://github.com/" +:+ repo +:+ "/blob/main/" +:+ path
  else "".

(** The values of a row other than its creation time. *)
Record row_values := RowValues {
  v_date : string;
  v_filename : string;
  v_file_size : Z;
  v_record_count : Z;
  v_metadata_file : string;
  v_test_description : string;
  v_log_link : string;
  v_metadata_link : string
}.

(** The dictionary literal of both branches. *)
Definition index_row (v : row_values) (created_at_value : cell) : rowdict :=
  {| fields :=
       <["date" := CStr (v_date v)]>
       (<["filename" := CStr (v_filename v)]>
       (<["file_size" := CInt (v_file_size v)]>
       (<["record_count" := CInt (v_record_count v)]>
       (<["metadata_file" := CStr (v_metadata_file v)]>
       (<["created_at" := created_at_value]>
       (<["test_description" := CStr (v_test_description v)]>
       (<["log_link" := CStr (v_log_link v)]>
       (<["metadata_link" := CStr (v_metadata_link v)]> ∅))))))));
     restkey := None |}.

(** [r.get("filename") == filename] *)
Definition keyed (filename : string) (r : rowdict) : Prop :=
  fields r !! "filename" = Some (CStr filename).

Global Instance keyed_dec filename r : Decision (keyed filename r).
Proof. unfold keyed. apply _. Defined.

(** Lines 443-447: the creation time of the row found is kept when it is
    true as a Python value, else the new one is taken. *)
Definition kept_created_at (existing : rowdict) (created_at_value : string)
  : cell :=
  if cell_truthy (fields existing !! "created_at")
  then default CNone (fields existing !! "created_at")
  else CStr created_at_value.

(** The in-memory part of [update_master_index]: find the first row of the
    file name, replace it in place keeping its creation time, or append. *)
Definition upsert (rows : list rowdict) (v : row_values)
    (created_at_value : string) : list rowdict :=
  match list_find (keyed (v_filename v)) rows with
  | Some (existing_idx, existing) =>
      <[existing_idx := index_row v (kept_created_at existing created_at_value)]>
        rows
  | None => rows ++ [index_row v (CStr created_at_value)]
  end.

(** The arguments of a call. *)
Record call := Call {
  date_str : string;
  time_str : string;
  scenario_id : string;
  test_type : string;
  log_path : string;
  metadata_path : string
}.

Definition values_of (REPO_GITHUB_PATH : string) (log_file : option file)
    (c : call) : row_values :=
  {| v_date := date_str c;
     v_filename := scenario_id c +:+ ".log";
     v_file_size := file_size log_file;
     v_record_count := record_count log_file;
     v_metadata_file := scenario_id c +:+ ".metadata.json";
     v_test_description := test_type c;
     v_log_link := github_link REPO_GITHUB_PATH (log_path c);
     v_metadata_link := github_link REPO_GITHUB_PATH (metadata_path c) |}.

Definition load_rows (index : index_file) : list rowdict :=
  match index with
  | Some records => DictReader records
  | None => []
  end.

(** [update_master_index], on the state of the index file; [log_file] is
    what [log_path] points at. Opening the index for writing empties it,
    then the header and the rows are written. *)
Definition update_master_index (REPO_GITHUB_PATH : string)
    (log_file : option file) (c : call) : io index_file () :=
  λ index,
    let rows := load_rows index in
    let rows :=
      upsert rows (values_of REPO_GITHUB_PATH log_file c)
        (date_str c +:+ "T" +:+ time_str c +:+ ":00Z") in
    let '(outcome, written) := writerows fieldnames rows [] in
    (outcome, Some (fieldnames :: written)).

(** The schema check of [backfill_index_links.main]: the required columns
    the header lacks; [main] returns 1 without touching the file when there
    is one. *)
Definition backfill_required : list string :=
  ["date"; "filename"; "metadata_file"; "log_link"; "metadata_link"].

Definition backfill_missing (header : list string) : list string :=
  filter (λ c, c ∉ header) backfill_required.

(** ** The other prompts *)

(** The prompts for a text and for an integer: as in [prompt_yes_no], each
    turn of a loop takes one line of the console. *)
Fixpoint prompt_str (message : string) (allow_empty : bool)
    (default : option string) (stdin : list string)
  : result string * list string :=
  match stdin with
  | [] => (Raise EOFError, [])
  | line :: stdin' =>
      let val := Py.strip line in
      if bool_decide (val = "") && bool_decide (default ≠ None)
      then (Return (from_option id "" default), stdin')
      else if Py.truthy val || allow_empty then (Return val, stdin')
      else prompt_str message allow_empty default stdin'
  end.

Fixpoint prompt_int_optional (message : string) (min_value max_value : Z)
    (default : option Z) (stdin : list string)
  : result (option Z) * list string :=
  match stdin with
  | [] => (Raise EOFError, [])
  | line :: stdin' =>
      let raw := Py.lower (Py.strip line) in
      if bool_decide (raw = "") && bool_decide (default ≠ None)
      then (Return default, stdin')
      else if bool_decide (raw = "") then (Return None, stdin')
      else if bool_decide (raw = "null") then (Return None, stdin')
      else
        match Py.int raw with
        | None => prompt_int_optional message min_value max_value default stdin'
        | Some val =>
            if bool_decide (val < min_value ∨ val > max_value)
            then prompt_int_optional message min_value max_value default stdin'
            else (Return (Some val), stdin')
        end
  end.

Fixpoint prompt_int_range (message : string) (min_value max_value : Z)
    (default : option Z) (stdin : list string)
  : result Z * list string :=
  match stdin with
  | [] => (Raise EOFError, [])
  | line :: stdin' =>
      let raw := Py.strip line in
      match default with
      | Some d =>
          if bool_decide (raw = "") then (Return d, stdin')
          else
            match Py.int raw with
            | None => prompt_int_range message min_value max_value default stdin'
            | Some val =>
                if bool_decide (val < min_value ∨ val > max_value)
                then prompt_int_range message min_value max_value default stdin'
                else (Return val, stdin')
            end
      | None =>
          match Py.int raw with
          | None => prompt_int_range message min_value max_value default stdin'
          | Some val =>
              if bool_decide (val < min_value ∨ val > max_value)
              then prompt_int_range message min_value max_value default stdin'
              else (Return val, stdin')
          end
      end
  end.

(** The ranges of the temperature prompts, bounds included. *)
Definition CTRL_TEMP_MIN : Z := -20.
Definition CTRL_TEMP_MAX : Z := 120.
Definition MOTOR_TEMP_MIN : Z := -20.
Definition MOTOR_TEMP_MAX : Z := 150.

(** ** Paths as [pathlib] renders them on a POSIX system *)

Module PurePosixPath.

(** [s.split(sep)] for a single character. *)
Fixpoint split (sep : ascii) (s : string) : list string :=
  match s with
  | "" => [""]
  | String a s' =>
      if decide (a = sep) then "" :: split sep s'
      else
        match split sep s' with
        | [] => [String a ""]
        | piece :: pieces => String a piece :: pieces
        end
  end.

(** [sep.join(pieces)] *)
Fixpoint join (sep : string) (pieces : list string) : string :=
  match pieces with
  | [] => ""
  | [piece] => piece
  | piece :: pieces' => piece +:+ sep +:+ join sep pieces'
  end.

(** One step of [posixpath.join]. *)
Definition join_segment (path b : string) : string :=
  if Py.startswith b "/" then b
  else if bool_decide (path = "") || Py.endswith path "/" then path +:+ b
  else path +:+ "/" +:+ b.

(** [posixpath.splitroot]: the root and the rest; two leading slashes, and
    only two, are a root of their own. *)
Definition splitroot (p : string) : string * string :=
  match p with
  | String "/" (String "/" (String "/" _ as rest)) => ("/", String "/" rest)
  | String "/" (String "/" rest) => ("//", rest)
  | String "/" rest => ("/", rest)
  | _ => ("", p)
  end.

(** [str(PurePosixPath(path))]: empty and [.] components are dropped. *)
Definition normal (path : string) : string :=
  let '(root, rel) := splitroot path in
  let tail := filter (λ x, x ≠ "" ∧ x ≠ ".") (split "/" rel) in
  let s := root +:+ join "/" tail in
  if bool_decide (s = "") then "." else s.

(** [(Path(a) / b / c).as_posix()] *)
Definition as_posix3 (a b c : string) : string :=
  normal (join_segment (join_segment a b) c).

End PurePosixPath.

(** ** The backfill of the links *)

Inductive backfill_result :=
  | Exit (status : Z)
  | AttributeError
  | WriterValueError.

(** [row.get(key, "").strip()]: [None] stands for the [AttributeError] on a
    value that is no [str]. *)
Definition get_stripped (row : rowdict) (key : string) : option string :=
  match fields row !! key with
  | None => Some (Py.strip "")
  | Some (CStr s) => Some (Py.strip s)
  | Some CNone | Some (CInt _) => None
  end.

Definition blob_link (GITHUB_REPO rel : string) : string :=
  "https://github.com/" +:+ GITHUB_REPO +:+ "/blob/main/" +:+ rel.

(** One turn of the loop over the rows. *)
Definition backfill_row (GITHUB_REPO : string) (row : rowdict) : option rowdict :=
  date_str ← get_stripped row "date";
  filename ← get_stripped row "filename";
  metadata_file ← get_stripped row "metadata_file";
  let log_rel := PurePosixPath.as_posix3 "logs" date_str filename in
  let meta_rel := PurePosixPath.as_posix3 "logs" date_str metadata_file in
  Some {| fields :=
            <["metadata_link" := CStr (blob_link GITHUB_REPO meta_rel)]>
              (<["log_link" := CStr (blob_link GITHUB_REPO log_rel)]> (fields row));
          restkey := restkey row |}.

(** [reader.fieldnames or []] *)
Definition header_of (records : list (list string)) : list string :=
  match records with
  | [] => []
  | names :: _ => names
  end.

(** [backfill_index_links.main] on the state of the index file; its local
    [fieldnames] is the header read from the file. *)
Definition backfill_main (GITHUB_REPO : string) (index : index_file)
  : backfill_result * index_file :=
  if negb (Py.truthy GITHUB_REPO) then (Exit 1, index)
  else
    match index with
    | None => (Exit 0, index)
    | Some records =>
        let fieldnames := header_of records in
        let rows := DictReader records in
        if bool_decide (backfill_missing fieldnames ≠ []) then (Exit 1, index)
        else
          match mapM (backfill_row GITHUB_REPO) rows with
          | None => (AttributeError, index)
          | Some rows =>
              match writerows fieldnames rows [] with
              | (Return _, written) => (Exit 0, Some (fieldnames :: written))
              | (Raise _, written) =>
                  (WriterValueError, Some (fieldnames :: written))
              end
          end
    end.

(** ** The index update of [scripts/process_capture.py] *)

(** [f.read()] of a file opened in text mode: [\r\n] and [\r] are read as
    [\n]. *)
Fixpoint read_text (s : string) : string :=
  match s with
  | "" => ""
  | String c s' =>
      if decide (c = "013"%char) then
        match s' with
        | String "010" s'' => String "010" (read_text s'')
        | _ => String "010" (read_text s')
        end
      else String c (read_text s')
  end.

Module process_capture.

Inductive outcome :=
  | Written
  | FileNotFoundError.

(** The line the script appends. *)
Definition new_entry (scenario_id date time test_type log_file metadata_file
    : string) : string :=
  let log_link :=
    "https://github.com/C-broderick-225/svmc72200-ukc1-telemetry-logs/blob/main/"
    +:+ log_file in
  let metadata_link :=
    "https://github.com/C-broderick-225/svmc72200-ukc1-telemetry-logs/blob/main/"
    +:+ metadata_file in
  date +:+ "," +:+ scenario_id +:+ ".log,0,0," +:+ scenario_id
  +:+ ".metadata.json," +:+ date +:+ "T" +:+ time +:+ ":00Z," +:+ String "034" test_type
  +:+ String "034" "," +:+ log_link +:+ "," +:+ metadata_link +:+ newline.

(** [f.writelines(lines)] on a file just opened for writing: the text the
    file holds afterwards. *)
Definition writelines (lines : list string) : string :=
  PurePosixPath.join "" lines.

(** [update_master_index] of the script, on the text of the index file
    ([None] when there is no file): the lines are read, the entry is added,
    all is written back. [log_file] and [metadata_file] are the paths as
    text. *)
Definition update_master_index (scenario_id date time test_type log_file
    metadata_file : string) (index : option string)
  : outcome * option string :=
  match index with
  | None => (FileNotFoundError, None)
  | Some text =>
      let lines := readlines text in
      let lines :=
        lines ++ [new_entry scenario_id date time test_type log_file
                    metadata_file] in
      (Written, Some (writelines lines))
  end.

End process_capture.

(** ** Sample data *)

Definition sample_call : call :=
  {| date_str := "2025-08-12"; time_str := "10:00";
     scenario_id := "SCN_2025_08_12_001"; test_type := "Throttle, idle";
     log_path := "logs/2025-08-12/SCN_2025_08_12_001.log";
     metadata_path := "logs/2025-08-12/SCN_2025_08_12_001.metadata.json" |}.

Definition sample_log : file :=
  "a,b" +:+ newline +:+ " " +:+ newline +:+ "c,d".

Definition sample_values (scenario_id : string) (size count : Z) : row_values :=
  {| v_date := "2025-08-12";
     v_filename := scenario_id +:+ ".log";
     v_file_size := size;
     v_record_count := count;
     v_metadata_file := scenario_id +:+ ".metadata.json";
     v_test_description := "Throttle, idle";
     v_log_link := "";
     v_metadata_link := "" |}.

(** Two rows as a first run leaves them in memory. *)
Definition sample_rows : list rowdict :=
  [index_row (sample_values "SCN_2025_08_11_004" 7 1) (CStr "2025-08-11T08:00:00Z");
   index_row (sample_values "SCN_2025_08_12_001" 0 0) (CStr "2025-08-12T09:00:00Z")].

(** An index file as a first run and an editor left it: a full record, an
    empty one and one that stops after the metadata file. *)
Definition sample_records : list (list string) :=
  [["2025-08-12"; "SCN_2025_08_12_001.log"; "9"; "2";
    "SCN_2025_08_12_001.metadata.json"; "2025-08-12T09:00:00Z";
    "Throttle, idle"; ""; ""];
   [];
   ["2025-08-13"; " SCN_2025_08_13_001.log"; "0"; "0";
    "SCN_2025_08_13_001.metadata.json"]].

(** The same file after the backfill for the repository [owner/repo]. *)
Definition sample_backfilled : list (list string) :=
  [["2025-08-12"; "SCN_2025_08_12_001.log"; "9"; "2";
    "SCN_2025_08_12_001.metadata.json"; "2025-08-12T09:00:00Z";
    "Throttle, idle";
    "https://github.com/owner/repo/blob/main/logs/2025-08-12/SCN_2025_08_12_001.log";
    "https://github.com/owner/repo/blob/main/logs/2025-08-12/SCN_2025_08_12_001.metadata.json"];
   ["2025-08-13"; " SCN_2025_08_13_001.log"; "0"; "0";
    "SCN_2025_08_13_001.metadata.json"; ""; "";
    "https://github.com/owner/repo/blob/main/logs/2025-08-13/SCN_2025_08_13_001.log";
    "https://github.com/owner/repo/blob/main/logs/2025-08-13/SCN_2025_08_13_001.metadata.json"]].

(** ** Notions used in the statements *)

(** The character of a digit. *)
Definition digit_char (d : Z) : ascii := ascii_of_N (Z.to_N (48 + d)).

(** The name [SCN_<date>_<d1 d2 d3>.log]. *)
Definition canonical_log_name (for_date : string) (d1 d2 d3 : Z) : string :=
  scenario_prefix for_date
  +:+ String (digit_char d1) (String (digit_char d2) (String (digit_char d3) ".log")).

(** [k] is the three-digit suffix of a canonical log name among [names]. *)
Definition canonical_suffix (for_date : string) (names : list string) (k : Z) : Prop :=
  ∃ d1 d2 d3, 0 ≤ d1 ≤ 9 ∧ 0 ≤ d2 ≤ 9 ∧ 0 ≤ d3 ≤ 9
    ∧ k = 100 * d1 + 10 * d2 + d3
    ∧ canonical_log_name for_date d1 d2 d3 ∈ names.

(** The suffix a name contributes to the scan, if any. *)
Definition name_suffix (token name : string) : option Z :=
  pattern_match token name ≫= Py.int.

(** Every file name keys at most one row. *)
Definition unique_keys (rows : list rowdict) : Prop :=
  ∀ filename i j r r',
    rows !! i = Some r → rows !! j = Some r' →
    keyed filename r → keyed filename r' → i = j.

(** No cell of the row is an [int]: what [DictReader] yields. *)
Definition text_cells (d : rowdict) : Prop :=
  ∀ k n, fields d !! k ≠ Some (CInt n).

(** The relation between the rows in memory and the records written. *)
Definition written_as (rows : list rowdict) (records : list (list string)) : Prop :=
  Forall2 (λ d record, dict_to_list fieldnames d = Some record) rows records.

(** Every character of the line is white space. *)
Fixpoint blank (s : string) : Prop :=
  match s with
  | "" => True
  | String c s' => Py.isspace c = true ∧ blank s'
  end.

(** A row [DictWriter] accepts under the fixed field names. *)
Definition writable (d : rowdict) : Prop :=
  restkey d = None ∧ ∀ k, is_Some (fields d !! k) → k ∈ fieldnames.

(** The record [DictWriter] writes for the row built by the script. *)
Definition row_record (v : row_values) (created_at_value : cell) : list string :=
  [v_date v; v_filename v; Py.str (v_file_size v); Py.str (v_record_count v);
   v_metadata_file v; cell_text created_at_value; v_test_description v;
   v_log_link v; v_metadata_link v].

(** [c] occurs in [s]. *)
Fixpoint has_char (c : ascii) (s : string) : bool :=
  match s with
  | "" => false
  | String a s' => bool_decide (a = c) || has_char c s'
  end.

(** [old] occurs in [s]. *)
Definition occurs (old s : string) : Prop := ∃ a b, s = a +:+ old +:+ b.

(** The file name a row is filed under, if it has one. *)
Definition key_of (r : rowdict) : option string :=
  match fields r !! "filename" with
  | Some (CStr filename) => Some filename
  | _ => None
  end.

(** A run of upserts, each with its values and its time. *)
Definition upsert_all (rows : list rowdict) (calls : list (row_values * string))
  : list rowdict :=
  foldl (λ rows call, upsert rows call.1 call.2) rows calls.

(** A path segment that stays as it is in a path: not empty, not [.],
    without a slash. *)
Definition segment (s : string) : Prop :=
  s ≠ "" ∧ s ≠ "." ∧ has_char "/" s = false.

(** The record [main] of the backfill leaves for [row] under the header
    [names]: the two link columns hold the links of the row's date and file
    names, every other column holds the field of [row] at its place, empty
    where [row] is too short. *)
Definition backfilled (GITHUB_REPO : string) (names row record : list string)
  : Prop :=
  ∃ date filename metadata_file,
    (∀ j, names !! j = Some "date" → row !! j = Some date)
    ∧ (∀ j, names !! j = Some "filename" → row !! j = Some filename)
    ∧ (∀ j, names !! j = Some "metadata_file" → row !! j = Some metadata_file)
    ∧ ∀ j k, names !! j = Some k →
        record !! j
        = Some (if decide (k = "log_link")
                then blob_link GITHUB_REPO
                       (PurePosixPath.as_posix3 "logs" (Py.strip date)
                          (Py.strip filename))
                else if decide (k = "metadata_link")
                then blob_link GITHUB_REPO
                       (PurePosixPath.as_posix3 "logs" (Py.strip date)
                          (Py.strip metadata_file))
                else default "" (row !! j)).

(** The record [update_master_index] writes for its call, with the
    creation time given: the nine fields in the order of the header. *)
Definition call_record (REPO_GITHUB_PATH : string) (log_file : option file)
    (c : call) (created_at : string) : list string :=
  [date_str c; scenario_id c +:+ ".log"; Py.str (file_size log_file);
   Py.str (record_count log_file); scenario_id c +:+ ".metadata.json";
   created_at; test_type c; github_link REPO_GITHUB_PATH (log_path c);
   github_link REPO_GITHUB_PATH (metadata_path c)].

(** A record of the index file as the script writes it. *)
Definition sample_record (scenario_id created_at : string) : list string :=
  ["2025-08-11"; scenario_id +:+ ".log"; "7"; "1";
   scenario_id +:+ ".metadata.json"; created_at; "Idle"; ""; ""].

(** Three scenarios, each once; the second record has a tenth field. *)
Definition surplus_index : index_file :=
  Some [fieldnames;
        sample_record "SCN_2025_08_11_001" "2025-08-11T08:00:00Z";
        sample_record "SCN_2025_08_11_002" "2025-08-11T09:00:00Z" ++ ["surplus"];
        sample_record "SCN_2025_08_11_003" "2025-08-11T10:00:00Z"].

(** A header with a tenth column, and two records that fill it. *)
Definition extra_column_index : index_file :=
  Some [fieldnames ++ ["operator"];
        sample_record "SCN_2025_08_11_001" "2025-08-11T08:00:00Z" ++ ["cb"];
        sample_record "SCN_2025_08_12_001" "2025-08-12T09:00:00Z" ++ ["cb"]].

(** Two records of one file name, of nine fields each. *)
Definition duplicate_index : index_file :=
  Some [fieldnames;
        sample_record "SCN_2025_08_12_001" "2025-08-12T09:00:00Z";
        sample_record "SCN_2025_08_12_001" "2025-08-12T09:30:00Z"].

(** Two records of one file name, the second with a tenth field. *)
Definition duplicate_surplus_index : index_file :=
  Some [fieldnames;
        sample_record "SCN_2025_08_12_001" "2025-08-12T09:00:00Z";
        sample_record "SCN_2025_08_12_001" "2025-08-12T09:30:00Z" ++ ["surplus"]].

(** One scenario, its record cut short after the file name. *)
Definition short_record_index : index_file :=
  Some [fieldnames; ["2025-08-11"; "SCN_2025_08_11_001.log"]].

(** Two records of one file name, the second cut short after the file
    name. *)
Definition duplicate_short_index : index_file :=
  Some [fieldnames;
        sample_record "SCN_2025_08_12_001" "2025-08-12T09:00:00Z";
        ["2025-08-11"; "SCN_2025_08_12_001.log"]].

(** Two scenarios, each once, as the script writes them. *)
Definition sample_index : index_file :=
  Some [fieldnames;
        sample_record "SCN_2025_08_11_001" "2025-08-11T08:00:00Z";
        sample_record "SCN_2025_08_12_001" "2025-08-12T09:00:00Z"].

(** * Properties *)

(** ** Strings *)

Lemma str_app_cons a s t : String a s +:+ t = String a (s +:+ t).
Proof. reflexivity. Qed.

Lemma str_app_nil_l s : "" +:+ s = s.
Proof. reflexivity. Qed.

Lemma str_app_nil_r s : s +:+ "" = s.
Proof. induction s as [|a s IH]; [done|]. by rewrite str_app_cons, IH. Qed.

Lemma str_app_assoc s t u : (s +:+ t) +:+ u = s +:+ t +:+ u.
Proof. induction s as [|a s IH]; [done|]. by rewrite !str_app_cons, IH. Qed.

Lemma str_length_app s t :
  String.length (s +:+ t) = (String.length s + String.length t)%nat.
Proof. induction s as [|a s IH]; [done|]. rewrite str_app_cons. simpl. by rewrite IH. Qed.

(** Two decompositions with tails of the same length coincide. *)
Lemma str_app_inj_tail s1 s2 t1 t2 :
  String.length t1 = String.length t2 →
  s1 +:+ t1 = s2 +:+ t2 → s1 = s2 ∧ t1 = t2.
Proof.
  revert s2. induction s1 as [|a s1 IH]; intros [|b s2] Hlen Heq.
  - done.
  - rewrite str_app_nil_l in Heq. subst t1. rewrite str_length_app in Hlen. simpl in Hlen. lia.
  - rewrite str_app_nil_l in Heq. subst t2. rewrite str_length_app in Hlen. simpl in Hlen. lia.
  - rewrite !str_app_cons in Heq. injection Heq as -> Heq.
    destruct (IH _ Hlen Heq) as [-> ->]. done.
Qed.

Lemma removeprefix_Some p s r : Py.removeprefix p s = Some r ↔ s = p +:+ r.
Proof.
  revert s. induction p as [|a p IH]; intros s; simpl.
  - rewrite str_app_nil_l. destruct s; split; congruence.
  - rewrite str_app_cons. destruct s as [|b s]; [split; discriminate|].
    case_decide as Hab.
    + subst b. rewrite IH. split; congruence.
    + split; [discriminate|]. intros [= ? _]. by destruct Hab.
Qed.

Lemma startswith_true s p : Py.startswith s p = true ↔ ∃ r, s = p +:+ r.
Proof.
  unfold Py.startswith. rewrite bool_decide_eq_true. unfold is_Some.
  by setoid_rewrite removeprefix_Some.
Qed.

Lemma endswith_true s suffix : Py.endswith s suffix = true ↔ ∃ x, s = x +:+ suffix.
Proof.
  induction s as [|a s IH]; simpl.
  - rewrite orb_false_r, bool_decide_eq_true. split; [intros <-; by exists ""|].
    intros [[|??] H]; [done|]. by rewrite str_app_cons in H.
  - rewrite orb_true_iff, bool_decide_eq_true, IH. split.
    + intros [<-|[x ->]]; [by exists ""|]. by exists (String a x).
    + intros [[|b x] H]; [by left|]. rewrite str_app_cons in H. injection H as -> ->. eauto.
Qed.

(** ** Digits and [int] *)

Lemma digit_Some c d : Py.digit c = Some d ↔ 0 ≤ d ≤ 9 ∧ c = digit_char d.
Proof.
  unfold Py.digit, digit_char, Py.ord. split.
  - destruct (_ && _)%N eqn:H; [|done]. intros [= <-].
    apply andb_true_iff in H as [H1%N.leb_le H2%N.leb_le]. split; [lia|].
    replace (Z.to_N (48 + (Z.of_N (N_of_ascii c) - 48))) with (N_of_ascii c) by lia.
    by rewrite ascii_N_embedding.
  - intros [Hd ->].
    assert (d = 0 ∨ d = 1 ∨ d = 2 ∨ d = 3 ∨ d = 4 ∨ d = 5 ∨ d = 6 ∨ d = 7
            ∨ d = 8 ∨ d = 9) as Hcases by lia.
    repeat destruct Hcases as [->|Hcases]; try reflexivity. by subst.
Qed.

Lemma isdigit_true c : Py.isdigit c = true ↔ ∃ d, Py.digit c = Some d.
Proof. unfold Py.isdigit. by rewrite bool_decide_eq_true. Qed.

Lemma digit_not_space c d : Py.digit c = Some d → Py.isspace c = false.
Proof.
  unfold Py.digit, Py.isspace. cbv zeta. generalize (Py.ord c). intros n.
  destruct (_ && _)%N eqn:H; [|done]. intros _.
  apply andb_true_iff in H as [H1%N.leb_le H2%N.leb_le].
  repeat (apply orb_false_iff; split); try apply andb_false_iff;
    rewrite ?N.leb_gt, ?N.eqb_neq; lia.
Qed.

(** [int] reads a sign only in front of the digits. *)
Lemma int_unsigned c d t :
  Py.digit c = Some d →
  Py.strip (String c t) = String c t →
  Py.int (String c t) = Py.int_digits 0 false (String c t).
Proof.
  intros Hd Hs. unfold Py.int. rewrite Hs.
  apply digit_Some in Hd as [Hd ->].
  assert (d = 0 ∨ d = 1 ∨ d = 2 ∨ d = 3 ∨ d = 4 ∨ d = 5 ∨ d = 6 ∨ d = 7
          ∨ d = 8 ∨ d = 9) as Hcases by lia.
  repeat destruct Hcases as [->|Hcases]; try reflexivity. by subst.
Qed.

Lemma strip_three c1 c2 c3 :
  Py.isspace c1 = false → Py.isspace c3 = false →
  Py.strip (String c1 (String c2 (String c3 ""))) = String c1 (String c2 (String c3 "")).
Proof.
  intros H1 H3. unfold Py.strip. cbn [Py.lstrip]. rewrite H1.
  cbn [Py.rstrip]. by rewrite H3.
Qed.

Lemma int_three_digits c1 c2 c3 d1 d2 d3 :
  Py.digit c1 = Some d1 → Py.digit c2 = Some d2 → Py.digit c3 = Some d3 →
  Py.int (String c1 (String c2 (String c3 ""))) = Some (100 * d1 + 10 * d2 + d3).
Proof.
  intros H1 H2 H3.
  rewrite (int_unsigned _ d1); [|done|by apply strip_three; eapply digit_not_space].
  simpl. rewrite H1, H2, H3. f_equal. lia.
Qed.

(** ** Canonical log names *)

Lemma scan_step_suffix token next_idx name :
  scan_step token next_idx name
  = match name_suffix token name with
    | Some idx => if next_idx <=? idx then idx + 1 else next_idx
    | None => next_idx
    end.
Proof. unfold scan_step, name_suffix. by destruct (pattern_match token name). Qed.

Lemma canonical_endswith for_date d1 d2 d3 :
  Py.endswith (canonical_log_name for_date d1 d2 d3) ".log" = true.
Proof.
  apply endswith_true. unfold canonical_log_name.
  eexists (scenario_prefix for_date +:+ String _ (String _ (String _ ""))).
  by rewrite str_app_assoc.
Qed.

Lemma not_endswith_newline x : Py.endswith (x +:+ ".log" +:+ newline) ".log" = false.
Proof.
  apply not_true_is_false. intros [y Hy]%endswith_true.
  change ".log" with (".lo" +:+ "g") in Hy at 2.
  rewrite <-!str_app_assoc in Hy. by apply str_app_inj_tail in Hy as [_ ?].
Qed.

Lemma name_suffix_Some for_date name k :
  Py.endswith name ".log" = true →
  name_suffix (date_token for_date) name = Some k ↔
  ∃ d1 d2 d3, 0 ≤ d1 ≤ 9 ∧ 0 ≤ d2 ≤ 9 ∧ 0 ≤ d3 ≤ 9
    ∧ k = 100 * d1 + 10 * d2 + d3 ∧ name = canonical_log_name for_date d1 d2 d3.
Proof.
  intros Hlog. unfold name_suffix, pattern_match, canonical_log_name.
  fold (scenario_prefix for_date). split.
  - destruct (Py.removeprefix _ name) as [[|c1 [|c2 [|c3 rest]]]|] eqn:Hp;
      try discriminate. cbn [mbind option_bind].
    apply removeprefix_Some in Hp as ->.
    destruct (_ && _) eqn:Hc; [|discriminate]. cbn [mbind option_bind].
    apply andb_true_iff in Hc as [Hc Hrest].
    apply andb_true_iff in Hc as [Hc [d3 Hd3]%isdigit_true].
    apply andb_true_iff in Hc as [[d1 Hd1]%isdigit_true [d2 Hd2]%isdigit_true].
    rewrite (int_three_digits _ _ _ _ _ _ Hd1 Hd2 Hd3). intros [= <-].
    apply digit_Some in Hd1 as [? ->], Hd2 as [? ->], Hd3 as [? ->].
    assert (rest = ".log") as ->; [|by exists d1, d2, d3].
    apply orb_true_iff in Hrest as [?%bool_decide_eq_true| ->%bool_decide_eq_true];
      [done|].
    exfalso. revert Hlog.
    replace (scenario_prefix for_date +:+ _)
      with ((scenario_prefix for_date
             +:+ String (digit_char d1) (String (digit_char d2) (String (digit_char d3) "")))
            +:+ ".log" +:+ newline) by by rewrite str_app_assoc.
    by rewrite not_endswith_newline.
  - intros (d1 & d2 & d3 & Hr1 & Hr2 & Hr3 & -> & ->).
    assert (Py.removeprefix (scenario_prefix for_date)
              (scenario_prefix for_date +:+
                 String (digit_char d1) (String (digit_char d2) (String (digit_char d3) ".log")))
            = Some (String (digit_char d1) (String (digit_char d2) (String (digit_char d3) ".log"))))
      as -> by by apply removeprefix_Some.
    assert (Py.digit (digit_char d1) = Some d1) as H1 by by apply digit_Some.
    assert (Py.digit (digit_char d2) = Some d2) as H2 by by apply digit_Some.
    assert (Py.digit (digit_char d3) = Some d3) as H3 by by apply digit_Some.
    unfold Py.isdigit. rewrite H1, H2, H3. cbn [mbind option_bind]. simpl.
    by rewrite (int_three_digits _ _ _ _ _ _ H1 H2 H3).
Qed.

Lemma scan_fold token names next_idx :
  let r := foldl (scan_step token) next_idx names in
  next_idx ≤ r
  ∧ (∀ name k, name ∈ names → name_suffix token name = Some k → k + 1 ≤ r)
  ∧ (r = next_idx
     ∨ ∃ name k, name ∈ names ∧ name_suffix token name = Some k ∧ r = k + 1).
Proof.
  revert next_idx. induction names as [|name names IH]; intros next_idx; simpl.
  { split_and!; [lia| |by left]. by intros ?? ?%elem_of_nil. }
  destruct (IH (scan_step token next_idx name)) as (Hle & Hub & Hr).
  assert (next_idx ≤ scan_step token next_idx name) as Hstep.
  { rewrite scan_step_suffix. destruct (name_suffix _ _); [|lia].
    destruct (Z.leb_spec next_idx z); lia. }
  split_and!.
  - lia.
  - intros name' k [->|?]%elem_of_cons Hk; [|by eapply Hub].
    revert Hle. rewrite scan_step_suffix, Hk.
    destruct (Z.leb_spec next_idx k); lia.
  - destruct Hr as [Hr|(name' & k & ? & ? & ?)].
    + rewrite Hr, scan_step_suffix.
      destruct (name_suffix token name) as [k|] eqn:Hk; [|by left].
      destruct (Z.leb_spec next_idx k); [|by left].
      right. exists name, k. split_and!; [apply list_elem_of_here|done..].
    + right. exists name', k. split_and!; [by apply list_elem_of_further|done..].
Qed.

Lemma glob_suffix for_date logs_dir name k :
  name ∈ glob logs_dir ".log" ∧ name_suffix (date_token for_date) name = Some k ↔
  ∃ d1 d2 d3, 0 ≤ d1 ≤ 9 ∧ 0 ≤ d2 ≤ 9 ∧ 0 ≤ d3 ≤ 9
    ∧ k = 100 * d1 + 10 * d2 + d3
    ∧ name = canonical_log_name for_date d1 d2 d3 ∧ name ∈ entries logs_dir.
Proof.
  unfold glob. rewrite list_elem_of_filter. split.
  - intros [[Hlog Hin] Hk]. apply name_suffix_Some in Hk; [|done].
    destruct Hk as (d1 & d2 & d3 & ? & ? & ? & ? & ?). by exists d1, d2, d3.
  - intros (d1 & d2 & d3 & ? & ? & ? & ? & Hname & ?).
    assert (Py.endswith name ".log" = true) by (subst name; apply canonical_endswith).
    split; [done|]. apply name_suffix_Some; [done|]. by exists d1, d2, d3.
Qed.

Lemma next_index_spec for_date logs_dir :
  let names := entries logs_dir in
  let r := next_index for_date logs_dir in
  1 ≤ r
  ∧ (∀ k, canonical_suffix for_date names k → k + 1 ≤ r)
  ∧ (r = 1 ∨ ∃ k, canonical_suffix for_date names k ∧ r = k + 1).
Proof.
  intros names r.
  assert (r = foldl (scan_step (date_token for_date)) 1 (glob logs_dir ".log")) as Hr.
  { unfold r, next_index. by destruct logs_dir. }
  destruct (scan_fold (date_token for_date) (glob logs_dir ".log") 1)
    as (Hle & Hub & Hex). rewrite <-Hr in Hle, Hub, Hex.
  split_and!; [done| |].
  - intros k (d1 & d2 & d3 & ? & ? & ? & ? & ?).
    destruct (proj2 (glob_suffix for_date logs_dir
                       (canonical_log_name for_date d1 d2 d3) k)) as [Hin Hk];
      [by exists d1, d2, d3|].
    by apply (Hub _ _ Hin Hk).
  - destruct Hex as [?|(name & k & Hin & Hk & ?)]; [by left|right].
    exists k. split; [|done].
    destruct (proj1 (glob_suffix for_date logs_dir name k) (conj Hin Hk))
      as (d1 & d2 & d3 & ? & ? & ? & ? & -> & ?).
    by exists d1, d2, d3.
Qed.

Lemma canonical_suffix_range for_date names k :
  canonical_suffix for_date names k → 0 ≤ k ≤ 999.
Proof. intros (d1 & d2 & d3 & ? & ? & ? & -> & _). lia. Qed.


(** C9. Only three-digit suffixes are read and the new suffix is written
    with at least three digits: whenever the directory holds
    [SCN_<date>_999.log] the result is [SCN_<date>_1000], whatever else is
    there; if [SCN_<date>_1000.log] is there too, the result names a file that
    already exists. *)
Theorem generate_scenario_id_past_999 for_date names :
  scenario_prefix for_date +:+ "999.log" ∈ names →
  generate_scenario_id for_date (Directory names)
  = scenario_prefix for_date +:+ "1000"
  ∧ (scenario_prefix for_date +:+ "1000.log" ∈ names →
     generate_scenario_id for_date (Directory names) +:+ ".log" ∈ names).
Proof.
  intros H999.
  assert (generate_scenario_id for_date (Directory names)
          = scenario_prefix for_date +:+ "1000") as ->.
  { change (generate_scenario_id for_date (Directory names))
      with (scenario_prefix for_date +:+ Py.format_03d (next_index for_date (Directory names))).
    destruct (next_index_spec for_date (Directory names)) as (Hle & Hub & Hex).
    assert (canonical_suffix for_date names 999) as H.
    { exists 9, 9, 9. split_and!; try lia. done. }
    apply Hub in H.
    assert (next_index for_date (Directory names) = 1000) as ->; [|done].
    destruct Hex as [?|(k & ?%canonical_suffix_range & ?)]; simpl in *; lia. }
  split; [done|]. by rewrite str_app_assoc.
Qed.

Lemma generate_scenario_id_past_999_witness :
  "SCN_2025_08_12_999.log"
  ∈ ["SCN_2025_08_12_999.log"; "SCN_2025_08_12_1000.log"]
  ∧ generate_scenario_id "2025-08-12"
      (Directory ["SCN_2025_08_12_999.log"; "SCN_2025_08_12_1000.log"])
    = "SCN_2025_08_12_1000"
  ∧ generate_scenario_id "2025-08-12"
      (Directory ["SCN_2025_08_12_999.log"; "SCN_2025_08_12_1000.log"]) +:+ ".log"
    ∈ ["SCN_2025_08_12_999.log"; "SCN_2025_08_12_1000.log"].
Proof.
  assert ("SCN_2025_08_12_999.log"
          ∈ ["SCN_2025_08_12_999.log"; "SCN_2025_08_12_1000.log"]) as H999
    by apply list_elem_of_here.
  destruct (generate_scenario_id_past_999 "2025-08-12"
              ["SCN_2025_08_12_999.log"; "SCN_2025_08_12_1000.log"] H999)
    as [H1 H2].
  split_and!; [exact H999|exact H1|].
  apply H2. apply list_elem_of_further, list_elem_of_here.
Defined.

(** ** Metadata file names without a second [.metadata] *)

Lemma has_char_app c a b : has_char c (a +:+ String c b) = true.
Proof.
  induction a as [|x a IH]; [simpl; by rewrite bool_decide_eq_true_2|].
  rewrite str_app_cons. simpl. by rewrite IH, orb_true_r.
Qed.

Lemma rfind_None c s : has_char c s = false → Py.rfind c s = None.
Proof.
  induction s as [|a s IH]; [done|]. simpl.
  intros [Ha Hs]%orb_false_iff. rewrite (IH Hs).
  apply bool_decide_eq_false in Ha. by rewrite decide_False.
Qed.

Lemma rfind_last c s t :
  has_char c t = false → Py.rfind c (s +:+ String c t) = Some (String.length s).
Proof.
  intros Ht. induction s as [|a s IH].
  - simpl. by rewrite (rfind_None _ _ Ht), decide_True.
  - rewrite str_app_cons. simpl. by rewrite IH.
Qed.

Lemma substring_prefix s t : String.substring 0 (String.length s) (s +:+ t) = s.
Proof.
  induction s as [|a s IH]; [by destruct t|]. rewrite str_app_cons. simpl. by rewrite IH.
Qed.

Lemma stem_json x : stem (x +:+ ".metadata.json") = x +:+ ".metadata".
Proof.
  unfold stem.
  replace (x +:+ ".metadata.json") with ((x +:+ ".metadata") +:+ String "." "json")
    by by rewrite str_app_assoc.
  rewrite rfind_last by done.
  rewrite bool_decide_eq_true_2; [apply substring_prefix|].
  rewrite !str_length_app. simpl. lia.
Qed.

Lemma occurs_cons old c s : occurs old s → occurs old (String c s).
Proof. intros (a & b & ->). by exists (String c a), b. Qed.

(** Two ways of cutting one string. *)
Lemma str_app_eq_app s t u r :
  s +:+ t = u +:+ r →
  (∃ w, s = u +:+ w) ∨ (∃ w, w ≠ "" ∧ u = s +:+ w ∧ t = w +:+ r).
Proof.
  revert u. induction s as [|a s IH]; intros u H.
  - destruct u as [|b u]; [left; by exists ""|].
    right. exists (String b u). by rewrite str_app_nil_l in H.
  - destruct u as [|b u]; [left; by exists (String a s)|].
    rewrite !str_app_cons in H. injection H as -> H.
    destruct (IH _ H) as [[w ->]|(w & ? & -> & ->)]; [left|right]; by exists w.
Qed.

Lemma replace_suffix_only x :
  ¬ occurs ".metadata" x →
  Py.replace (x +:+ ".metadata") ".metadata" "" = x.
Proof.
  unfold Py.replace. induction x as [|c x IH]; intros Hocc; [done|].
  rewrite str_app_cons. cbn [Py.replace_from].
  destruct (Py.startswith (String c (x +:+ ".metadata")) ".metadata") eqn:Hs.
  - exfalso. apply startswith_true in Hs as [r Hr].
    change (String c (x +:+ ".metadata")) with (String c x +:+ ".metadata") in Hr.
    apply str_app_eq_app in Hr as [[w Hw]|(w & Hw & Hold & Hw')].
    + apply Hocc. by exists "", w.
    + destruct w as [|d w]; [done|]. injection Hw' as <- _.
      rewrite str_app_cons in Hold. injection Hold as _ Hold.
      pose proof (has_char_app "." x w) as Hdot. by rewrite <-Hold in Hdot.
  - f_equal. apply IH. intros ?. by apply Hocc, occurs_cons.
Qed.

(** A metadata file name with no [.metadata] before its extension stands
    for the identifier in front of the extension. *)
Lemma scenario_of_metadata_plain x :
  ¬ occurs ".metadata" x →
  scenario_of_metadata (x +:+ ".metadata.json") = x.
Proof. intros H. unfold scenario_of_metadata. by rewrite stem_json, replace_suffix_only. Qed.

(** ** Pending scenarios *)

Lemma insert_by_key_perm {A} (key : A → Z) x l : insert_by_key key x l ≡ₚ x :: l.
Proof.
  induction l as [|y l IH]; simpl; [done|].
  destruct (key x <=? key y); [done|]. by rewrite IH, Permutation_swap.
Qed.

Lemma sort_by_key_perm {A} (key : A → Z) l : sort_by_key key l ≡ₚ l.
Proof.
  induction l as [|x l IH]; simpl; [done|]. by rewrite insert_by_key_perm, IH.
Qed.

Lemma insert_by_key_sorted {A} (key : A → Z) x l :
  Sorted (λ a b, key a ≤ key b) l →
  Sorted (λ a b, key a ≤ key b) (insert_by_key key x l).
Proof.
  induction 1 as [|y l Hl IH Hy]; simpl; [by repeat constructor|].
  destruct (Z.leb_spec (key x) (key y)).
  - by repeat constructor.
  - constructor; [done|]. destruct Hy as [|z l Hz]; simpl.
    + constructor. lia.
    + destruct (key x <=? key z); constructor; lia.
Qed.

Lemma sort_by_key_sorted {A} (key : A → Z) l :
  Sorted (λ a b, key a ≤ key b) (sort_by_key key l).
Proof.
  induction l as [|x l IH]; simpl; [constructor|]. by apply insert_by_key_sorted.
Qed.

Lemma pending_fold logs_dir for_date names candidates sid :
  sid ∈ foldl (pending_step logs_dir for_date) candidates names ↔
  sid ∈ candidates
  ∨ (∃ name, name ∈ names ∧ scenario_of_metadata name = sid
       ∧ child_exists logs_dir (sid +:+ ".log") = false
       ∧ Py.startswith sid (scenario_prefix for_date) = true).
Proof.
  revert candidates. induction names as [|name names IH]; intros candidates; simpl.
  { split; [by left|]. intros [?|(? & []%elem_of_nil & _)]. done. }
  rewrite IH. unfold pending_step.
  fold (scenario_prefix for_date).
  destruct (child_exists logs_dir (scenario_of_metadata name +:+ ".log")) eqn:Hlog.
  - simpl. split.
    + intros [?|(n & ? & ?)]; [by left|right]. exists n. by rewrite elem_of_cons; auto.
    + intros [?|(n & [->|?]%elem_of_cons & Hn & Hno & ?)]; [by left| |by right; eauto].
      rewrite <-Hn in Hno. congruence.
  - simpl.
    destruct (Py.startswith (scenario_of_metadata name) (scenario_prefix for_date)) eqn:Hp.
    + rewrite elem_of_app, list_elem_of_singleton. split.
      * intros [[?| ->]|(n & ? & ?)]; [by left|right..].
        -- exists name. split_and!; [apply list_elem_of_here|done..].
        -- exists n. by rewrite elem_of_cons; auto.
      * intros [?|(n & [->|?]%elem_of_cons & Hn & ?)]; [by left;left|left;by right|].
        right. by exists n.
    + split.
      * intros [?|(n & ? & ?)]; [by left|right]. exists n. by rewrite elem_of_cons; auto.
      * intros [?|(n & [->|?]%elem_of_cons & Hn & Hno & Hp')]; [by left| |by right; eauto].
        rewrite <-Hn in Hp'. congruence.
Qed.

(** The identifiers listed are those read off the metadata file names, of
    the prefix of the date and without a log of their name; they come sorted by
    numeric suffix. *)
Lemma list_metadata_only_scenarios_spec logs_dir for_date :
  (∀ sid,
     sid ∈ list_metadata_only_scenarios logs_dir for_date ↔
     ∃ name, name ∈ entries logs_dir
       ∧ Py.endswith name ".metadata.json" = true
       ∧ scenario_of_metadata name = sid
       ∧ child_exists logs_dir (sid +:+ ".log") = false
       ∧ Py.startswith sid (scenario_prefix for_date) = true)
  ∧ Sorted (λ a b, suffix_num a ≤ suffix_num b)
      (list_metadata_only_scenarios logs_dir for_date).
Proof.
  unfold list_metadata_only_scenarios.
  destruct (path_exists logs_dir) eqn:Hexists; cbn [negb].
  - split; [|apply sort_by_key_sorted]. intros sid.
    rewrite sort_by_key_perm, pending_fold. unfold glob. split.
    + intros [?%elem_of_nil|(name & [??]%list_elem_of_filter & ?)]; [done|].
      by exists name.
    + intros (name & ? & ? & ?). right. exists name.
      by rewrite list_elem_of_filter.
  - destruct logs_dir; try discriminate Hexists.
    split; [|constructor]. intros sid. split; [by intros ?%elem_of_nil|].
    by intros (? & ?%elem_of_nil & _).
Qed.

(** No listed identifier has a log file of its name. *)
Lemma list_metadata_only_scenarios_no_log logs_dir for_date sid :
  sid ∈ list_metadata_only_scenarios logs_dir for_date →
  child_exists logs_dir (sid +:+ ".log") = false.
Proof.
  by intros (name & _ & _ & _ & Hlog & _)%list_metadata_only_scenarios_spec.
Qed.

(** Declining the only pending scenario leads to [generate_scenario_id]. *)
Lemma choose_declined for_date logs_dir pending message stdin stdin' :
  list_metadata_only_scenarios logs_dir for_date = [pending] →
  message = "Reuse existing metadata-only scenario '" +:+ pending
            +:+ "' for this date?" →
  prompt_yes_no message true stdin = (Return false, stdin') →
  choose_or_generate_scenario_id for_date logs_dir stdin
  = (Return (generate_scenario_id for_date logs_dir), stdin').
Proof.
  intros Hone -> Hno. unfold choose_or_generate_scenario_id, io_bind.
  by rewrite Hone, Hno.
Qed.

(** ** The in-memory upsert *)

Lemma index_row_fields v c :
  fields (index_row v c) !! "date" = Some (CStr (v_date v))
  ∧ fields (index_row v c) !! "filename" = Some (CStr (v_filename v))
  ∧ fields (index_row v c) !! "file_size" = Some (CInt (v_file_size v))
  ∧ fields (index_row v c) !! "record_count" = Some (CInt (v_record_count v))
  ∧ fields (index_row v c) !! "metadata_file" = Some (CStr (v_metadata_file v))
  ∧ fields (index_row v c) !! "created_at" = Some c
  ∧ fields (index_row v c) !! "test_description" = Some (CStr (v_test_description v))
  ∧ fields (index_row v c) !! "log_link" = Some (CStr (v_log_link v))
  ∧ fields (index_row v c) !! "metadata_link" = Some (CStr (v_metadata_link v)).
Proof. unfold index_row; simpl. split_and!; by simplify_map_eq. Qed.

Lemma index_row_keyed v c : keyed (v_filename v) (index_row v c).
Proof. apply index_row_fields. Qed.

Lemma upsert_existing before existing after v T :
  Forall (λ r, ¬ keyed (v_filename v) r) before →
  keyed (v_filename v) existing →
  upsert (before ++ existing :: after) v T
  = before ++ index_row v (kept_created_at existing T) :: after.
Proof.
  intros Hbefore Hkey. unfold upsert.
  assert (list_find (keyed (v_filename v)) (before ++ existing :: after)
          = Some (length before, existing)) as ->.
  { apply list_find_Some. split_and!; [|done|].
    - by rewrite list_lookup_middle.
    - intros j y Hj Hlt. rewrite lookup_app_l in Hj by done.
      exact (proj1 (Forall_lookup _ _) Hbefore j y Hj). }
  rewrite <-(Nat.add_0_r (length before)). by rewrite insert_app_r.
Qed.

Lemma upsert_absent rows v T :
  Forall (λ r, ¬ keyed (v_filename v) r) rows →
  upsert rows v T = rows ++ [index_row v (CStr T)].
Proof.
  intros H. unfold upsert.
  by rewrite (proj2 (list_find_None (keyed (v_filename v)) rows) H).
Qed.

Lemma rows_split filename (rows : list rowdict) :
  Forall (λ r, ¬ keyed filename r) rows
  ∨ ∃ before existing after,
      rows = before ++ existing :: after
      ∧ Forall (λ r, ¬ keyed filename r) before ∧ keyed filename existing.
Proof.
  destruct (list_find (keyed filename) rows) as [[i existing]|] eqn:Hfind.
  - right. apply list_find_Some in Hfind as (Hi & Hkey & Hfirst).
    exists (take i rows), existing, (drop (S i) rows). split_and!; [| |done].
    + by rewrite take_drop_middle.
    + apply Forall_lookup. intros j y [Hj Hlt]%lookup_take_Some. eauto.
  - left. exact (proj1 (list_find_None (keyed filename) rows) Hfind).
Qed.

Lemma unique_keys_after filename before existing after :
  unique_keys (before ++ existing :: after) → keyed filename existing →
  Forall (λ r, ¬ keyed filename r) after.
Proof.
  intros Huniq Hkey. apply Forall_lookup. intros j r Hj Hr.
  assert (length before = length before + S j)%nat as Heq; [|lia].
  apply (Huniq filename _ _ existing r); [|  |done..].
  - by rewrite list_lookup_middle.
  - rewrite lookup_app_r by lia.
    by replace (length before + S j - length before)%nat with (S j) by lia.
Qed.

Lemma filter_none filename (rows : list rowdict) :
  Forall (λ r, ¬ keyed filename r) rows → filter (keyed filename) rows = [].
Proof.
  induction 1 as [|r rows Hr _ IH]; [done|]. by rewrite filter_cons_False.
Qed.

Lemma filter_upserted filename before new after :
  Forall (λ r, ¬ keyed filename r) before → keyed filename new →
  filter (keyed filename) (before ++ new :: after)
  = new :: filter (keyed filename) after.
Proof.
  intros Hbefore Hnew.
  by rewrite filter_app, (filter_none _ _ Hbefore), filter_cons_True.
Qed.

Lemma unique_keys_upserted v c before existing after :
  unique_keys (before ++ existing :: after) →
  keyed (v_filename v) existing →
  unique_keys (before ++ index_row v c :: after).
Proof.
  intros Huniq Hkey filename i j r r' Hi Hj Hr Hr'.
  assert (∀ k x, (before ++ index_row v c :: after) !! k = Some x →
                 keyed filename x →
                 ∃ y, (before ++ existing :: after) !! k = Some y ∧ keyed filename y)
    as Hback.
  { intros k x Hk Hx. destruct (decide (k = length before)) as [->|Hne].
    - rewrite list_lookup_middle in Hk by done. injection Hk as <-.
      exists existing. rewrite list_lookup_middle by done. split; [done|].
      unfold keyed in *. destruct (index_row_fields v c) as (_ & Hf & _). congruence.
    - exists x. split; [|done]. revert Hk.
      rewrite <-(Nat.add_0_r (length before)) in Hne.
      replace (before ++ index_row v c :: after)
        with (<[(length before + 0)%nat := index_row v c]> (before ++ existing :: after))
        by by rewrite insert_app_r.
      by rewrite list_lookup_insert_ne by lia. }
  destruct (Hback i r Hi Hr) as (y & ? & ?), (Hback j r' Hj Hr') as (y' & ? & ?).
  by eapply Huniq.
Qed.

Lemma unique_keys_appended v c rows :
  unique_keys rows → Forall (λ r, ¬ keyed (v_filename v) r) rows →
  unique_keys (rows ++ [index_row v c]).
Proof.
  intros Huniq Hnone filename i j r r' Hi Hj Hr Hr'.
  assert (∀ k x, (rows ++ [index_row v c]) !! k = Some x → keyed filename x →
                 (rows !! k = Some x ∧ filename ≠ v_filename v)
                 ∨ (k = length rows ∧ filename = v_filename v)) as Hcases.
  { intros k x [Hk|[Hk Hx]]%lookup_app_Some Hkey.
    - left. split; [done|]. intros ->.
      exact (proj1 (Forall_lookup _ _) Hnone k x Hk Hkey).
    - right. apply list_lookup_singleton_Some in Hx as [Hz <-].
      split; [lia|]. unfold keyed in Hkey.
      destruct (index_row_fields v c) as (_ & Hf & _). congruence. }
  destruct (Hcases i r Hi Hr) as [[??]|[??]], (Hcases j r' Hj Hr') as [[??]|[??]];
    [by eapply Huniq|congruence..].
Qed.

(** On the rows in memory, before they are written: when every file name
    keys at most one row, the rows after [upsert] hold exactly one row of the
    given file name; a row of another file name is at a position after the
    call exactly when it was there before; the row of the file name was
    replaced in place or, when there was none, appended; and every file name
    still keys at most one row. *)
Lemma upsert_one_row rows v T :
  unique_keys rows →
  length (filter (keyed (v_filename v)) (upsert rows v T)) = 1%nat
  ∧ (∀ i r, ¬ keyed (v_filename v) r →
       upsert rows v T !! i = Some r ↔ rows !! i = Some r)
  ∧ ((∃ i existing,
        rows !! i = Some existing ∧ keyed (v_filename v) existing
        ∧ upsert rows v T = <[i := index_row v (kept_created_at existing T)]> rows)
     ∨ (Forall (λ r, ¬ keyed (v_filename v) r) rows
        ∧ upsert rows v T = rows ++ [index_row v (CStr T)]))
  ∧ unique_keys (upsert rows v T).
Proof.
  intros Huniq.
  destruct (rows_split (v_filename v) rows)
    as [Hnone|(before & existing & after & -> & Hbefore & Hkey)].
  - rewrite (upsert_absent _ _ _ Hnone). split_and!.
    + by rewrite filter_app, (filter_none _ _ Hnone),
        (filter_cons_True _ _ _ (index_row_keyed v _)).
    + intros i r Hr. rewrite lookup_app_Some, list_lookup_singleton_Some. split.
      * intros [?|(_ & _ & <-)]; [done|]. by destruct Hr, (index_row_keyed v (CStr T)).
      * by left.
    + by right.
    + by apply unique_keys_appended.
  - rewrite (upsert_existing _ _ _ _ _ Hbefore Hkey).
    pose proof (unique_keys_after _ _ _ _ Huniq Hkey) as Hafter.
    split_and!.
    + by rewrite (filter_upserted _ _ _ _ Hbefore (index_row_keyed v _)),
        (filter_none _ _ Hafter).
    + intros i r Hr. destruct (decide (i = length before)) as [->|Hne].
      * rewrite !list_lookup_middle by done. split; intros [= <-]; [|done].
        by destruct Hr, (index_row_keyed v (kept_created_at existing T)).
      * rewrite <-(Nat.add_0_r (length before)) in Hne.
        replace (before ++ index_row v _ :: after)
          with (<[(length before + 0)%nat := index_row v (kept_created_at existing T)]>
                  (before ++ existing :: after)) by by rewrite insert_app_r.
        by rewrite list_lookup_insert_ne by lia.
    + left. exists (length before), existing. split_and!; [|done|].
      * by rewrite list_lookup_middle.
      * rewrite <-(Nat.add_0_r (length before)). by rewrite insert_app_r.
    + by eapply unique_keys_upserted.
Qed.

(** On the rows in memory: when the first row of the file name holds a
    non-empty creation time [T1], [upsert] with the new time [T2] puts at its
    place the row built with [T1]; when that row has no creation time, or an
    empty one, the row built with [T2]. *)
Lemma upsert_created_at before existing after v T2 :
  Forall (λ r, ¬ keyed (v_filename v) r) before →
  keyed (v_filename v) existing →
  (∀ T1, fields existing !! "created_at" = Some (CStr T1) → T1 ≠ "" →
     upsert (before ++ existing :: after) v T2
     = before ++ index_row v (CStr T1) :: after)
  ∧ (fields existing !! "created_at" = None
     ∨ fields existing !! "created_at" = Some CNone
     ∨ fields existing !! "created_at" = Some (CStr "") →
     upsert (before ++ existing :: after) v T2
     = before ++ index_row v (CStr T2) :: after).
Proof.
  intros Hbefore Hkey. rewrite (upsert_existing _ _ _ _ _ Hbefore Hkey).
  unfold kept_created_at. split.
  - intros T1 -> HT1. simpl. unfold Py.truthy. by rewrite bool_decide_eq_true_2.
  - by intros [->|[->| ->]].
Qed.

(** On the rows in memory: when two or more rows carry the file name,
    [upsert] replaces the first of them and leaves every row after it as it
    was, so the rows still hold as many rows of that file name as before. *)
Lemma upsert_first_of_duplicates rows v T :
  (2 ≤ length (filter (keyed (v_filename v)) rows))%nat →
  ∃ before first later,
    rows = before ++ first :: later
    ∧ Forall (λ r, ¬ keyed (v_filename v) r) before
    ∧ keyed (v_filename v) first
    ∧ upsert rows v T = before ++ index_row v (kept_created_at first T) :: later
    ∧ (1 ≤ length (filter (keyed (v_filename v)) later))%nat
    ∧ length (filter (keyed (v_filename v)) (upsert rows v T))
      = length (filter (keyed (v_filename v)) rows).
Proof.
  intros Hdup.
  destruct (rows_split (v_filename v) rows)
    as [Hnone|(before & first & later & -> & Hbefore & Hkey)].
  { rewrite (filter_none _ _ Hnone) in Hdup. simpl in Hdup. lia. }
  exists before, first, later.
  rewrite (filter_upserted _ _ _ _ Hbefore Hkey) in Hdup. simpl in Hdup.
  rewrite (upsert_existing _ _ _ _ _ Hbefore Hkey).
  rewrite (filter_upserted _ _ _ _ Hbefore (index_row_keyed v _)),
    (filter_upserted _ _ _ _ Hbefore Hkey).
  split_and!; try done. lia.
Qed.

(** ** Reading and writing the index file *)

Lemma zip_cells_other names row d k :
  k ∉ names → zip_cells names row d !! k = d !! k.
Proof.
  revert row d. induction names as [|k' names IH]; intros row d Hk; [done|].
  apply not_elem_of_cons in Hk as [Hne Hk].
  destruct row; simpl; rewrite IH by done; by rewrite lookup_insert_ne.
Qed.

Lemma zip_cells_lookup names row d i k :
  NoDup names → names !! i = Some k →
  zip_cells names row d !! k = Some (from_option CStr CNone (row !! i)).
Proof.
  revert row d i. induction names as [|k' names IH]; intros row d i Hnd Hi; [done|].
  apply NoDup_cons in Hnd as [Hk' Hnd]. destruct i as [|i]; simpl in Hi.
  - injection Hi as ->.
    destruct row; simpl; rewrite zip_cells_other by done; by rewrite lookup_insert_eq.
  - destruct row; simpl; [by rewrite (IH [] _ i)|by apply IH].
Qed.

Lemma zip_cells_dom names row d k :
  is_Some (zip_cells names row d !! k) → k ∈ names ∨ is_Some (d !! k).
Proof.
  revert row d. induction names as [|k' names IH]; intros row d Hk; [by right|].
  destruct (decide (k = k')) as [->|Hne]; [left; apply list_elem_of_here|].
  destruct row; simpl in Hk; apply IH in Hk as [?|Hk];
    try (left; by apply list_elem_of_further);
    right; by rewrite lookup_insert_ne in Hk.
Qed.

Lemma zip_cells_text names row d :
  (∀ k n, d !! k ≠ Some (CInt n)) →
  ∀ k n, zip_cells names row d !! k ≠ Some (CInt n).
Proof.
  revert row d. induction names as [|k' names IH]; intros row d Hd; [done|].
  destruct row; simpl; apply IH; intros k n;
    (destruct (decide (k' = k)) as [->|?];
     [by rewrite lookup_insert_eq|by rewrite lookup_insert_ne]).
Qed.

Lemma read_row_text names row : text_cells (read_row names row).
Proof.
  unfold text_cells, read_row. simpl. apply zip_cells_text.
  intros k n. by rewrite lookup_empty.
Qed.

Lemma load_rows_text index : Forall text_cells (load_rows index).
Proof.
  destruct index as [[|names data]|]; simpl; try by constructor.
  apply Forall_fmap, Forall_forall. intros row _. apply read_row_text.
Qed.

Lemma dict_to_list_Some names d record :
  dict_to_list names d = Some record ↔
  restkey d = None ∧ (∀ k, is_Some (fields d !! k) → k ∈ names)
  ∧ record = (λ k, from_option cell_text "" (fields d !! k)) <$> names.
Proof.
  unfold dict_to_list. case_bool_decide as H.
  - destruct H as [Hrest Hdom]. split.
    + intros [= <-]. split_and!; [done| |done].
      intros k Hk. by apply Hdom, elem_of_dom.
    + by intros (_ & _ & ->).
  - split; [done|]. intros (Hrest & Hdom & _). destruct H. split; [done|].
    intros k Hk. by apply Hdom, elem_of_dom.
Qed.

Lemma dict_to_list_length names d record :
  dict_to_list names d = Some record → length record = length names.
Proof. intros (_ & _ & ->)%dict_to_list_Some. by rewrite length_fmap. Qed.

(** Reading back a written record gives, in each column, the text that was
    written. *)
Lemma read_written names d record k :
  NoDup names → dict_to_list names d = Some record → k ∈ names →
  fields (read_row names record) !! k
  = Some (CStr (from_option cell_text "" (fields d !! k))).
Proof.
  intros Hnd (_ & _ & ->)%dict_to_list_Some [i Hi]%list_elem_of_lookup.
  simpl. rewrite (zip_cells_lookup _ _ _ i) by done.
  by rewrite list_lookup_fmap, Hi.
Qed.

(** A record as long as the header is written back as it was read. *)
Lemma write_read names record :
  NoDup names → length record = length names →
  dict_to_list names (read_row names record) = Some record.
Proof.
  intros Hnd Hlen. apply dict_to_list_Some. split_and!.
  - simpl. rewrite bool_decide_eq_false_2; [done|lia].
  - intros k [Hk|Hk]%zip_cells_dom; [done|]. rewrite lookup_empty in Hk.
    by destruct Hk.
  - apply list_eq. intros i. rewrite list_lookup_fmap.
    destruct (names !! i) as [k|] eqn:Hi; simpl.
    + rewrite (zip_cells_lookup _ _ _ i) by done.
      destruct (record !! i) as [x|] eqn:Hx; [done|].
      apply lookup_ge_None in Hx. apply lookup_lt_Some in Hi. lia.
    + apply lookup_ge_None. apply lookup_ge_None in Hi. lia.
Qed.

Lemma writerows_Return names rows written written' :
  writerows names rows written = (Return (), written') ↔
  ∃ records,
    Forall2 (λ d record, dict_to_list names d = Some record) rows records
    ∧ written' = written ++ records.
Proof.
  revert written. induction rows as [|d rows IH]; intros written; simpl.
  - split.
    + intros [= <-]. exists []. by rewrite app_nil_r.
    + intros (records & ->%Forall2_nil_inv_l & ->). by rewrite app_nil_r.
  - destruct (dict_to_list names d) as [record|] eqn:Hd.
    + rewrite IH. split.
      * intros (records & ? & ->). exists (record :: records).
        split; [by constructor|]. by rewrite <-app_assoc.
      * intros (records & (record' & records' & Hd' & ? & ->)%Forall2_cons_inv_l & ->).
        exists records'. assert (record' = record) as -> by congruence.
        split; [done|]. by rewrite <-app_assoc.
    + split; [done|].
      intros (records & (record' & records' & Hd' & ? & ->)%Forall2_cons_inv_l & _).
      congruence.
Qed.

Lemma fieldnames_NoDup : NoDup fieldnames.
Proof. apply (bool_decide_unpack _). by vm_compute. Qed.

Lemma filter_all {A} (P : A → Prop) `{!∀ x, Decision (P x)} (l : list A) :
  Forall P l → filter P l = l.
Proof.
  induction 1 as [|x l Hx _ IH]; [done|]. by rewrite filter_cons_True, IH.
Qed.

(** Loading a file that [update_master_index] wrote. *)
Lemma load_written rows records :
  Forall2 (λ d record, dict_to_list fieldnames d = Some record) rows records →
  load_rows (Some (fieldnames :: records)) = read_row fieldnames <$> records.
Proof.
  intros H. simpl. f_equal. apply filter_all.
  eapply Forall2_Forall_r; [done|]. apply Forall_forall.
  intros record _ d Hd%dict_to_list_length ->. done.
Qed.

Lemma filename_in_fieldnames : "filename" ∈ fieldnames.
Proof. apply (bool_decide_unpack _). by vm_compute. Qed.

Lemma created_at_in_fieldnames : "created_at" ∈ fieldnames.
Proof. apply (bool_decide_unpack _). by vm_compute. Qed.

(** A row of another file name is still one after a write and a read. *)
Lemma reread_not_keyed filename d record :
  filename ≠ "" → text_cells d → ¬ keyed filename d →
  dict_to_list fieldnames d = Some record →
  ¬ keyed filename (read_row fieldnames record).
Proof.
  intros Hne Htext Hkey Hd. unfold keyed in *.
  rewrite (read_written fieldnames d record "filename" fieldnames_NoDup Hd
             filename_in_fieldnames).
  intros [= Hf]. destruct (fields d !! "filename") as [[|s|n]|] eqn:Hcell;
    simpl in Hf; try congruence.
  by destruct (Htext "filename" n).
Qed.

Lemma index_row_filename v c :
  fields (index_row v c) !! "filename" = Some (CStr (v_filename v)).
Proof. apply index_row_fields. Qed.

Lemma index_row_created_at v c : fields (index_row v c) !! "created_at" = Some c.
Proof. apply index_row_fields. Qed.

Lemma reread_new_row_keyed v c record :
  dict_to_list fieldnames (index_row v c) = Some record →
  keyed (v_filename v) (read_row fieldnames record).
Proof.
  intros Hd. unfold keyed.
  rewrite (read_written fieldnames (index_row v c) record "filename" fieldnames_NoDup Hd
             filename_in_fieldnames).
  by rewrite index_row_filename.
Qed.

Lemma reread_new_row_created_at v c record :
  dict_to_list fieldnames (index_row v c) = Some record →
  fields (read_row fieldnames record) !! "created_at" = Some (CStr (cell_text c)).
Proof.
  intros Hd.
  rewrite (read_written fieldnames (index_row v c) record "created_at" fieldnames_NoDup Hd
             created_at_in_fieldnames).
  by rewrite index_row_created_at.
Qed.

Lemma kept_created_at_text existing T :
  text_cells existing → T ≠ "" →
  ∃ s, kept_created_at existing T = CStr s ∧ s ≠ "".
Proof.
  intros Htext HT. unfold kept_created_at.
  destruct (fields existing !! "created_at") as [[|s|n]|] eqn:Hc; simpl; eauto.
  - unfold Py.truthy. case_bool_decide; eauto.
  - by destruct (Htext "created_at" n).
Qed.

Lemma kept_created_at_nonempty existing T s :
  fields existing !! "created_at" = Some (CStr s) → s ≠ "" →
  kept_created_at existing T = CStr s.
Proof.
  intros Hc Hs. unfold kept_created_at. rewrite Hc. simpl.
  unfold Py.truthy. by rewrite bool_decide_eq_true_2.
Qed.

Lemma written_as_length rows records :
  written_as rows records →
  Forall (λ record, length record = length fieldnames) records.
Proof.
  induction 1 as [|d record rows records Hd _ IH]; constructor; [|done].
  by eapply dict_to_list_length.
Qed.

Lemma written_as_reread records :
  Forall (λ record, length record = length fieldnames) records →
  written_as (read_row fieldnames <$> records) records.
Proof.
  induction 1 as [|record records Hlen _ IH]; constructor; [|done].
  apply write_read; [apply fieldnames_NoDup|done].
Qed.

Lemma reread_none_keyed filename rows records :
  filename ≠ "" → Forall text_cells rows →
  Forall (λ r, ¬ keyed filename r) rows →
  written_as rows records →
  Forall (λ r, ¬ keyed filename r) (read_row fieldnames <$> records).
Proof.
  intros Hne Htext Hnone Hw. apply Forall_fmap.
  induction Hw as [|d record rows records Hd _ IH]; [constructor|].
  apply Forall_cons in Htext as [Ht1 Ht2], Hnone as [Hn1 Hn2].
  constructor; [exact (reread_not_keyed _ _ _ Hne Ht1 Hn1 Hd)|exact (IH Ht2 Hn2)].
Qed.

(** An upsert on the rows read back from what a first upsert wrote gives
    rows that are written as the same records. *)
Lemma upsert_reload rows v T records :
  v_filename v ≠ "" → T ≠ "" → Forall text_cells rows →
  written_as (upsert rows v T) records →
  written_as (upsert (read_row fieldnames <$> records) v T) records.
Proof.
  intros Hname HT Htext Hw.
  pose proof (written_as_length _ _ Hw) as Hlen.
  assert (∀ before new_record later s,
            Forall (λ r, ¬ keyed (v_filename v) r) (read_row fieldnames <$> before) →
            dict_to_list fieldnames (index_row v (CStr s)) = Some new_record →
            s ≠ "" →
            records = before ++ new_record :: later →
            written_as (upsert (read_row fieldnames <$> records) v T) records)
    as Hgo.
  { intros before new_record later s Hbefore Hnew Hs ->.
    pose proof (reread_new_row_keyed _ _ _ Hnew) as Hkey.
    pose proof (reread_new_row_created_at _ _ _ Hnew) as Hc.
    rewrite fmap_app, fmap_cons.
    rewrite (upsert_existing _ _ _ _ _ Hbefore Hkey).
    rewrite (kept_created_at_nonempty _ _ s Hc Hs).
    apply Forall_app in Hlen as [Hlen1 Hlen2].
    apply Forall_cons in Hlen2 as [_ Hlen2].
    apply Forall2_app; [exact (written_as_reread _ Hlen1)|].
    constructor; [exact Hnew|exact (written_as_reread _ Hlen2)]. }
  destruct (rows_split (v_filename v) rows)
    as [Hnone|(before & existing & after & -> & Hbefore & Hkey)].
  - rewrite (upsert_absent _ _ _ Hnone) in Hw.
    apply Forall2_app_inv_l in Hw as (before' & last & Hb & Hl & Heq).
    apply Forall2_cons_inv_l in Hl as (new_record & later & Hnew & _ & ->).
    apply (Hgo before' new_record later T); [|exact Hnew|exact HT|exact Heq].
    exact (reread_none_keyed _ _ _ Hname Htext Hnone Hb).
  - rewrite (upsert_existing _ _ _ _ _ Hbefore Hkey) in Hw.
    apply Forall_app in Htext as [Htb Hte]. apply Forall_cons in Hte as [Hte _].
    destruct (kept_created_at_text existing T Hte HT) as (s & Hs & Hne).
    rewrite Hs in Hw.
    apply Forall2_app_inv_l in Hw as (before' & rest & Hb & Hl & Heq).
    apply Forall2_cons_inv_l in Hl as (new_record & later & Hnew & _ & ->).
    apply (Hgo before' new_record later s); [|exact Hnew|exact Hne|exact Heq].
    exact (reread_none_keyed _ _ _ Hname Htb Hbefore Hb).
Qed.

Lemma filename_nonempty scenario_id : scenario_id +:+ ".log" ≠ "".
Proof. by destruct scenario_id. Qed.

Lemma created_at_nonempty date time : date +:+ "T" +:+ time +:+ ":00Z" ≠ "".
Proof. by destruct date. Qed.

(** Two runs of [update_master_index] in one sequence, with the same
    arguments: when the first returns, the second finds the row the first one
    wrote and writes the same records again; when the first raises, the
    sequence ends there, and says nothing of a run started afterwards. *)
Lemma update_master_index_in_sequence REPO_GITHUB_PATH log_file c index :
  (do _ <- update_master_index REPO_GITHUB_PATH log_file c;
   update_master_index REPO_GITHUB_PATH log_file c) index
  = update_master_index REPO_GITHUB_PATH log_file c index.
Proof.
  unfold io_bind, update_master_index.
  set (v := values_of REPO_GITHUB_PATH log_file c).
  set (T := date_str c +:+ "T" +:+ time_str c +:+ ":00Z").
  destruct (writerows fieldnames (upsert (load_rows index) v T) [])
    as [[[]|e] written] eqn:Hw; [|done].
  apply writerows_Return in Hw as (records & Hw & ->). rewrite app_nil_l.
  rewrite (load_written _ _ Hw).
  assert (writerows fieldnames (upsert (read_row fieldnames <$> records) v T) []
          = (Return (), records)) as ->; [|done].
  apply writerows_Return. exists records. split; [|done].
  apply (upsert_reload (load_rows index)); try done.
  - apply filename_nonempty.
  - apply created_at_nonempty.
  - apply load_rows_text.
Qed.

Lemma index_row_writable v c : writable (index_row v c).
Proof.
  split; [done|]. intros k [x Hk]. unfold index_row in Hk. simpl in Hk.
  repeat (apply lookup_insert_Some in Hk as [[<- _]|[_ Hk]];
          [apply (bool_decide_unpack _); by vm_compute|]).
  by rewrite lookup_empty in Hk.
Qed.

Lemma read_row_writable names row :
  names ⊆ fieldnames → (length row ≤ length names)%nat →
  writable (read_row names row).
Proof.
  intros Hsub Hlen. split.
  - simpl. rewrite bool_decide_eq_false_2; [done|lia].
  - intros k [Hk|Hk]%zip_cells_dom; [by apply Hsub|].
    rewrite lookup_empty in Hk. by destruct Hk.
Qed.

Lemma upsert_writable rows v T :
  Forall writable rows → Forall writable (upsert rows v T).
Proof.
  intros Hrows. unfold upsert.
  destruct (list_find _ rows) as [[i existing]|].
  - apply Forall_insert; [done|apply index_row_writable].
  - apply Forall_app. split; [done|]. apply Forall_singleton, index_row_writable.
Qed.

Lemma writerows_writable rows written :
  Forall writable rows →
  ∃ records,
    writerows fieldnames rows written = (Return (), written ++ records)
    ∧ Forall (λ record, length record = length fieldnames) records.
Proof.
  intros Hrows. revert written.
  induction Hrows as [|d rows [Hrest Hdom] _ IH]; intros written.
  - exists []. by rewrite app_nil_r.
  - simpl. unfold dict_to_list. rewrite bool_decide_eq_true_2.
    + destruct (IH (written ++ [(λ k, from_option cell_text "" (fields d !! k)) <$> fieldnames]))
        as (records & -> & Hlen).
      eexists (_ :: records). rewrite <-app_assoc. split; [done|].
      constructor; [by rewrite length_fmap|done].
    + split; [done|]. intros k Hk. by apply Hdom, elem_of_dom.
Qed.

(** X14. An index file whose header lacks columns of the schema, or has
    them in another order, and whose records are no longer than the header,
    is rewritten under the fixed header with records of nine fields: the
    call returns. *)
Lemma update_master_index_any_header REPO_GITHUB_PATH log_file c header data :
  header ⊆ fieldnames →
  Forall (λ row, (length row ≤ length header)%nat) data →
  ∃ records,
    update_master_index REPO_GITHUB_PATH log_file c (Some (header :: data))
    = (Return (), Some (fieldnames :: records))
    ∧ Forall (λ record, length record = length fieldnames) records.
Proof.
  intros Hsub Hdata. unfold update_master_index.
  destruct (writerows_writable
              (upsert (load_rows (Some (header :: data)))
                 (values_of REPO_GITHUB_PATH log_file c)
                 (date_str c +:+ "T" +:+ time_str c +:+ ":00Z")) [])
    as (records & -> & Hlen); [|by exists records].
  apply upsert_writable. simpl. apply Forall_fmap, Forall_forall.
  intros row [_ Hrow]%list_elem_of_filter. apply read_row_writable; [done|].
  exact (proj1 (Forall_forall _ _) Hdata row Hrow).
Qed.

Lemma writerows_length names rows written :
  Forall (λ record, length record = length names) written →
  Forall (λ record, length record = length names) (writerows names rows written).2.
Proof.
  revert written. induction rows as [|d rows IH]; intros written Hw; [done|].
  simpl. destruct (dict_to_list names d) as [record|] eqn:Hd; [|done].
  apply IH, Forall_app. split; [done|].
  apply Forall_singleton. by eapply dict_to_list_length.
Qed.

(** X13. Whatever the index file held and whether the call returns or
    raises, the file is left with the fixed header and records of nine
    fields. *)
Lemma update_master_index_columns REPO_GITHUB_PATH log_file c index :
  ∃ records,
    (update_master_index REPO_GITHUB_PATH log_file c index).2
    = Some (fieldnames :: records)
    ∧ Forall (λ record, length record = length fieldnames) records.
Proof.
  unfold update_master_index.
  pose proof (writerows_length fieldnames
                (upsert (load_rows index) (values_of REPO_GITHUB_PATH log_file c)
                   (date_str c +:+ "T" +:+ time_str c +:+ ":00Z")) []
                (Forall_nil_2 _)) as Hlen.
  destruct (writerows _ _ _) as [outcome written]. by exists written.
Qed.

Lemma dict_to_list_index_row v c :
  dict_to_list fieldnames (index_row v c) = Some (row_record v c).
Proof.
  apply dict_to_list_Some. destruct (index_row_writable v c) as [Hrest Hdom].
  split_and!; [done..|].
  destruct (index_row_fields v c)
    as (H1 & H2 & H3 & H4 & H5 & H6 & H7 & H8 & H9).
  unfold fieldnames. cbn [fmap list_fmap].
  by rewrite H1, H2, H3, H4, H5, H6, H7, H8, H9.
Qed.

Lemma read_row_keyed filename record :
  keyed filename (read_row fieldnames record) ↔ record !! 1%nat = Some filename.
Proof.
  unfold keyed.
  change (fields (read_row fieldnames record)) with (zip_cells fieldnames record ∅).
  rewrite (zip_cells_lookup fieldnames record ∅ 1 "filename" fieldnames_NoDup eq_refl).
  destruct (record !! 1%nat); simpl; split; congruence.
Qed.

(** X12. On an index file the script wrote, [update_master_index] returns:
    the record of the file name is rewritten at its place, or the new record
    is appended; every other record stays as it is. *)
Lemma update_master_index_wellformed REPO_GITHUB_PATH log_file c records :
  Forall (λ record, length record = length fieldnames) records →
  let v := values_of REPO_GITHUB_PATH log_file c in
  let T := date_str c +:+ "T" +:+ time_str c +:+ ":00Z" in
  (Forall (λ record, record !! 1%nat ≠ Some (v_filename v)) records
   ∧ update_master_index REPO_GITHUB_PATH log_file c (Some (fieldnames :: records))
     = (Return (), Some (fieldnames :: records ++ [row_record v (CStr T)])))
  ∨ (∃ before existing after,
       records = before ++ existing :: after
       ∧ Forall (λ record, record !! 1%nat ≠ Some (v_filename v)) before
       ∧ existing !! 1%nat = Some (v_filename v)
       ∧ update_master_index REPO_GITHUB_PATH log_file c (Some (fieldnames :: records))
         = (Return (),
            Some (fieldnames :: before
                    ++ row_record v (kept_created_at (read_row fieldnames existing) T)
                    :: after))).
Proof.
  intros Hlen v T. unfold update_master_index. fold v T.
  assert (load_rows (Some (fieldnames :: records)) = read_row fieldnames <$> records) as ->.
  { simpl. f_equal. apply filter_all.
    eapply Forall_impl; [exact Hlen|]. by intros record Hr ->. }
  assert (∀ l, Forall (λ r, ¬ keyed (v_filename v) r) (read_row fieldnames <$> l) →
               Forall (λ record, record !! 1%nat ≠ Some (v_filename v)) l) as Hnot.
  { intros l Hl. apply Forall_forall. intros record Hin Hrec.
    apply (proj1 (Forall_forall _ _) Hl (read_row fieldnames record)).
    - by apply list_elem_of_fmap_2.
    - by apply read_row_keyed. }
  destruct (rows_split (v_filename v) (read_row fieldnames <$> records))
    as [Hnone|(before & existing & after & Heq & Hbefore & Hkey)].
  - left. split; [by apply Hnot|].
    rewrite (upsert_absent _ _ _ Hnone).
    assert (writerows fieldnames
              ((read_row fieldnames <$> records) ++ [index_row v (CStr T)]) []
            = (Return (), records ++ [row_record v (CStr T)])) as ->; [|done].
    apply writerows_Return. exists (records ++ [row_record v (CStr T)]).
    split; [|done]. apply Forall2_app; [by apply written_as_reread|].
    constructor; [apply dict_to_list_index_row|constructor].
  - right. rewrite Heq, (upsert_existing _ _ _ _ _ Hbefore Hkey).
    apply fmap_app_inv in Heq as (rb & rest & -> & Hrest & ->).
    symmetry in Hrest. apply fmap_cons_inv in Hrest as (re & ra & -> & -> & ->).
    exists rb, re, ra. split_and!; [done|by apply Hnot|by apply read_row_keyed|].
    apply Forall_app in Hlen as [Hlen1 Hlen2]. apply Forall_cons in Hlen2 as [_ Hlen2].
    assert (writerows fieldnames
              ((read_row fieldnames <$> rb)
               ++ index_row v (kept_created_at (read_row fieldnames re) T)
               :: (read_row fieldnames <$> ra)) []
            = (Return (),
               rb ++ row_record v (kept_created_at (read_row fieldnames re) T) :: ra))
      as ->; [|done].
    apply writerows_Return.
    exists (rb ++ row_record v (kept_created_at (read_row fieldnames re) T) :: ra).
    split; [|done]. apply Forall2_app; [by apply written_as_reread|].
    constructor; [apply dict_to_list_index_row|by apply written_as_reread].
Qed.

(** ** Size and record count *)

Lemma count_fold (lines : list string) (n : Z) :
  foldl (λ n line, if Py.truthy (Py.strip line) then n + 1 else n) n lines
  = n + Z.of_nat (length (filter (λ line, Py.strip line ≠ "") lines)).
Proof.
  revert n. induction lines as [|line lines IH]; intros n; [simpl; lia|].
  rewrite filter_cons. cbn [foldl]. rewrite IH. unfold Py.truthy.
  destruct (decide (Py.strip line ≠ "")).
  - rewrite bool_decide_eq_true_2 by done. simpl. lia.
  - by rewrite bool_decide_eq_false_2 by done.
Qed.

(** C8. The size and record count of the row are both 0 when the archived
    file does not exist; when it exists the size is its size and the record
    count is the number of its lines that are not empty once stripped of white
    space. *)
Theorem index_row_size_and_count REPO_GITHUB_PATH log_file c created_at_value :
  let row := index_row (values_of REPO_GITHUB_PATH log_file c) created_at_value in
  match log_file with
  | None =>
      fields row !! "file_size" = Some (CInt 0)
      ∧ fields row !! "record_count" = Some (CInt 0)
  | Some f =>
      fields row !! "file_size" = Some (CInt (st_size f))
      ∧ fields row !! "record_count"
        = Some (CInt (Z.of_nat
            (length (filter (λ line, Py.strip line ≠ "") (readlines f)))))
  end.
Proof.
  intros row.
  destruct (index_row_fields (values_of REPO_GITHUB_PATH log_file c) created_at_value)
    as (_ & _ & Hsize & Hcount & _).
  fold row in Hsize, Hcount. rewrite Hsize, Hcount.
  destruct log_file as [f|]; [|done]. simpl. unfold record_count. by rewrite count_fold.
Qed.

Lemma rstrip_empty s : Py.rstrip s = "" ↔ blank s.
Proof.
  induction s as [|c s IH]; simpl; [done|].
  destruct (Py.rstrip s) eqn:Hs.
  - destruct (Py.isspace c).
    + split; [|done]. intros _. split; [done|]. by apply IH.
    + split; [done|]. by intros [? _].
  - split; [done|]. intros [_ Hb]. by apply IH in Hb.
Qed.

Lemma lstrip_blank s : blank (Py.lstrip s) ↔ blank s.
Proof.
  induction s as [|c s IH]; simpl; [done|].
  destruct (Py.isspace c) eqn:Hc; simpl; rewrite ?Hc; [|done].
  rewrite IH. split; [by split|by intros [_ ?]].
Qed.

Lemma strip_empty s : Py.strip s = "" ↔ blank s.
Proof. unfold Py.strip. by rewrite rstrip_empty, lstrip_blank. Qed.

(** ** Scenarios *)

Example generate_two_logs :
  generate_scenario_id "2025-08-12"
    (Directory ["SCN_2025_08_12_001.log"; "SCN_2025_08_12_002.log"; "notes.txt"])
  = "SCN_2025_08_12_003".
Proof. vm_compute. reflexivity. Qed.

Example generate_no_directory :
  generate_scenario_id "2025-08-12" Absent = "SCN_2025_08_12_001".
Proof. vm_compute. reflexivity. Qed.

Example pending_one :
  list_metadata_only_scenarios
    (Directory ["SCN_2025_08_12_003.metadata.json"; "SCN_2025_08_12_001.log";
                "SCN_2025_08_12_001.metadata.json"]) "2025-08-12"
  = ["SCN_2025_08_12_003"].
Proof. vm_compute. reflexivity. Qed.

Example accept_pending :
  choose_or_generate_scenario_id "2025-08-12"
    (Directory ["SCN_2025_08_12_001.log"; "SCN_2025_08_12_002.metadata.json"])
    [""]
  = (Return "SCN_2025_08_12_002", []).
Proof. vm_compute. reflexivity. Qed.

Example update_fresh :
  update_master_index "" (Some sample_log) sample_call None
  = (Return (),
     Some [fieldnames;
           ["2025-08-12"; "SCN_2025_08_12_001.log"; "9"; "2";
            "SCN_2025_08_12_001.metadata.json"; "2025-08-12T10:00:00Z";
            "Throttle, idle"; ""; ""]]).
Proof. vm_compute. reflexivity. Qed.

Example update_keeps_first_time :
  update_master_index "" (Some sample_log) sample_call
    (Some [fieldnames;
           ["2025-08-12"; "SCN_2025_08_12_001.log"; "0"; "0";
            "SCN_2025_08_12_001.metadata.json"; "2025-08-12T09:00:00Z";
            "Throttle, idle"; ""; ""]])
  = (Return (),
     Some [fieldnames;
           ["2025-08-12"; "SCN_2025_08_12_001.log"; "9"; "2";
            "SCN_2025_08_12_001.metadata.json"; "2025-08-12T09:00:00Z";
            "Throttle, idle"; ""; ""]]).
Proof. vm_compute. reflexivity. Qed.

(** A header with a column outside the schema: [DictWriter] raises on the
    first row read, after the file was emptied and the header written. *)
Example extra_column_raises :
  update_master_index "" None sample_call
    (Some [fieldnames ++ ["operator"];
           ["2025-08-11"; "SCN_2025_08_11_001.log"; "10"; "1";
            "SCN_2025_08_11_001.metadata.json"; "2025-08-11T09:00:00Z"; "Idle";
            ""; ""; "cb"]])
  = (Raise ValueError, Some [fieldnames]).
Proof. vm_compute. reflexivity. Qed.

(** ** The claims that fail on the code, at their failing inputs *)

(** C2, where the code departs from it. With one pending scenario and no log
    in the directory, declining the reuse returns the identifier of the
    pending scenario itself; so does choosing a new identifier among two
    pending ones: [generate_scenario_id] reads the log names only. *)
Theorem choose_declined_returns_pending :
  list_metadata_only_scenarios
    (Directory ["SCN_2025_08_12_001.metadata.json"]) "2025-08-12"
  = ["SCN_2025_08_12_001"]
  ∧ choose_or_generate_scenario_id "2025-08-12"
      (Directory ["SCN_2025_08_12_001.metadata.json"]) ["n"]
    = (Return "SCN_2025_08_12_001", [])
  ∧ choose_or_generate_scenario_id "2025-08-12"
      (Directory ["SCN_2025_08_12_001.metadata.json";
                  "SCN_2025_08_12_002.metadata.json"]) ["0"]
    = (Return "SCN_2025_08_12_001", []).
Proof. split_and!; vm_compute; reflexivity. Qed.

(** C6, where the code departs from it. An index file whose header has only
    the columns [date] and [filename] is not refused: the call returns, the
    file is rewritten under the full header with the old row padded by empty
    fields. On that header the schema check of the backfill script finds
    three required columns missing. *)
Theorem update_master_index_rewrites_short_header :
  update_master_index "" None sample_call
    (Some [["date"; "filename"]; ["2025-08-11"; "SCN_2025_08_11_001.log"]])
  = (Return (),
     Some [fieldnames;
           ["2025-08-11"; "SCN_2025_08_11_001.log"; ""; ""; ""; ""; ""; ""; ""];
           ["2025-08-12"; "SCN_2025_08_12_001.log"; "0"; "0";
            "SCN_2025_08_12_001.metadata.json"; "2025-08-12T10:00:00Z";
            "Throttle, idle"; ""; ""]])
  ∧ backfill_missing ["date"; "filename"]
    = ["metadata_file"; "log_link"; "metadata_link"].
Proof. split; vm_compute; reflexivity. Qed.

(** C7, where the code departs from it. [replace] deletes every [.metadata]
    of the stem, not only the last: for the single metadata file
    [SCN_2025_08_12_001.metadata.metadata.json] the identifier listed is
    [SCN_2025_08_12_001], which has no metadata file of its name. *)
Theorem list_metadata_only_scenarios_repeated_suffix :
  list_metadata_only_scenarios
    (Directory ["SCN_2025_08_12_001.metadata.metadata.json"]) "2025-08-12"
  = ["SCN_2025_08_12_001"]
  ∧ child_exists (Directory ["SCN_2025_08_12_001.metadata.metadata.json"])
      "SCN_2025_08_12_001.metadata.json" = false.
Proof. split; vm_compute; reflexivity. Qed.

(** ** The theorems at concrete inputs *)

Lemma upsert_one_row_sample :
  unique_keys sample_rows
  ∧ length (filter (keyed "SCN_2025_08_12_001.log")
              (upsert sample_rows (sample_values "SCN_2025_08_12_001" 9 2)
                 "2025-08-12T10:00:00Z")) = 1%nat.
Proof.
  assert (unique_keys sample_rows) as Huniq.
  { intros filename i j r r' Hi Hj Hr Hr'. unfold keyed in Hr, Hr'.
    destruct i as [|[|[|i]]]; try discriminate Hi;
      destruct j as [|[|[|j]]]; try discriminate Hj; try reflexivity;
      injection Hi as <-; injection Hj as <-;
      vm_compute in Hr; vm_compute in Hr'; congruence. }
  split; [exact Huniq|].
  exact (proj1 (upsert_one_row sample_rows (sample_values "SCN_2025_08_12_001" 9 2)
                  "2025-08-12T10:00:00Z" Huniq)).
Defined.

Lemma upsert_created_at_sample :
  keyed "SCN_2025_08_12_001.log"
    (index_row (sample_values "SCN_2025_08_12_001" 0 0) (CStr "2025-08-12T09:00:00Z"))
  ∧ upsert sample_rows (sample_values "SCN_2025_08_12_001" 9 2)
      "2025-08-12T10:00:00Z"
    = [index_row (sample_values "SCN_2025_08_11_004" 7 1)
         (CStr "2025-08-11T08:00:00Z");
       index_row (sample_values "SCN_2025_08_12_001" 9 2)
         (CStr "2025-08-12T09:00:00Z")].
Proof.
  assert (keyed "SCN_2025_08_12_001.log"
            (index_row (sample_values "SCN_2025_08_12_001" 0 0)
               (CStr "2025-08-12T09:00:00Z"))) as Hkey
    by (unfold keyed; vm_compute; reflexivity).
  split; [exact Hkey|].
  refine (proj1 (upsert_created_at
                   [index_row (sample_values "SCN_2025_08_11_004" 7 1)
                      (CStr "2025-08-11T08:00:00Z")]
                   (index_row (sample_values "SCN_2025_08_12_001" 0 0)
                      (CStr "2025-08-12T09:00:00Z"))
                   [] (sample_values "SCN_2025_08_12_001" 9 2)
                   "2025-08-12T10:00:00Z" _ Hkey) "2025-08-12T09:00:00Z" _ _).
  - constructor; [|constructor]. unfold keyed. vm_compute. discriminate.
  - vm_compute. reflexivity.
  - discriminate.
Defined.

Lemma upsert_first_of_duplicates_sample :
  (2 ≤ length (filter (keyed "SCN_2025_08_12_001.log") (sample_rows ++ sample_rows)))%nat
  ∧ ∃ before first later,
      sample_rows ++ sample_rows = before ++ first :: later
      ∧ upsert (sample_rows ++ sample_rows) (sample_values "SCN_2025_08_12_001" 9 2)
          "2025-08-12T10:00:00Z"
        = before ++ index_row (sample_values "SCN_2025_08_12_001" 9 2)
                      (kept_created_at first "2025-08-12T10:00:00Z") :: later
      ∧ (1 ≤ length (filter (keyed "SCN_2025_08_12_001.log") later))%nat.
Proof.
  assert (2 ≤ length (filter (keyed "SCN_2025_08_12_001.log")
                        (sample_rows ++ sample_rows)))%nat as Hdup
    by (vm_compute; lia).
  split; [exact Hdup|].
  destruct (upsert_first_of_duplicates (sample_rows ++ sample_rows)
              (sample_values "SCN_2025_08_12_001" 9 2) "2025-08-12T10:00:00Z" Hdup)
    as (before & first & later & H1 & _ & _ & H2 & H3 & _).
  exists before, first, later. split_and!; [exact H1|exact H2|exact H3].
Defined.

(** * Further properties of the code *)

(** ** A fresh identifier below 999 *)

Lemma format_03d_table :
  forallb (λ n, bool_decide
                  (Py.format_03d n
                   = String (digit_char (n / 100))
                       (String (digit_char ((n / 10) `mod` 10))
                          (String (digit_char (n `mod` 10)) ""))))
    (seqZ 0 1000) = true.
Proof. vm_compute. reflexivity. Qed.

Lemma format_03d_digits n :
  0 ≤ n ≤ 999 →
  Py.format_03d n
  = String (digit_char (n / 100))
      (String (digit_char ((n / 10) `mod` 10)) (String (digit_char (n `mod` 10)) "")).
Proof.
  intros Hn. pose proof format_03d_table as Htable.
  rewrite forallb_forall in Htable.
  eapply bool_decide_eq_true_1, (Htable n), list_elem_of_In, elem_of_seqZ. lia.
Qed.

(** X1. As long as every canonical log of the date has a suffix below 999,
    the identifier [generate_scenario_id] returns names no log file of the
    directory. *)
Theorem generate_scenario_id_fresh for_date logs_dir :
  (∀ k, canonical_suffix for_date (entries logs_dir) k → k < 999) →
  (generate_scenario_id for_date logs_dir +:+ ".log") ∉ entries logs_dir.
Proof.
  intros Hsmall Hin. unfold generate_scenario_id in Hin.
  destruct (next_index_spec for_date logs_dir) as (Hle & Hub & Hex).
  set (n := next_index for_date logs_dir) in *.
  assert (n ≤ 999) as Hn.
  { destruct Hex as [->|(k & Hk%Hsmall & ->)]; lia. }
  rewrite format_03d_digits, str_app_assoc in Hin by lia.
  assert (canonical_suffix for_date (entries logs_dir) n) as Hc; [|apply Hub in Hc; lia].
  exists (n / 100), ((n / 10) `mod` 10), (n `mod` 10).
  split_and!; try (Z.div_mod_to_equations; lia). exact Hin.
Qed.

Lemma sample_suffixes_small k :
  canonical_suffix "2025-08-12"
    (entries (Directory ["SCN_2025_08_12_001.log"; "notes.txt"])) k →
  k < 999.
Proof.
  intros (d1 & d2 & d3 & H1 & H2 & H3 & Hk & Hin).
  assert (name_suffix (date_token "2025-08-12")
            (canonical_log_name "2025-08-12" d1 d2 d3) = Some k) as Hs.
  { apply name_suffix_Some; [apply canonical_endswith|]. by exists d1, d2, d3. }
  simpl in Hin.
  apply elem_of_cons in Hin as [Heq|Hin];
    [|apply elem_of_cons in Hin as [Heq|Hin]; [|by apply elem_of_nil in Hin]];
    rewrite Heq in Hs; vm_compute in Hs; [|discriminate].
  injection Hs as <-. reflexivity.
Qed.

Lemma generate_scenario_id_fresh_witness :
  (∀ k, canonical_suffix "2025-08-12"
          (entries (Directory ["SCN_2025_08_12_001.log"; "notes.txt"])) k → k < 999)
  ∧ (generate_scenario_id "2025-08-12"
       (Directory ["SCN_2025_08_12_001.log"; "notes.txt"]) +:+ ".log")
    ∉ ["SCN_2025_08_12_001.log"; "notes.txt"].
Proof.
  split; [exact sample_suffixes_small|].
  exact (generate_scenario_id_fresh "2025-08-12"
           (Directory ["SCN_2025_08_12_001.log"; "notes.txt"])
           sample_suffixes_small).
Defined.

(** ** One capture after the other *)

Lemma generated_log_canonical for_date logs_dir :
  (∀ k, canonical_suffix for_date (entries logs_dir) k → k < 999) →
  let n := next_index for_date logs_dir in
  1 ≤ n ≤ 999
  ∧ generate_scenario_id for_date logs_dir +:+ ".log"
    = canonical_log_name for_date (n / 100) ((n / 10) `mod` 10) (n `mod` 10).
Proof.
  intros Hsmall n.
  destruct (next_index_spec for_date logs_dir) as (Hle & Hub & Hex).
  fold n in Hle, Hub, Hex.
  assert (n ≤ 999) as Hn.
  { destruct Hex as [->|(k & Hk%Hsmall & ->)]; lia. }
  split; [lia|]. unfold generate_scenario_id. fold n.
  by rewrite format_03d_digits, str_app_assoc by lia.
Qed.

(** X2. Once the log of the identifier generated is in the directory, the
    next identifier generated carries the next number, as long as the
    numbers of the date stay below 999; the order of the entries plays no
    part. *)
Theorem generate_scenario_id_successive for_date logs_dir names :
  (∀ k, canonical_suffix for_date (entries logs_dir) k → k < 999) →
  (∀ name, name ∈ names ↔
     name = generate_scenario_id for_date logs_dir +:+ ".log"
     ∨ name ∈ entries logs_dir) →
  generate_scenario_id for_date (Directory names)
  = scenario_prefix for_date +:+ Py.format_03d (next_index for_date logs_dir + 1).
Proof.
  intros Hsmall Hnames.
  destruct (generated_log_canonical for_date logs_dir Hsmall) as [Hn Hname].
  destruct (next_index_spec for_date logs_dir) as (_ & Hub & _).
  destruct (next_index_spec for_date (Directory names)) as (_ & Hub' & Hex').
  simpl in Hub, Hub', Hex'.
  set (n := next_index for_date logs_dir) in *.
  unfold generate_scenario_id. f_equal. f_equal.
  set (n' := next_index for_date (Directory names)) in *.
  assert (0 ≤ n / 100 ≤ 9 ∧ 0 ≤ (n / 10) `mod` 10 ≤ 9 ∧ 0 ≤ n `mod` 10 ≤ 9
          ∧ n = 100 * (n / 100) + 10 * ((n / 10) `mod` 10) + n `mod` 10)
    as (Hd1 & Hd2 & Hd3 & Hsum) by (Z.div_mod_to_equations; lia).
  assert (n + 1 ≤ n') as Hlow.
  { apply Hub'. exists (n / 100), ((n / 10) `mod` 10), (n `mod` 10).
    split_and!; [lia..|done|]. apply Hnames. left. by rewrite Hname. }
  destruct Hex' as [Hone|(k & (d1 & d2 & d3 & H1 & H2 & H3 & Hk & Hin) & Hk')]; [lia|].
  apply Hnames in Hin as [Heq|Hin].
  - assert (name_suffix (date_token for_date)
              (canonical_log_name for_date d1 d2 d3) = Some k) as Hs.
    { apply name_suffix_Some; [apply canonical_endswith|]. by exists d1, d2, d3. }
    assert (name_suffix (date_token for_date)
              (canonical_log_name for_date d1 d2 d3) = Some n) as Hs'.
    { rewrite Heq, Hname. apply name_suffix_Some; [apply canonical_endswith|].
      by exists (n / 100), ((n / 10) `mod` 10), (n `mod` 10). }
    rewrite Hs in Hs'. injection Hs' as ->. lia.
  - assert (k + 1 ≤ n); [|lia]. apply Hub. by exists d1, d2, d3.
Qed.

Lemma generate_scenario_id_successive_witness :
  generate_scenario_id "2025-08-12"
    (Directory ["SCN_2025_08_12_002.log"; "SCN_2025_08_12_001.log"; "notes.txt"])
  = scenario_prefix "2025-08-12"
    +:+ Py.format_03d
          (next_index "2025-08-12"
             (Directory ["SCN_2025_08_12_001.log"; "notes.txt"]) + 1).
Proof.
  apply (generate_scenario_id_successive "2025-08-12"
           (Directory ["SCN_2025_08_12_001.log"; "notes.txt"])
           ["SCN_2025_08_12_002.log"; "SCN_2025_08_12_001.log"; "notes.txt"]).
  - exact sample_suffixes_small.
  - intros name.
    change (generate_scenario_id "2025-08-12"
              (Directory ["SCN_2025_08_12_001.log"; "notes.txt"]) +:+ ".log")
      with "SCN_2025_08_12_002.log".
    simpl. rewrite elem_of_cons. reflexivity.
Defined.

(** ** What the listing of pending scenarios guarantees *)

(** X3. Every identifier [list_metadata_only_scenarios] lists was read off a
    [*.metadata.json] entry of the directory, starts with the prefix of the
    date, and the path of its log does not exist: the directory has no entry
    of that name, or the entry is a symbolic link to nothing. *)
Theorem list_metadata_only_scenarios_sound logs_dir for_date :
  Forall (λ sid,
            Py.startswith sid (scenario_prefix for_date) = true
            ∧ child_exists logs_dir (sid +:+ ".log") = false
            ∧ ((sid +:+ ".log") ∉ entries logs_dir
               ∨ (sid +:+ ".log") ∈ broken_links logs_dir)
            ∧ ∃ name, name ∈ entries logs_dir
                ∧ Py.endswith name ".metadata.json" = true
                ∧ scenario_of_metadata name = sid)
    (list_metadata_only_scenarios logs_dir for_date).
Proof.
  destruct (list_metadata_only_scenarios_spec logs_dir for_date) as [Hin _].
  apply Forall_forall. intros sid Hsid.
  apply Hin in Hsid as (name & ? & ? & ? & Hlog & ?).
  split_and!; [done|done| |by exists name].
  apply bool_decide_eq_false in Hlog.
  destruct (decide ((sid +:+ ".log") ∈ entries logs_dir)) as [Hentry|Hentry];
    [|by left].
  destruct (decide ((sid +:+ ".log") ∈ broken_links logs_dir)); [by right|].
  by destruct Hlog.
Qed.

(** A directory with a pending scenario whose log is a link to nothing. *)
Example pending_broken_link :
  list_metadata_only_scenarios
    (DirectoryWithBrokenLinks
       ["SCN_2025_08_12_003.metadata.json"; "SCN_2025_08_12_003.log";
        "SCN_2025_08_12_004.metadata.json"; "SCN_2025_08_12_004.log"]
       ["SCN_2025_08_12_003.log"]) "2025-08-12"
  = ["SCN_2025_08_12_003"].
Proof. vm_compute. reflexivity. Qed.

(** X4. A metadata file [x.metadata.json] whose [x] holds no [.metadata],
    starts with the prefix of the date and has no log [x.log] is listed as
    [x]. *)
Theorem list_metadata_only_scenarios_complete logs_dir for_date x :
  x +:+ ".metadata.json" ∈ entries logs_dir →
  ¬ occurs ".metadata" x →
  Py.startswith x (scenario_prefix for_date) = true →
  (x +:+ ".log") ∉ entries logs_dir →
  x ∈ list_metadata_only_scenarios logs_dir for_date.
Proof.
  intros Hin Hplain Hprefix Hlog.
  apply list_metadata_only_scenarios_spec. exists (x +:+ ".metadata.json").
  split_and!; [done| |by apply scenario_of_metadata_plain| |done].
  - apply endswith_true. by exists x.
  - apply bool_decide_eq_false_2. by intros [? _].
Qed.

Lemma list_metadata_only_scenarios_complete_witness :
  "SCN_2025_08_12_003"
  ∈ list_metadata_only_scenarios
      (Directory ["SCN_2025_08_12_003.metadata.json"; "SCN_2025_08_12_001.log"])
      "2025-08-12".
Proof.
  apply (list_metadata_only_scenarios_complete
           (Directory ["SCN_2025_08_12_003.metadata.json"; "SCN_2025_08_12_001.log"])
           "2025-08-12" "SCN_2025_08_12_003").
  - apply list_elem_of_here.
  - intros (a & b & H). pose proof (has_char_app "." a ("metadata" +:+ b)) as Hdot.
    change (a +:+ String "." ("metadata" +:+ b)) with (a +:+ ".metadata" +:+ b) in Hdot.
    rewrite <-H in Hdot. vm_compute in Hdot. discriminate.
  - vm_compute. reflexivity.
  - intros Hin. simpl in Hin.
    apply elem_of_cons in Hin as [Heq|Hin]; [discriminate Heq|].
    apply elem_of_cons in Hin as [Heq|Hin]; [discriminate Heq|].
    by apply elem_of_nil in Hin.
Defined.

(** ** The prompts *)

(** The answers [prompt_yes_no] takes, as it reads them. *)
Lemma prompt_yes_no_returns message default stdin answer rest :
  prompt_yes_no message default stdin = (Return answer, rest) →
  ∃ skipped line,
    stdin = skipped ++ line :: rest
    ∧ Forall (λ l, Py.lower (Py.strip l) ∉ [""; "y"; "yes"; "n"; "no"]) skipped
    ∧ (Py.lower (Py.strip line) = "" ∧ answer = default
       ∨ Py.lower (Py.strip line) ∈ ["y"; "yes"] ∧ answer = true
       ∨ Py.lower (Py.strip line) ∈ ["n"; "no"] ∧ answer = false).
Proof.
  induction stdin as [|line stdin IH]; [discriminate|]. simpl.
  case_bool_decide as H1.
  { intros [= <- <-]. exists [], line. split_and!; [done|constructor|by left]. }
  case_bool_decide as H2.
  { intros [= <- <-]. exists [], line. split_and!; [done|constructor|by right; left]. }
  case_bool_decide as H3.
  { intros [= <- <-]. exists [], line. split_and!; [done|constructor|by right; right]. }
  intros (skipped & l & -> & Hskipped & Hl)%IH.
  exists (line :: skipped), l. split_and!; [done| |done].
  constructor; [|done]. intros Hin.
  apply elem_of_cons in Hin as [?|Hin]; [done|].
  change (Py.lower (Py.strip line) ∈ ["y"; "yes"] ++ ["n"; "no"]) in Hin.
  apply elem_of_app in Hin as [?|?]; done.
Qed.

Lemma prompt_yes_no_raises message default stdin e rest :
  prompt_yes_no message default stdin = (Raise e, rest) →
  e = EOFError ∧ rest = []
  ∧ Forall (λ l, Py.lower (Py.strip l) ∉ [""; "y"; "yes"; "n"; "no"]) stdin.
Proof.
  induction stdin as [|line stdin IH]; simpl.
  { intros [= <- <-]. split_and!; [done..|constructor]. }
  repeat case_bool_decide; try discriminate.
  intros (-> & -> & Hall)%IH. split_and!; [done..|].
  constructor; [|done]. intros Hin.
  apply elem_of_cons in Hin as [?|Hin]; [done|].
  change (Py.lower (Py.strip line) ∈ ["y"; "yes"] ++ ["n"; "no"]) in Hin.
  apply elem_of_app in Hin as [?|?]; done.
Qed.

(** X5. [prompt_yes_no] passes over the lines that are no answer and decides
    on the first that is one, white space and case set aside: an empty line
    gives the default, [y] or [yes] gives [True], [n] or [no] gives [False];
    what follows that line is left on the console. The only way it fails is
    the end of the input, reached without any answer. *)
Theorem prompt_yes_no_first_answer message default stdin :
  match prompt_yes_no message default stdin with
  | (Return answer, rest) =>
      ∃ skipped line,
        stdin = skipped ++ line :: rest
        ∧ Forall (λ l, Py.lower (Py.strip l) ∉ [""; "y"; "yes"; "n"; "no"]) skipped
        ∧ (Py.lower (Py.strip line) = "" ∧ answer = default
           ∨ Py.lower (Py.strip line) ∈ ["y"; "yes"] ∧ answer = true
           ∨ Py.lower (Py.strip line) ∈ ["n"; "no"] ∧ answer = false)
  | (Raise e, rest) =>
      e = EOFError ∧ rest = []
      ∧ Forall (λ l, Py.lower (Py.strip l) ∉ [""; "y"; "yes"; "n"; "no"]) stdin
  end.
Proof.
  destruct (prompt_yes_no message default stdin) as [[answer|e] rest] eqn:H.
  - by eapply prompt_yes_no_returns.
  - by eapply prompt_yes_no_raises.
Qed.

Lemma prompt_select_from_list_member title options stdin sid rest :
  prompt_select_from_list title options stdin = (Return (Some sid), rest) →
  sid ∈ options.
Proof.
  induction stdin as [|line stdin IH]; [discriminate|]. simpl.
  destruct (_ || _); [discriminate|].
  destruct (Py.int (Py.strip line)) as [num|]; [|done].
  case_bool_decide; [|done]. intros [= Hsid _].
  by eapply list_elem_of_lookup_2.
Qed.


(** X7. [choose_or_generate_scenario_id] returns either one of the pending
    identifiers listed or the identifier [generate_scenario_id] gives;
    without a pending scenario it asks nothing and generates. *)
Theorem choose_or_generate_scenario_id_result for_date logs_dir stdin :
  (list_metadata_only_scenarios logs_dir for_date = [] →
   choose_or_generate_scenario_id for_date logs_dir stdin
   = (Return (generate_scenario_id for_date logs_dir), stdin))
  ∧ ∀ sid rest,
      choose_or_generate_scenario_id for_date logs_dir stdin = (Return sid, rest) →
      sid ∈ list_metadata_only_scenarios logs_dir for_date
      ∨ sid = generate_scenario_id for_date logs_dir.
Proof.
  unfold choose_or_generate_scenario_id, io_bind, io_ret. split.
  - by intros ->.
  - intros sid rest.
    destruct (list_metadata_only_scenarios logs_dir for_date)
      as [|pending [|second more]] eqn:Hlist.
    + intros [= <- _]. by right.
    + destruct (prompt_yes_no _ true stdin) as [[[]|] ?]; intros [= <- _];
        [left; apply list_elem_of_here|by right].
    + destruct (prompt_select_from_list _ _ stdin) as [[[selected|]|] ?] eqn:Hsel;
        [|by intros [= <- _]; right|done].
      destruct (Py.truthy selected); intros [= <- _]; [left|by right].
      by eapply prompt_select_from_list_member.
Qed.

(** X8. A number [prompt_int_range] returns lies within the bounds, unless
    it is the default given back for an empty line: the default itself is
    not checked. *)
Theorem prompt_int_range_bounds message min_value max_value default stdin val rest :
  prompt_int_range message min_value max_value default stdin = (Return val, rest) →
  min_value ≤ val ≤ max_value ∨ default = Some val.
Proof.
  induction stdin as [|line stdin IH]; [discriminate|]. simpl.
  destruct default as [d|].
  - case_bool_decide; [intros [= <- _]; by right|].
    destruct (Py.int (Py.strip line)) as [v|]; [|done].
    case_bool_decide; [done|]. intros [= <- _]. left. lia.
  - destruct (Py.int (Py.strip line)) as [v|]; [|done].
    case_bool_decide; [done|]. intros [= <- _]. left. lia.
Qed.

Lemma prompt_int_range_bounds_witness :
  prompt_int_range "PAS level (0-5):" 0 5 None ["9"; "x"; " 3 "] = (Return 3, [])
  ∧ (0 ≤ 3 ≤ 5 ∨ (None : option Z) = Some 3).
Proof.
  assert (prompt_int_range "PAS level (0-5):" 0 5 None ["9"; "x"; " 3 "]
          = (Return 3, [])) as H by (vm_compute; reflexivity).
  split; [exact H|].
  exact (prompt_int_range_bounds "PAS level (0-5):" 0 5 None ["9"; "x"; " 3 "] 3 [] H).
Defined.

(** X9. What [prompt_int_optional] returns is [None] (an empty line without
    default, or [null] in any case of letters), the default, or a number
    within the bounds. *)
Theorem prompt_int_optional_bounds message min_value max_value default stdin r rest :
  prompt_int_optional message min_value max_value default stdin = (Return r, rest) →
  r = None ∨ r = default ∨ ∃ val, r = Some val ∧ min_value ≤ val ≤ max_value.
Proof.
  induction stdin as [|line stdin IH]; [discriminate|]. simpl.
  destruct (_ && _); [intros [= <- _]; by right; left|].
  case_bool_decide; [intros [= <- _]; by left|].
  case_bool_decide; [intros [= <- _]; by left|].
  destruct (Py.int _) as [v|]; [|done].
  case_bool_decide; [done|]. intros [= <- _]. right. right. exists v. split; [done|lia].
Qed.

Lemma prompt_int_optional_bounds_witness :
  prompt_int_optional "Motor temperature:" MOTOR_TEMP_MIN MOTOR_TEMP_MAX (Some 40)
    ["200"; "-5"] = (Return (Some (-5)), [])
  ∧ (Some (-5) = None ∨ Some (-5) = Some 40
     ∨ ∃ val, Some (-5) = Some val ∧ MOTOR_TEMP_MIN ≤ val ≤ MOTOR_TEMP_MAX).
Proof.
  assert (prompt_int_optional "Motor temperature:" MOTOR_TEMP_MIN MOTOR_TEMP_MAX
            (Some 40) ["200"; "-5"] = (Return (Some (-5)), [])) as H
    by (vm_compute; reflexivity).
  split; [exact H|].
  exact (prompt_int_optional_bounds _ _ _ _ _ _ _ H).
Defined.

Lemma rstrip_cons a s :
  Py.rstrip (String a s)
  = match Py.rstrip s with
    | "" => if Py.isspace a then "" else String a ""
    | t => String a t
    end.
Proof. reflexivity. Qed.

Lemma rstrip_rstrip s : Py.rstrip (Py.rstrip s) = Py.rstrip s.
Proof.
  induction s as [|a s IH]; [done|]. rewrite rstrip_cons.
  destruct (Py.rstrip s) as [|b t] eqn:Hs.
  - destruct (Py.isspace a) eqn:Ha; [done|]. by rewrite rstrip_cons, Ha.
  - by rewrite rstrip_cons, IH.
Qed.

Lemma rstrip_head a s :
  Py.isspace a = false → ∃ t, Py.rstrip (String a s) = String a t.
Proof.
  intros Ha. simpl. destruct (Py.rstrip s); [|by eexists].
  rewrite Ha. by eexists.
Qed.

Lemma lstrip_head s :
  Py.lstrip s = "" ∨ ∃ a t, Py.lstrip s = String a t ∧ Py.isspace a = false.
Proof.
  induction s as [|a s IH]; [by left|]. simpl.
  destruct (Py.isspace a) eqn:Ha; [done|]. right. by exists a, s.
Qed.

(** [strip] leaves nothing to strip. *)
Lemma strip_strip s : Py.strip (Py.strip s) = Py.strip s.
Proof.
  unfold Py.strip. destruct (lstrip_head s) as [->|(a & t & -> & Ha)]; [done|].
  destruct (rstrip_head a t Ha) as [u Hu]. rewrite Hu. simpl Py.lstrip.
  rewrite Ha, <-Hu. apply rstrip_rstrip.
Qed.

(** X10. [prompt_str] decides on the first line it does not pass over, and
    it passes over a line only when the line is empty once stripped, there
    is no default and an empty answer is not allowed. On the deciding line:
    an empty line gives the default when there is one, the empty text when
    there is none and an empty answer is allowed; any other line gives the
    line stripped of the white space around it. What follows that line is
    left on the console. The only way it fails is the end of the input. *)
Theorem prompt_str_result message allow_empty default stdin :
  match prompt_str message allow_empty default stdin with
  | (Return val, rest) =>
      ∃ skipped line,
        stdin = skipped ++ line :: rest
        ∧ Forall (λ l, Py.strip l = "") skipped
        ∧ (skipped ≠ [] → allow_empty = false ∧ default = None)
        ∧ (Py.strip line = "" ∧ default = Some val
           ∨ Py.strip line = "" ∧ default = None ∧ allow_empty = true ∧ val = ""
           ∨ Py.strip line ≠ "" ∧ val = Py.strip line)
  | (Raise e, rest) =>
      e = EOFError ∧ rest = []
      ∧ Forall (λ l, Py.strip l = "") stdin
      ∧ (stdin ≠ [] → allow_empty = false ∧ default = None)
  end.
Proof.
  induction stdin as [|line stdin IH]; simpl; [by split_and!|].
  destruct (decide (Py.strip line = "")) as [Hempty|Hfull].
  - rewrite Hempty. rewrite bool_decide_eq_true_2 by done.
    destruct default as [d|]; simpl.
    { exists [], line. split_and!; [done|constructor|done|by left]. }
    destruct allow_empty; simpl.
    { exists [], line. split_and!; [done|constructor|done|]. right. by left. }
    destruct (prompt_str message false None stdin) as [[val|e] rest].
    + destruct IH as (skipped & l & -> & Hskipped & _ & Hl).
      exists (line :: skipped), l. split_and!; [done|by constructor|done|done].
    + destruct IH as (-> & -> & Hall & _). split_and!; [done..|by constructor|done].
  - rewrite bool_decide_eq_false_2 by done. simpl.
    unfold Py.truthy. rewrite bool_decide_eq_true_2 by done. simpl.
    exists [], line. split_and!; [done|constructor|done|]. right. by right.
Qed.

(** ** One row for each file name *)

Lemma keyed_key_of filename r : keyed filename r ↔ key_of r = Some filename.
Proof.
  unfold keyed, key_of. destruct (fields r !! "filename") as [[| |]|]; split; congruence.
Qed.

Lemma key_of_index_row v c : key_of (index_row v c) = Some (v_filename v).
Proof. apply keyed_key_of, index_row_keyed. Qed.

Lemma upsert_keys rows v T ks :
  key_of <$> rows = Some <$> ks →
  key_of <$> upsert rows v T
  = Some <$> (if decide (v_filename v ∈ ks) then ks else ks ++ [v_filename v]).
Proof.
  intros Hks.
  destruct (rows_split (v_filename v) rows)
    as [Hnone|(before & existing & after & -> & Hbefore & Hkey)].
  - rewrite (upsert_absent _ _ _ Hnone), fmap_app. simpl.
    rewrite key_of_index_row, Hks. case_decide as Hin; [|by rewrite fmap_app].
    exfalso. apply list_elem_of_lookup in Hin as [i Hi].
    assert (key_of <$> rows !! i = Some (Some (v_filename v))) as Hrow.
    { by rewrite <-list_lookup_fmap, Hks, list_lookup_fmap, Hi. }
    destruct (rows !! i) as [r|] eqn:Hr; [|done]. simpl in Hrow.
    apply (proj1 (Forall_lookup _ _) Hnone i r Hr), keyed_key_of. congruence.
  - rewrite (upsert_existing _ _ _ _ _ Hbefore Hkey).
    rewrite fmap_app, fmap_cons, key_of_index_row.
    rewrite fmap_app, fmap_cons, (proj1 (keyed_key_of _ _) Hkey) in Hks.
    rewrite Hks. rewrite decide_True; [done|].
    assert (Some (v_filename v) ∈ Some <$> ks) as Hin.
    { rewrite <-Hks. apply elem_of_app. right. apply list_elem_of_here. }
    by apply list_elem_of_fmap in Hin as (f & [= ->] & ?).
Qed.

Lemma upsert_all_keys calls : ∀ rows ks,
  key_of <$> rows = Some <$> ks → NoDup ks →
  ∃ ks', key_of <$> upsert_all rows calls = Some <$> ks' ∧ NoDup ks'
    ∧ ∀ f, f ∈ ks' ↔ f ∈ ks ∨ f ∈ (λ call, v_filename call.1) <$> calls.
Proof.
  induction calls as [|[v T] calls IH]; intros rows ks Hks Hnd.
  { exists ks. split_and!; [done..|]. intros f. rewrite elem_of_nil. tauto. }
  simpl. pose proof (upsert_keys rows v T ks Hks) as Hstep.
  destruct (IH _ _ Hstep) as (ks' & Hks' & Hnd' & Hin).
  { case_decide; [done|]. apply NoDup_app. split_and!; [done| |apply NoDup_singleton].
    intros f Hf ->%list_elem_of_singleton. done. }
  exists ks'. split_and!; [done..|]. intros f. rewrite Hin, elem_of_cons. simpl.
  case_decide as Hv.
  - split; [tauto|]. intros [?|[->|?]]; tauto.
  - rewrite elem_of_app, list_elem_of_singleton. tauto.
Qed.

(** X11. Starting from an empty index, any run of upserts leaves exactly one
    row for each distinct file name upserted, however often a name comes
    back. *)
Theorem upsert_all_one_row_per_name calls :
  length (upsert_all [] calls)
  = length (remove_dups ((λ call, v_filename call.1) <$> calls))
  ∧ unique_keys (upsert_all [] calls).
Proof.
  destruct (upsert_all_keys calls [] [] eq_refl (NoDup_nil_2)) as (ks & Hks & Hnd & Hin).
  split.
  - transitivity (length ks).
    { by rewrite <-(length_fmap key_of), Hks, length_fmap. }
    apply Permutation_length, NoDup_Permutation; [done|apply NoDup_remove_dups|].
    intros f. rewrite Hin, elem_of_remove_dups, elem_of_nil. tauto.
  - intros filename i j r r' Hi Hj Hr%keyed_key_of Hr'%keyed_key_of.
    assert (∀ k x, upsert_all [] calls !! k = Some x → key_of x = Some filename →
                   ks !! k = Some filename) as Hk.
    { intros k x Hx Hkey.
      assert ((Some <$> ks) !! k = Some (Some filename)) as H.
      { rewrite <-Hks, list_lookup_fmap, Hx. simpl. by rewrite Hkey. }
      rewrite list_lookup_fmap in H. destruct (ks !! k); by simplify_eq/=. }
    pose proof (Hk i r Hi Hr) as Hki. pose proof (Hk j r' Hj Hr') as Hkj.
    by eapply NoDup_lookup.
Qed.

(** ** From a pending scenario to a complete one *)


Lemma load_rows_records records :
  Forall (λ record, length record = length fieldnames) records →
  load_rows (Some (fieldnames :: records)) = read_row fieldnames <$> records.
Proof.
  intros Hlen. simpl. f_equal. apply filter_all.
  eapply Forall_impl; [exact Hlen|]. by intros record Hr ->.
Qed.




(** ** The index file at concrete inputs *)

Lemma update_master_index_wellformed_witness :
  Forall (λ record, length record = length fieldnames) sample_backfilled
  ∧ ((Forall (λ record,
                record !! 1%nat
                ≠ Some (v_filename (values_of "" (Some sample_log) sample_call)))
        sample_backfilled
      ∧ update_master_index "" (Some sample_log) sample_call
          (Some (fieldnames :: sample_backfilled))
        = (Return (),
           Some (fieldnames
                 :: sample_backfilled
                    ++ [row_record (values_of "" (Some sample_log) sample_call)
                          (CStr (date_str sample_call +:+ "T" +:+ time_str sample_call
                                 +:+ ":00Z"))])))
     ∨ (∃ before existing after,
          sample_backfilled = before ++ existing :: after
          ∧ Forall (λ record,
                      record !! 1%nat
                      ≠ Some (v_filename (values_of "" (Some sample_log) sample_call)))
              before
          ∧ existing !! 1%nat
            = Some (v_filename (values_of "" (Some sample_log) sample_call))
          ∧ update_master_index "" (Some sample_log) sample_call
              (Some (fieldnames :: sample_backfilled))
            = (Return (),
               Some (fieldnames
                     :: before
                        ++ row_record (values_of "" (Some sample_log) sample_call)
                             (kept_created_at (read_row fieldnames existing)
                                (date_str sample_call +:+ "T" +:+ time_str sample_call
                                 +:+ ":00Z"))
                        :: after)))).
Proof.
  assert (Forall (λ record, length record = length fieldnames) sample_backfilled)
    as Hlen by (repeat constructor).
  split; [exact Hlen|].
  exact (update_master_index_wellformed "" (Some sample_log) sample_call
           sample_backfilled Hlen).
Defined.

Lemma update_master_index_any_header_witness :
  ∃ records,
    update_master_index "" None sample_call
      (Some (["filename"; "date"]
             :: [["SCN_2025_08_11_004.log"; "2025-08-11"]; ["SCN_2025_08_11_005.log"]]))
    = (Return (), Some (fieldnames :: records))
    ∧ Forall (λ record, length record = length fieldnames) records.
Proof.
  apply (update_master_index_any_header "" None sample_call ["filename"; "date"]
           [["SCN_2025_08_11_004.log"; "2025-08-11"]; ["SCN_2025_08_11_005.log"]]).
  - intros name Hname.
    apply elem_of_cons in Hname as [->|Hname];
      [apply list_elem_of_further, list_elem_of_here|].
    apply elem_of_cons in Hname as [->|Hname]; [apply list_elem_of_here|].
    by apply elem_of_nil in Hname.
  - repeat constructor.
Defined.

(** ** The backfill of the links *)

(** Membership in the list of the required columns. *)
Ltac in_required :=
  unfold backfill_required;
  solve [repeat first [apply list_elem_of_here | apply list_elem_of_further]].

Lemma backfill_required_present names c :
  backfill_missing names = [] → c ∈ backfill_required → c ∈ names.
Proof.
  unfold backfill_missing. intros Hnone Hc.
  destruct (decide (c ∈ names)) as [|Hout]; [done|].
  assert (c ∈ filter (λ c, c ∉ names) backfill_required) as Hin
    by by apply list_elem_of_filter.
  rewrite Hnone in Hin. by apply elem_of_nil in Hin.
Qed.

Lemma backfill_missing_cons names :
  backfill_missing names ≠ [] ↔ ∃ c, c ∈ backfill_required ∧ c ∉ names.
Proof.
  split.
  - intros Hsome. destruct (backfill_missing names) as [|c l] eqn:Hm; [done|].
    exists c. apply and_comm, (list_elem_of_filter (λ c, c ∉ names)).
    unfold backfill_missing in Hm. rewrite Hm. apply list_elem_of_here.
  - intros (c & Hc & Hout) Hnone. by apply Hout, backfill_required_present.
Qed.

Lemma get_stripped_Some row k s :
  get_stripped row k = Some s ↔
  fields row !! k = None ∧ s = ""
  ∨ ∃ t, fields row !! k = Some (CStr t) ∧ s = Py.strip t.
Proof.
  unfold get_stripped. destruct (fields row !! k) as [[|t|n]|]; split.
  - done.
  - by intros [[? _]|(t & ? & _)].
  - intros [= <-]. right. by exists t.
  - intros [[? _]|(t' & [= <-] & ->)]; done.
  - done.
  - by intros [[? _]|(t & ? & _)].
  - intros [= <-]. by left.
  - intros [[_ ->]|(t & ? & _)]; done.
Qed.

Lemma backfill_row_Some GITHUB_REPO row row' :
  backfill_row GITHUB_REPO row = Some row' ↔
  ∃ d f m,
    get_stripped row "date" = Some d
    ∧ get_stripped row "filename" = Some f
    ∧ get_stripped row "metadata_file" = Some m
    ∧ row'
      = {| fields :=
             <["metadata_link" :=
                 CStr (blob_link GITHUB_REPO (PurePosixPath.as_posix3 "logs" d m))]>
               (<["log_link" :=
                    CStr (blob_link GITHUB_REPO (PurePosixPath.as_posix3 "logs" d f))]>
                  (fields row));
           restkey := restkey row |}.
Proof.
  unfold backfill_row. split.
  - destruct (get_stripped row "date") as [d|]; [|done].
    destruct (get_stripped row "filename") as [f|]; [|done].
    destruct (get_stripped row "metadata_file") as [m|]; [|done].
    intros [= <-]. by exists d, f, m.
  - by intros (d & f & m & -> & -> & -> & ->).
Qed.

(** What a row holds after its turn of the loop. *)
Lemma backfill_row_fields GITHUB_REPO row row' :
  backfill_row GITHUB_REPO row = Some row' →
  ∃ d f m,
    get_stripped row "date" = Some d
    ∧ get_stripped row "filename" = Some f
    ∧ get_stripped row "metadata_file" = Some m
    ∧ restkey row' = restkey row
    ∧ fields row' !! "log_link"
      = Some (CStr (blob_link GITHUB_REPO (PurePosixPath.as_posix3 "logs" d f)))
    ∧ fields row' !! "metadata_link"
      = Some (CStr (blob_link GITHUB_REPO (PurePosixPath.as_posix3 "logs" d m)))
    ∧ ∀ k, k ≠ "log_link" → k ≠ "metadata_link" → fields row' !! k = fields row !! k.
Proof.
  intros (d & f & m & Hd & Hf & Hm & ->)%backfill_row_Some.
  exists d, f, m. split_and!; [done..| | |].
  - cbn [fields]. rewrite lookup_insert_ne by done. apply lookup_insert_eq.
  - cbn [fields]. apply lookup_insert_eq.
  - intros k Hlog Hmeta. cbn [fields]. by rewrite !lookup_insert_ne.
Qed.

(** What a successful run is made of. *)
Lemma backfill_main_Exit_0 GITHUB_REPO names data index' :
  backfill_main GITHUB_REPO (Some (names :: data)) = (Exit 0, index') ↔
  GITHUB_REPO ≠ "" ∧ backfill_missing names = []
  ∧ ∃ rows written,
      Forall2 (λ row row', backfill_row GITHUB_REPO (read_row names row) = Some row')
        (filter (λ row, row ≠ []) data) rows
      ∧ Forall2 (λ row' record, dict_to_list names row' = Some record) rows written
      ∧ index' = Some (names :: written).
Proof.
  unfold backfill_main, Py.truthy. cbn [header_of DictReader]. split.
  - case_bool_decide as Hrepo; [|done]. cbn [negb].
    case_bool_decide as Hmissing; [done|].
    destruct (mapM _ _) as [rows|] eqn:Hrows; [|done].
    apply mapM_Some, Forall2_fmap_l in Hrows.
    destruct (writerows names rows []) as [[[]|e] written] eqn:Hw; [|done].
    apply writerows_Return in Hw as (records & Hrecords & ->).
    intros [= <-]. split_and!; [done..|]. by exists rows, records.
  - intros (Hrepo & Hmissing & rows & written & Hrows & Hwritten & ->).
    rewrite bool_decide_eq_true_2 by done. cbn [negb].
    rewrite bool_decide_eq_false_2 by (by intros []).
    assert (mapM (backfill_row GITHUB_REPO)
              (read_row names <$> filter (λ row, row ≠ []) data) = Some rows) as ->
      by by apply mapM_Some, Forall2_fmap_l.
    assert (writerows names rows [] = (Return (), written)) as ->; [|done].
    apply writerows_Return. by exists written.
Qed.

(** X15. [main] returns 1 in two cases only, an empty [GITHUB_REPO] and an
    index file whose header lacks one of the five columns it needs; in both
    the index file is left as it was. *)
Theorem backfill_main_exit_1 GITHUB_REPO index index' :
  backfill_main GITHUB_REPO index = (Exit 1, index') ↔
  index' = index
  ∧ (GITHUB_REPO = ""
     ∨ ∃ records c,
         index = Some records ∧ c ∈ backfill_required ∧ c ∉ header_of records).
Proof.
  unfold backfill_main, Py.truthy. split.
  - case_bool_decide as Hrepo; cbn [negb].
    + destruct index as [records|]; [|done].
      case_bool_decide as Hmissing.
      * intros [= <-]. split; [done|]. right.
        apply backfill_missing_cons in Hmissing as (c & Hc & Hout).
        by exists records, c.
      * destruct (mapM _ _) as [rows|]; [|done].
        by destruct (writerows _ rows []) as [[[]|e] written].
    + intros [= <-]. split; [done|]. by left.
  - intros [-> [->|(records & c & -> & Hc & Hout)]].
    + by rewrite bool_decide_eq_false_2 by (by intros []).
    + case_bool_decide as Hrepo; cbn [negb]; [|done].
      rewrite bool_decide_eq_true_2; [done|].
      apply backfill_missing_cons. by exists c.
Qed.

(** X16. After a run of [main] that returns 0 on an index file with
    records, the file has its header as before and one record for each
    record that was not empty, every one as long as the header: a record
    that was shorter is filled up, none is lost. *)
Theorem backfill_main_shape GITHUB_REPO names data index' :
  backfill_main GITHUB_REPO (Some (names :: data)) = (Exit 0, index') →
  ∃ written,
    index' = Some (names :: written)
    ∧ length written = length (filter (λ row, row ≠ []) data)
    ∧ Forall (λ record, length record = length names) written.
Proof.
  intros (_ & _ & rows & written & Hrows & Hwritten & ->)%backfill_main_Exit_0.
  exists written. split_and!; [done| |].
  - apply Forall2_length in Hrows, Hwritten. congruence.
  - eapply Forall2_Forall_r; [exact Hwritten|]. apply Forall_forall.
    intros row' _ record Hrecord. by eapply dict_to_list_length.
Qed.

(** The field under a column of the header, as [get_stripped] reads it. *)
Lemma get_stripped_read_row names row j k s :
  NoDup names → names !! j = Some k →
  get_stripped (read_row names row) k = Some s →
  ∃ t, row !! j = Some t ∧ s = Py.strip t.
Proof.
  intros Hnd Hj Hs. apply get_stripped_Some in Hs.
  change (fields (read_row names row)) with (zip_cells names row ∅) in Hs.
  rewrite (zip_cells_lookup names row ∅ j k Hnd Hj) in Hs.
  destruct Hs as [[? _]|(t & Ht & ->)]; [done|].
  destruct (row !! j) as [t'|]; [|done]. injection Ht as ->. by exists t.
Qed.

Lemma backfill_row_record GITHUB_REPO names row row' record :
  NoDup names → backfill_missing names = [] →
  backfill_row GITHUB_REPO (read_row names row) = Some row' →
  dict_to_list names row' = Some record →
  backfilled GITHUB_REPO names row record.
Proof.
  intros Hnd Hmissing Hrow Hrecord.
  destruct (backfill_row_fields _ _ _ Hrow)
    as (d & f & m & Hd & Hf & Hm & _ & Hlog & Hmeta & Hother).
  assert (∀ k s, k ∈ backfill_required → get_stripped (read_row names row) k = Some s →
                 ∃ t, s = Py.strip t ∧ ∀ j, names !! j = Some k → row !! j = Some t)
    as Hcol.
  { intros k s Hk Hs.
    apply (backfill_required_present names k Hmissing), list_elem_of_lookup in Hk as [i Hi].
    destruct (get_stripped_read_row names row i k s Hnd Hi Hs) as (t & Ht & ->).
    exists t. split; [done|]. intros j Hj.
    by rewrite (NoDup_lookup names j i k Hnd Hj Hi). }
  destruct (Hcol "date" d) as (date & -> & Hdate); [in_required|done|].
  destruct (Hcol "filename" f) as (filename & -> & Hfilename); [in_required|done|].
  destruct (Hcol "metadata_file" m) as (metadata_file & -> & Hmetadata);
    [in_required|done|].
  exists date, filename, metadata_file. split_and!; [done..|].
  intros j k Hj. apply dict_to_list_Some in Hrecord as (_ & _ & ->).
  rewrite list_lookup_fmap, Hj. cbn [fmap option_fmap option_map]. f_equal.
  destruct (decide (k = "log_link")) as [->|Hk1]; [by rewrite Hlog|].
  destruct (decide (k = "metadata_link")) as [->|Hk2]; [by rewrite Hmeta|].
  rewrite (Hother k Hk1 Hk2).
  change (fields (read_row names row)) with (zip_cells names row ∅).
  rewrite (zip_cells_lookup names row ∅ j k Hnd Hj).
  by destruct (row !! j).
Qed.

(** X17. On an index file whose header names no column twice, a run of
    [main] that returns 0 leaves every record as it was, padded with empty
    fields up to the header, but for the two link columns: each holds the
    link made of the record's own date and file name, stripped of the white
    space around them. *)
Theorem backfill_main_records GITHUB_REPO names data written :
  NoDup names →
  backfill_main GITHUB_REPO (Some (names :: data)) = (Exit 0, Some (names :: written)) →
  Forall2 (backfilled GITHUB_REPO names) (filter (λ row, row ≠ []) data) written.
Proof.
  intros Hnd (_ & Hmissing & rows & records & Hrows & Hrecords & [= ->])%backfill_main_Exit_0.
  revert records Hrecords.
  induction Hrows as [|row row' l rows Hrow _ IH]; intros records Hrecords.
  - apply Forall2_nil_inv_l in Hrecords as ->. constructor.
  - apply Forall2_cons_inv_l in Hrecords as (record & records' & Hrecord & Hrecords & ->).
    constructor; [|by apply IH].
    by eapply backfill_row_record.
Qed.


Lemma zip_cells_nil_keeps names d k :
  d !! k = Some CNone → zip_cells names [] d !! k = Some CNone.
Proof.
  revert d. induction names as [|k0 names IH]; intros d Hd; [done|].
  cbn [zip_cells]. apply IH. destruct (decide (k0 = k)) as [->|Hne].
  - apply lookup_insert_eq.
  - by rewrite lookup_insert_ne.
Qed.

(** A column the record is too short for reads as [None], also when the
    header repeats it. *)
Lemma zip_cells_short names row d j k :
  names !! j = Some k → (length row ≤ j)%nat →
  zip_cells names row d !! k = Some CNone.
Proof.
  revert row d j. induction names as [|k0 names IH]; intros row d j Hj Hlen; [done|].
  destruct j as [|j].
  - injection Hj as ->. destruct row as [|v row]; [|simpl in Hlen; lia].
    cbn [zip_cells]. apply zip_cells_nil_keeps, lookup_insert_eq.
  - destruct row as [|v row]; cbn [zip_cells].
    + apply (IH [] _ j); [done|simpl; lia].
    + apply (IH row _ j); [done|simpl in Hlen; lia].
Qed.

Lemma backfill_row_None GITHUB_REPO row k :
  k ∈ ["date"; "filename"; "metadata_file"] →
  fields row !! k = Some CNone →
  backfill_row GITHUB_REPO row = None.
Proof.
  intros Hk Hnone.
  assert (get_stripped row k = None) as Hget by (unfold get_stripped; by rewrite Hnone).
  unfold backfill_row.
  apply elem_of_cons in Hk as [->|Hk]; [by rewrite Hget|].
  destruct (get_stripped row "date"); [|done].
  apply elem_of_cons in Hk as [->|Hk]; [by rewrite Hget|].
  destruct (get_stripped row "filename"); [|done].
  apply list_elem_of_singleton in Hk as ->. by rewrite Hget.
Qed.

(** X18. A record too short to reach the date, the file name or the
    metadata file column makes [main] raise [AttributeError] before it
    writes: the index file is left as it was. *)
Theorem backfill_main_short_record GITHUB_REPO names data row j k :
  GITHUB_REPO ≠ "" → backfill_missing names = [] →
  row ∈ data → row ≠ [] →
  k ∈ ["date"; "filename"; "metadata_file"] →
  names !! j = Some k → (length row ≤ j)%nat →
  backfill_main GITHUB_REPO (Some (names :: data))
  = (AttributeError, Some (names :: data)).
Proof.
  intros Hrepo Hmissing Hrow Hne Hk Hj Hlen.
  unfold backfill_main, Py.truthy. cbn [header_of DictReader].
  rewrite bool_decide_eq_true_2 by done. cbn [negb].
  rewrite bool_decide_eq_false_2 by (by intros []).
  assert (mapM (backfill_row GITHUB_REPO)
            (read_row names <$> filter (λ row, row ≠ []) data) = None) as ->; [|done].
  apply mapM_None, Exists_exists. exists (read_row names row). split.
  - apply list_elem_of_fmap_2. by apply list_elem_of_filter.
  - apply (backfill_row_None _ _ k Hk).
    exact (zip_cells_short names row ∅ j k Hj Hlen).
Qed.



(** ** The links of ordinary rows *)

Lemma split_segment sep a :
  has_char sep a = false → PurePosixPath.split sep a = [a].
Proof.
  induction a as [|c a IH]; [done|]. cbn [has_char PurePosixPath.split].
  intros [Hc Ha]%orb_false_iff. apply bool_decide_eq_false in Hc.
  rewrite decide_False by done. by rewrite IH.
Qed.

Lemma split_app sep a b :
  has_char sep a = false →
  PurePosixPath.split sep (a +:+ String sep b) = a :: PurePosixPath.split sep b.
Proof.
  induction a as [|c a IH].
  - intros _. rewrite str_app_nil_l. cbn [PurePosixPath.split].
    by rewrite decide_True.
  - cbn [has_char]. intros [Hc Ha]%orb_false_iff. apply bool_decide_eq_false in Hc.
    rewrite str_app_cons. cbn [PurePosixPath.split].
    rewrite decide_False by done. by rewrite IH.
Qed.

Lemma str_snoc s : s ≠ "" → ∃ s' c, s = s' +:+ String c "".
Proof.
  induction s as [|a s IH]; [done|]. intros _. destruct s as [|b s].
  - by exists "", a.
  - destruct IH as (s' & c & ->); [done|]. exists (String a s'), c.
    by rewrite str_app_cons.
Qed.

Lemma segment_not_endswith x s :
  segment s → Py.endswith (x +:+ s) "/" = false.
Proof.
  intros (Hne & _ & Hslash). apply not_true_is_false.
  intros (y & Hy)%endswith_true.
  destruct (str_snoc s Hne) as (s' & c & ->).
  rewrite <-str_app_assoc in Hy.
  apply str_app_inj_tail in Hy as [_ [= ->]]; [|done].
  by rewrite has_char_app in Hslash.
Qed.

Lemma segment_not_startswith s : segment s → Py.startswith s "/" = false.
Proof.
  intros (Hne & _ & Hslash). destruct s as [|c s]; [done|].
  cbn [has_char] in Hslash. apply orb_false_iff in Hslash as [Hc _].
  apply bool_decide_eq_false in Hc. unfold Py.startswith. cbn [Py.removeprefix].
  rewrite decide_False by done. apply bool_decide_eq_false_2. by intros [? ?].
Qed.

Lemma as_posix3_segments d f :
  segment d → segment f →
  PurePosixPath.as_posix3 "logs" d f = "logs/" +:+ d +:+ "/" +:+ f.
Proof.
  intros Hd Hf. unfold PurePosixPath.as_posix3, PurePosixPath.join_segment.
  rewrite (segment_not_startswith d Hd), (segment_not_startswith f Hf).
  change (bool_decide ("logs" = "") || Py.endswith "logs" "/") with false.
  cbv iota.
  change ("logs" +:+ "/" +:+ d) with ("logs/" +:+ d).
  rewrite (segment_not_endswith "logs/" d Hd).
  rewrite bool_decide_eq_false_2, orb_false_l by (by rewrite !str_app_cons).
  unfold PurePosixPath.normal.
  change (PurePosixPath.splitroot (("logs/" +:+ d) +:+ "/" +:+ f))
    with ("", ("logs/" +:+ d) +:+ "/" +:+ f).
  cbv iota beta.
  change (("logs/" +:+ d) +:+ "/" +:+ f)
    with ("logs" +:+ String "/" (d +:+ String "/" f)).
  destruct Hd as (Hd1 & Hd2 & Hd3), Hf as (Hf1 & Hf2 & Hf3).
  rewrite (split_app "/" "logs") by done.
  rewrite (split_app "/" d) by done.
  rewrite (split_segment "/" f) by done.
  rewrite filter_cons_True by done.
  rewrite filter_cons_True by done.
  rewrite filter_cons_True by done.
  rewrite filter_nil.
  cbn [PurePosixPath.join]. rewrite str_app_nil_l.
  by rewrite bool_decide_eq_false_2 by (by rewrite !str_app_cons).
Qed.

(** X20. A row whose date, file name and metadata file name, stripped, are
    ordinary path segments (not empty, not [.], without a slash) gets the
    links [https://github.com/<repo>/blob/main/logs/<date>/<name>] the
    script promises. *)
Theorem backfill_row_links GITHUB_REPO row date filename metadata_file :
  fields row !! "date" = Some (CStr date) →
  fields row !! "filename" = Some (CStr filename) →
  fields row !! "metadata_file" = Some (CStr metadata_file) →
  segment (Py.strip date) → segment (Py.strip filename) →
  segment (Py.strip metadata_file) →
  ∃ row',
    backfill_row GITHUB_REPO row = Some row'
    ∧ fields row' !! "log_link"
      = Some (CStr ("https://github.com/" +:+ GITHUB_REPO +:+ "/blob/main/"
                    +:+ "logs/" +:+ Py.strip date +:+ "/" +:+ Py.strip filename))
    ∧ fields row' !! "metadata_link"
      = Some (CStr ("https://github.com/" +:+ GITHUB_REPO +:+ "/blob/main/"
                    +:+ "logs/" +:+ Py.strip date +:+ "/" +:+ Py.strip metadata_file)).
Proof.
  intros Hdate Hfilename Hmetadata Hd Hf Hm.
  destruct (backfill_row GITHUB_REPO row) as [row'|] eqn:Hrow.
  - exists row'. split; [done|].
    destruct (backfill_row_fields _ _ _ Hrow)
      as (d & f & m & Hd' & Hf' & Hm' & _ & Hlog & Hmeta & _).
    unfold get_stripped in Hd', Hf', Hm'.
    rewrite Hdate in Hd'. rewrite Hfilename in Hf'. rewrite Hmetadata in Hm'.
    injection Hd' as <-. injection Hf' as <-. injection Hm' as <-.
    rewrite Hlog, Hmeta. unfold blob_link.
    by rewrite !as_posix3_segments.
  - exfalso. unfold backfill_row, get_stripped in Hrow.
    by rewrite Hdate, Hfilename, Hmetadata in Hrow.
Qed.

(** ** The backfill at concrete inputs *)

Lemma sample_backfill :
  backfill_main "owner/repo" (Some (fieldnames :: sample_records))
  = (Exit 0, Some (fieldnames :: sample_backfilled)).
Proof. vm_compute. reflexivity. Qed.

Lemma backfill_main_shape_witness :
  backfill_main "owner/repo" (Some (fieldnames :: sample_records))
  = (Exit 0, Some (fieldnames :: sample_backfilled))
  ∧ ∃ written,
      Some (fieldnames :: sample_backfilled) = Some (fieldnames :: written)
      ∧ length written = length (filter (λ row, row ≠ []) sample_records)
      ∧ Forall (λ record, length record = length fieldnames) written.
Proof.
  split; [exact sample_backfill|].
  exact (backfill_main_shape "owner/repo" fieldnames sample_records
           (Some (fieldnames :: sample_backfilled)) sample_backfill).
Defined.

Lemma backfill_main_records_witness :
  NoDup fieldnames
  ∧ backfill_main "owner/repo" (Some (fieldnames :: sample_records))
    = (Exit 0, Some (fieldnames :: sample_backfilled))
  ∧ Forall2 (backfilled "owner/repo" fieldnames)
      (filter (λ row, row ≠ []) sample_records) sample_backfilled.
Proof.
  split; [exact fieldnames_NoDup|]. split; [exact sample_backfill|].
  exact (backfill_main_records "owner/repo" fieldnames sample_records
           sample_backfilled fieldnames_NoDup sample_backfill).
Defined.

Lemma backfill_main_short_record_witness :
  backfill_main "owner/repo" (Some (fieldnames :: [["2025-08-12"]]))
  = (AttributeError, Some (fieldnames :: [["2025-08-12"]])).
Proof.
  apply (backfill_main_short_record "owner/repo" fieldnames [["2025-08-12"]]
           ["2025-08-12"] 1 "filename").
  - discriminate.
  - vm_compute. reflexivity.
  - apply list_elem_of_here.
  - discriminate.
  - apply list_elem_of_further, list_elem_of_here.
  - reflexivity.
  - simpl. lia.
Defined.


Lemma backfill_row_links_witness :
  ∃ row',
    backfill_row "owner/repo"
      (read_row fieldnames
         ["2025-08-13"; " SCN_2025_08_13_001.log"; "0"; "0";
          "SCN_2025_08_13_001.metadata.json"]) = Some row'
    ∧ fields row' !! "log_link"
      = Some (CStr ("https://github.com/" +:+ "owner/repo" +:+ "/blob/main/"
                    +:+ "logs/" +:+ Py.strip "2025-08-13" +:+ "/"
                    +:+ Py.strip " SCN_2025_08_13_001.log"))
    ∧ fields row' !! "metadata_link"
      = Some (CStr ("https://github.com/" +:+ "owner/repo" +:+ "/blob/main/"
                    +:+ "logs/" +:+ Py.strip "2025-08-13" +:+ "/"
                    +:+ Py.strip "SCN_2025_08_13_001.metadata.json")).
Proof.
  apply (backfill_row_links "owner/repo"
           (read_row fieldnames
              ["2025-08-13"; " SCN_2025_08_13_001.log"; "0"; "0";
               "SCN_2025_08_13_001.metadata.json"])
           "2025-08-13" " SCN_2025_08_13_001.log" "SCN_2025_08_13_001.metadata.json").
  - vm_compute. reflexivity.
  - vm_compute. reflexivity.
  - vm_compute. reflexivity.
  - split_and!; [vm_compute; discriminate..|vm_compute; reflexivity].
  - split_and!; [vm_compute; discriminate..|vm_compute; reflexivity].
  - split_and!; [vm_compute; discriminate..|vm_compute; reflexivity].
Defined.

(** ** The backfill on a file the capture script wrote *)





(** ** The index update of the script *)

Lemma join_empty_cons x l :
  PurePosixPath.join "" (x :: l) = x +:+ PurePosixPath.join "" l.
Proof.
  destruct l as [|y l]; cbn [PurePosixPath.join].
  - by rewrite str_app_nil_r.
  - by rewrite str_app_nil_l.
Qed.

Lemma join_empty_app l k :
  PurePosixPath.join "" (l ++ k)
  = PurePosixPath.join "" l +:+ PurePosixPath.join "" k.
Proof.
  induction l as [|x l IH].
  - by rewrite str_app_nil_l.
  - rewrite <-app_comm_cons, !join_empty_cons, IH. by rewrite str_app_assoc.
Qed.

(** Writing back the lines read gives the text as it was read. *)
Lemma join_readlines s : PurePosixPath.join "" (readlines s) = read_text s.
Proof.
  assert (∀ n s, (String.length s ≤ n)%nat →
                 PurePosixPath.join "" (readlines s) = read_text s) as Hall;
    [|by apply (Hall (String.length s))].
  clear s. induction n as [|n IH]; intros s Hlen.
  { destruct s; [done|simpl in Hlen; lia]. }
  destruct s as [|c s]; [done|]. cbn [String.length] in Hlen.
  cbn [readlines read_text].
  destruct (decide (c = "010"%char)) as [->|Hlf].
  { rewrite decide_False by done. rewrite join_empty_cons, IH by lia. done. }
  destruct (decide (c = "013"%char)) as [->|Hcr].
  { destruct s as [|a s].
    - done.
    - cbn [String.length] in Hlen.
      assert (PurePosixPath.join "" (readlines s) = read_text s) as Hs
        by (apply IH; lia).
      assert (PurePosixPath.join "" (readlines (String a s)) = read_text (String a s))
        as Has by (apply IH; simpl; lia).
      destruct a as [[] [] [] [] [] [] [] []];
        rewrite join_empty_cons; first [by rewrite Hs|by rewrite Has]. }
  rewrite <-(IH s) by lia.
  destruct (readlines s) as [|line lines]; [done|].
  by rewrite !join_empty_cons.
Qed.

Lemma has_char_append c a b :
  has_char c (a +:+ b) = has_char c a || has_char c b.
Proof.
  induction a as [|x a IH]; [by rewrite str_app_nil_l|].
  rewrite str_app_cons. cbn [has_char]. by rewrite IH, orb_assoc.
Qed.

Lemma read_text_plain s : has_char "013" s = false → read_text s = s.
Proof.
  induction s as [|c s IH]; [done|]. cbn [has_char read_text].
  intros [Hc Hs]%orb_false_iff. apply bool_decide_eq_false in Hc.
  rewrite decide_False by done. by rewrite IH.
Qed.

Lemma read_text_no_return s : has_char "013" (read_text s) = false.
Proof.
  assert (∀ n s, (String.length s ≤ n)%nat → has_char "013" (read_text s) = false)
    as Hall; [|by apply (Hall (String.length s))].
  clear s. induction n as [|n IH]; intros s Hlen.
  { destruct s; [done|simpl in Hlen; lia]. }
  destruct s as [|c s]; [done|]. cbn [String.length] in Hlen. cbn [read_text].
  destruct (decide (c = "013"%char)) as [->|Hcr].
  - destruct s as [|a s]; [done|]. cbn [String.length] in Hlen.
    assert (has_char "013" (read_text s) = false) as Hs by (apply IH; lia).
    assert (has_char "013" (read_text (String a s)) = false) as Has
      by (apply IH; simpl; lia).
    destruct a as [[] [] [] [] [] [] [] []]; cbn [has_char];
      first [by rewrite Hs|by rewrite Has].
  - cbn [has_char]. rewrite IH by lia. by rewrite bool_decide_eq_false_2.
Qed.

(** X21. The script's index update keeps the whole text of the index file,
    its line ends read as [\n], and adds its entry after the last
    character; a text without [\r] is kept character for character. *)
Theorem script_update_appends scenario_id date time test_type log_file
    metadata_file text :
  process_capture.update_master_index scenario_id date time test_type log_file
    metadata_file (Some text)
  = (process_capture.Written,
     Some (read_text text
           +:+ process_capture.new_entry scenario_id date time test_type log_file
                 metadata_file))
  ∧ (has_char "013" text = false → read_text text = text).
Proof.
  split; [|apply read_text_plain].
  unfold process_capture.update_master_index, process_capture.writelines.
  by rewrite join_empty_app, join_readlines.
Qed.

(** X22. The script never looks for a row of the scenario: the same call
    made twice leaves its entry twice, one after the other. *)
Theorem script_update_twice scenario_id date time test_type log_file
    metadata_file text :
  let entry :=
    process_capture.new_entry scenario_id date time test_type log_file
      metadata_file in
  has_char "013" entry = false →
  process_capture.update_master_index scenario_id date time test_type log_file
    metadata_file
    (process_capture.update_master_index scenario_id date time test_type log_file
       metadata_file (Some text)).2
  = (process_capture.Written, Some (read_text text +:+ entry +:+ entry)).
Proof.
  intros entry Hentry.
  unfold process_capture.update_master_index, process_capture.writelines.
  fold entry.
  cbn [snd]. rewrite !join_empty_app, !join_readlines.
  cbn [PurePosixPath.join].
  rewrite read_text_plain.
  - by rewrite str_app_assoc.
  - by rewrite has_char_append, read_text_no_return, Hentry.
Qed.

Lemma script_update_twice_witness :
  process_capture.update_master_index "SCN_2025_08_12_001" "2025-08-12" "10:00"
    "Throttle, idle" "logs/2025-08-12/SCN_2025_08_12_001.log"
    "logs/2025-08-12/SCN_2025_08_12_001.metadata.json"
    (process_capture.update_master_index "SCN_2025_08_12_001" "2025-08-12" "10:00"
       "Throttle, idle" "logs/2025-08-12/SCN_2025_08_12_001.log"
       "logs/2025-08-12/SCN_2025_08_12_001.metadata.json"
       (Some ("date,filename" +:+ String "013" newline))).2
  = (process_capture.Written,
     Some (read_text ("date,filename" +:+ String "013" newline)
           +:+ process_capture.new_entry "SCN_2025_08_12_001" "2025-08-12" "10:00"
                 "Throttle, idle" "logs/2025-08-12/SCN_2025_08_12_001.log"
                 "logs/2025-08-12/SCN_2025_08_12_001.metadata.json"
           +:+ process_capture.new_entry "SCN_2025_08_12_001" "2025-08-12" "10:00"
                 "Throttle, idle" "logs/2025-08-12/SCN_2025_08_12_001.log"
                 "logs/2025-08-12/SCN_2025_08_12_001.metadata.json")).
Proof.
  apply (script_update_twice "SCN_2025_08_12_001" "2025-08-12" "10:00"
           "Throttle, idle" "logs/2025-08-12/SCN_2025_08_12_001.log"
           "logs/2025-08-12/SCN_2025_08_12_001.metadata.json"
           ("date,filename" +:+ String "013" newline)).
  vm_compute. reflexivity.
Defined.

(** * The upsert on the index file *)

Lemma row_record_call REPO_GITHUB_PATH log_file c created_at_value :
  row_record (values_of REPO_GITHUB_PATH log_file c) created_at_value
  = call_record REPO_GITHUB_PATH log_file c (cell_text created_at_value).
Proof. reflexivity. Qed.

(** A call that returns has written every row it held. *)
Lemma update_master_index_Return REPO_GITHUB_PATH log_file c index index' :
  update_master_index REPO_GITHUB_PATH log_file c index = (Return (), index') ↔
  ∃ records',
    written_as
      (upsert (load_rows index) (values_of REPO_GITHUB_PATH log_file c)
         (date_str c +:+ "T" +:+ time_str c +:+ ":00Z")) records'
    ∧ index' = Some (fieldnames :: records').
Proof.
  unfold update_master_index.
  destruct (writerows fieldnames _ []) as [outcome written] eqn:Hw. split.
  - intros [= -> <-]. apply writerows_Return in Hw as (records & Hrecords & ->).
    by exists records.
  - intros (records' & Hrecords & ->).
    assert (writerows fieldnames
              (upsert (load_rows index) (values_of REPO_GITHUB_PATH log_file c)
                 (date_str c +:+ "T" +:+ time_str c +:+ ":00Z")) []
            = (Return (), records')) as Hw'
      by (apply writerows_Return; by exists records').
    rewrite Hw in Hw'. by injection Hw' as -> ->.
Qed.

Lemma written_as_app_inv rows rows' records :
  written_as (rows ++ rows') records →
  ∃ written written',
    records = written ++ written'
    ∧ written_as rows written ∧ written_as rows' written'.
Proof.
  intros (written & written' & H1 & H2 & ->)%Forall2_app_inv_l.
  by exists written, written'.
Qed.

Lemma written_as_cons_inv d rows records :
  written_as (d :: rows) records →
  ∃ record written,
    records = record :: written
    ∧ dict_to_list fieldnames d = Some record ∧ written_as rows written.
Proof.
  intros (record & written & H1 & H2 & ->)%Forall2_cons_inv_l.
  by exists record, written.
Qed.

(** The second field of a record written is the file name of its row. *)
Lemma written_filename d record :
  dict_to_list fieldnames d = Some record →
  record !! 1%nat = Some (from_option cell_text "" (fields d !! "filename")).
Proof. by intros (_ & _ & ->)%dict_to_list_Some. Qed.

Lemma written_keyed filename d record :
  keyed filename d → dict_to_list fieldnames d = Some record →
  record !! 1%nat = Some filename.
Proof.
  intros Hkey Hrecord. rewrite (written_filename d record Hrecord).
  unfold keyed in Hkey. by rewrite Hkey.
Qed.

Lemma written_not_keyed filename d record :
  filename ≠ "" → text_cells d → ¬ keyed filename d →
  dict_to_list fieldnames d = Some record →
  record !! 1%nat ≠ Some filename.
Proof.
  intros Hne Htext Hkey Hrecord Hfile.
  by apply (reread_not_keyed filename d record Hne Htext Hkey Hrecord), read_row_keyed.
Qed.

Lemma written_none_keyed filename rows records :
  filename ≠ "" → Forall text_cells rows →
  Forall (λ r, ¬ keyed filename r) rows → written_as rows records →
  Forall (λ record, record !! 1%nat ≠ Some filename) records.
Proof.
  intros Hne Htext Hnone Hw. revert Htext Hnone.
  induction Hw as [|d record rows records Hd _ IH]; intros Htext Hnone; [constructor|].
  apply Forall_cons in Htext as [Hd1 Htext], Hnone as [Hd2 Hnone].
  constructor; [by eapply written_not_keyed|by apply IH].
Qed.

(** As many records of the file name as rows of it. *)
Lemma written_count filename rows records :
  filename ≠ "" → Forall text_cells rows → written_as rows records →
  length (filter (λ record, record !! 1%nat = Some filename) records)
  = length (filter (keyed filename) rows).
Proof.
  intros Hne Htext Hw. revert Htext.
  induction Hw as [|d record rows records Hd _ IH]; intros Htext; [done|].
  apply Forall_cons in Htext as [Hd1 Htext].
  rewrite !filter_cons. destruct (decide (keyed filename d)) as [Hkey|Hkey].
  - rewrite decide_True by by eapply written_keyed. simpl. by rewrite IH.
  - rewrite decide_False by by eapply written_not_keyed. by apply IH.
Qed.

Lemma filter_none_records filename (records : list (list string)) :
  Forall (λ record, record !! 1%nat ≠ Some filename) records →
  filter (λ record, record !! 1%nat = Some filename) records = [].
Proof.
  induction 1 as [|record records Hrecord _ IH]; [done|].
  by rewrite filter_cons, decide_False.
Qed.

(** What a call that returns leaves, by the place of the first row of the
    file name. *)
Lemma update_master_index_written REPO_GITHUB_PATH log_file c index index' :
  let filename := scenario_id c +:+ ".log" in
  let T := date_str c +:+ "T" +:+ time_str c +:+ ":00Z" in
  update_master_index REPO_GITHUB_PATH log_file c index = (Return (), index') →
  (Forall (λ r, ¬ keyed filename r) (load_rows index)
   ∧ ∃ written,
       written_as (load_rows index) written
       ∧ index'
         = Some (fieldnames
                 :: written ++ [call_record REPO_GITHUB_PATH log_file c T]))
  ∨ (∃ before existing after written_before written_after,
       load_rows index = before ++ existing :: after
       ∧ Forall (λ r, ¬ keyed filename r) before
       ∧ keyed filename existing
       ∧ written_as before written_before
       ∧ written_as after written_after
       ∧ index'
         = Some (fieldnames
                 :: written_before
                    ++ call_record REPO_GITHUB_PATH log_file c
                         (cell_text (kept_created_at existing T))
                    :: written_after)).
Proof.
  intros filename T (records' & Hw & ->)%update_master_index_Return. fold T in Hw.
  set (v := values_of REPO_GITHUB_PATH log_file c) in *.
  destruct (rows_split (v_filename v) (load_rows index))
    as [Hnone|(before & existing & after & Heq & Hbefore & Hkey)].
  - left. split; [done|]. rewrite (upsert_absent _ _ _ Hnone) in Hw.
    apply written_as_app_inv in Hw as (written & last & -> & Hwritten & Hlast).
    apply written_as_cons_inv in Hlast as (record & rest & -> & Hrecord & Hrest).
    apply Forall2_nil_inv_l in Hrest as ->.
    rewrite dict_to_list_index_row in Hrecord. injection Hrecord as <-.
    by exists written.
  - right. rewrite Heq, (upsert_existing _ _ _ _ _ Hbefore Hkey) in Hw.
    apply written_as_app_inv in Hw as (written & rest & -> & Hwritten & Hrest).
    apply written_as_cons_inv in Hrest as (record & written' & -> & Hrecord & Hafter).
    rewrite dict_to_list_index_row in Hrecord. injection Hrecord as <-.
    by exists before, existing, after, written, written'.
Qed.

Lemma written_as_lookup rows records i r :
  written_as rows records → rows !! i = Some r →
  ∃ record, records !! i = Some record ∧ dict_to_list fieldnames r = Some record.
Proof. intros Hw Hr. by destruct (Forall2_lookup_l _ _ _ _ _ Hw Hr) as (record & ? & ?); exists record. Qed.

Lemma written_as_functional rows written written' :
  written_as rows written → written_as rows written' → written = written'.
Proof.
  intros Hw. revert written'.
  induction Hw as [|d record rows records Hd _ IH]; intros written' Hw'.
  - by apply Forall2_nil_inv_l in Hw'.
  - apply written_as_cons_inv in Hw' as (record' & rest & -> & Hd' & Hw').
    cbv beta in Hd. rewrite Hd in Hd'. injection Hd' as <-. f_equal. by apply IH.
Qed.

(** Rows read from a file of the script's own shape are written back as
    they were. *)
Lemma written_as_records records written :
  Forall (λ record, length record = length fieldnames) records →
  written_as (read_row fieldnames <$> records) written → written = records.
Proof.
  intros Hlen Hw. symmetry.
  exact (written_as_functional _ _ _ (written_as_reread records Hlen) Hw).
Qed.

Lemma lookup_middle_other {A} (l1 l2 : list A) x y i :
  i ≠ length l1 → (l1 ++ x :: l2) !! i = (l1 ++ y :: l2) !! i.
Proof.
  intros Hi. destruct (decide (i < length l1)%nat).
  - by rewrite !lookup_app_l by done.
  - rewrite !lookup_app_r by lia.
    destruct (i - length l1)%nat as [|j] eqn:Hj; [lia|done].
Qed.

Lemma call_record_filename REPO_GITHUB_PATH log_file c created_at :
  call_record REPO_GITHUB_PATH log_file c created_at !! 1%nat
  = Some (scenario_id c +:+ ".log").
Proof. reflexivity. Qed.

(** C3. Amended: on every index file on which the call returns and in which
    every file name keys at most one row, [update_master_index] leaves the
    fixed header and exactly one record of the file name; a row of another
    file name is written back at its place, its record being the row as
    [DictWriter] renders it, which on a file of the script's own shape (the
    fixed header, nine fields a record) is the record as it was; the row of
    the file name is rewritten at its place with the record of the call, or,
    when there was none, that record is added after all the others. *)
Theorem update_master_index_one_row REPO_GITHUB_PATH log_file c index index' :
  let filename := scenario_id c +:+ ".log" in
  let T := date_str c +:+ "T" +:+ time_str c +:+ ":00Z" in
  unique_keys (load_rows index) →
  update_master_index REPO_GITHUB_PATH log_file c index = (Return (), index') →
  ∃ records',
    index' = Some (fieldnames :: records')
    ∧ length (filter (λ record, record !! 1%nat = Some filename) records') = 1%nat
    ∧ (∀ i r, load_rows index !! i = Some r → ¬ keyed filename r →
         ∃ record,
           records' !! i = Some record
           ∧ dict_to_list fieldnames r = Some record
           ∧ record !! 1%nat ≠ Some filename)
    ∧ ((∃ i existing,
          load_rows index !! i = Some existing ∧ keyed filename existing
          ∧ length records' = length (load_rows index)
          ∧ records' !! i
            = Some (call_record REPO_GITHUB_PATH log_file c
                      (cell_text (kept_created_at existing T))))
       ∨ (Forall (λ r, ¬ keyed filename r) (load_rows index)
          ∧ length records' = S (length (load_rows index))
          ∧ records' !! length (load_rows index)
            = Some (call_record REPO_GITHUB_PATH log_file c T)))
    ∧ (∀ records,
         index = Some (fieldnames :: records) →
         Forall (λ record, length record = length fieldnames) records →
         ∀ i record,
           records !! i = Some record → record !! 1%nat ≠ Some filename →
           records' !! i = Some record).
Proof.
  intros filename T Huniq Hrun. subst filename T.
  pose proof (load_rows_text index) as Htext.
  pose proof (filename_nonempty (scenario_id c)) as Hne.
  destruct (update_master_index_written _ _ _ _ _ Hrun)
    as [(Hnone & written & Hw & ->)
       |(before & existing & after & wb & wa & Heq & Hbefore & Hkey & Hwb & Hwa & ->)].
  - pose proof (written_none_keyed _ _ _ Hne Htext Hnone Hw) as Hwnone.
    pose proof (Forall2_length _ _ _ Hw) as Hlen.
    eexists. split_and!; [done| | | |].
    + rewrite filter_app, (filter_none_records _ _ Hwnone), filter_cons.
      by rewrite decide_True by apply call_record_filename.
    + intros i r Hr Hkey.
      destruct (written_as_lookup _ _ _ _ Hw Hr) as (record & Hrecord & Hd).
      exists record. split_and!; [by apply lookup_app_l_Some|done|].
      exact (proj1 (Forall_lookup _ _) Hwnone i record Hrecord).
    + right. split_and!; [done| |].
      * rewrite length_app. simpl. lia.
      * by rewrite Hlen, list_lookup_middle.
    + intros records -> Hnine i record Hrecord Hfile.
      rewrite (load_rows_records _ Hnine) in Hw.
      rewrite (written_as_records _ _ Hnine Hw). by apply lookup_app_l_Some.
  - rewrite Heq in Huniq, Htext.
    pose proof (unique_keys_after _ _ _ _ Huniq Hkey) as Hafter.
    apply Forall_app in Htext as [Htb Hta]. apply Forall_cons in Hta as [_ Hta].
    pose proof (written_none_keyed _ _ _ Hne Htb Hbefore Hwb) as Hwbnone.
    pose proof (written_none_keyed _ _ _ Hne Hta Hafter Hwa) as Hwanone.
    pose proof (Forall2_length _ _ _ Hwb) as Hlenb.
    pose proof (Forall2_length _ _ _ Hwa) as Hlena.
    eexists. split_and!; [done| | | |].
    + rewrite filter_app, (filter_none_records _ _ Hwbnone), filter_cons.
      rewrite decide_True by apply call_record_filename.
      by rewrite (filter_none_records _ _ Hwanone).
    + intros i r Hr Hnot. rewrite Heq in Hr.
      apply lookup_app_Some in Hr as [Hr|[Hge Hr]].
      * destruct (written_as_lookup _ _ _ _ Hwb Hr) as (record & Hrecord & Hd).
        exists record. split_and!; [by apply lookup_app_l_Some|done|].
        exact (proj1 (Forall_lookup _ _) Hwbnone i record Hrecord).
      * destruct (i - length before)%nat as [|j] eqn:Hj.
        { injection Hr as <-. by destruct Hnot. }
        simpl in Hr.
        destruct (written_as_lookup _ _ _ _ Hwa Hr) as (record & Hrecord & Hd).
        exists record. split_and!; [|done|].
        -- rewrite lookup_app_r by lia. rewrite <-Hlenb, Hj. done.
        -- exact (proj1 (Forall_lookup _ _) Hwanone j record Hrecord).
    + left. exists (length before), existing. rewrite Heq. split_and!.
      * by rewrite list_lookup_middle.
      * done.
      * rewrite !length_app. simpl. lia.
      * by rewrite list_lookup_middle.
    + intros records -> Hnine i record Hrecord Hfile.
      rewrite (load_rows_records _ Hnine) in Heq.
      apply fmap_app_inv in Heq as (rb & rest & -> & Hrest & ->).
      symmetry in Hrest. apply fmap_cons_inv in Hrest as (re & ra & -> & -> & ->).
      apply Forall_app in Hnine as [Hnb Hna]. apply Forall_cons in Hna as [_ Hna].
      rewrite (written_as_records _ _ Hnb Hwb), (written_as_records _ _ Hna Hwa).
      apply read_row_keyed in Hkey.
      rewrite <-Hrecord. apply lookup_middle_other. intros ->.
      rewrite list_lookup_middle in Hrecord by done. injection Hrecord as <-.
      by destruct Hfile.
Qed.

(** C4. Amended: on every index file on which the call returns, when the
    first row of the file name holds a non-empty creation time [T1], the
    record written at its place is the record of the call with creation time
    [T1]: the date, the file name, the size and record count of the log, the
    metadata file name, [T1], the test type and the two links; when that row
    has no creation time, or an empty one, the record carries the time of the
    call. *)
Theorem update_master_index_created_at REPO_GITHUB_PATH log_file c index index'
    before existing after :
  let filename := scenario_id c +:+ ".log" in
  let T2 := date_str c +:+ "T" +:+ time_str c +:+ ":00Z" in
  load_rows index = before ++ existing :: after →
  Forall (λ r, ¬ keyed filename r) before →
  keyed filename existing →
  update_master_index REPO_GITHUB_PATH log_file c index = (Return (), index') →
  ∃ records',
    index' = Some (fieldnames :: records')
    ∧ length records' = length (before ++ existing :: after)
    ∧ (∀ T1, fields existing !! "created_at" = Some (CStr T1) → T1 ≠ "" →
         records' !! length before
         = Some [date_str c; filename; Py.str (file_size log_file);
                 Py.str (record_count log_file);
                 scenario_id c +:+ ".metadata.json"; T1; test_type c;
                 github_link REPO_GITHUB_PATH (log_path c);
                 github_link REPO_GITHUB_PATH (metadata_path c)])
    ∧ (fields existing !! "created_at" = None
       ∨ fields existing !! "created_at" = Some CNone
       ∨ fields existing !! "created_at" = Some (CStr "") →
         records' !! length before
         = Some [date_str c; filename; Py.str (file_size log_file);
                 Py.str (record_count log_file);
                 scenario_id c +:+ ".metadata.json"; T2; test_type c;
                 github_link REPO_GITHUB_PATH (log_path c);
                 github_link REPO_GITHUB_PATH (metadata_path c)]).
Proof.
  intros filename T2 Heq Hbefore Hkey (records' & Hw & ->)%update_master_index_Return.
  subst filename T2.
  rewrite Heq, (upsert_existing _ _ _ (values_of REPO_GITHUB_PATH log_file c) _ Hbefore Hkey) in Hw.
  pose proof (Forall2_length _ _ _ Hw) as Hlen.
  apply written_as_app_inv in Hw as (wb & rest & -> & Hwb & Hrest).
  apply written_as_cons_inv in Hrest as (record & wa & -> & Hrecord & Hwa).
  rewrite dict_to_list_index_row, row_record_call in Hrecord. injection Hrecord as <-.
  pose proof (Forall2_length _ _ _ Hwb) as Hlenb.
  exists (wb ++ call_record REPO_GITHUB_PATH log_file c
                  (cell_text
                     (kept_created_at existing
                        (date_str c +:+ "T" +:+ time_str c +:+ ":00Z"))) :: wa).
  split_and!; [done| | |].
  - rewrite <-Hlen, !length_app. simpl. done.
  - intros T1 HT1 Hne. rewrite Hlenb, list_lookup_middle by done.
    by rewrite (kept_created_at_nonempty _ _ _ HT1 Hne).
  - intros Hnone. rewrite Hlenb, list_lookup_middle by done.
    unfold kept_created_at. by destruct Hnone as [->|[->| ->]].
Qed.

(** C10. Amended: on every index file on which the call returns and which
    holds two or more rows of the file name, [update_master_index] rewrites
    the first of them with the record of the call and writes back every row
    before and after it, the later rows of the file name among them, so the
    index file holds as many records of the file name as it held rows of it;
    on a file of the script's own shape the records before and after are
    the records as they were. *)
Theorem update_master_index_first_of_duplicates REPO_GITHUB_PATH log_file c
    index index' :
  let filename := scenario_id c +:+ ".log" in
  let T := date_str c +:+ "T" +:+ time_str c +:+ ":00Z" in
  (2 ≤ length (filter (keyed filename) (load_rows index)))%nat →
  update_master_index REPO_GITHUB_PATH log_file c index = (Return (), index') →
  ∃ before first later written_before written_later,
    load_rows index = before ++ first :: later
    ∧ Forall (λ r, ¬ keyed filename r) before
    ∧ keyed filename first
    ∧ (1 ≤ length (filter (keyed filename) later))%nat
    ∧ written_as before written_before
    ∧ written_as later written_later
    ∧ index'
      = Some (fieldnames
              :: written_before
                 ++ call_record REPO_GITHUB_PATH log_file c
                      (cell_text (kept_created_at first T))
                 :: written_later)
    ∧ Forall (λ record, record !! 1%nat ≠ Some filename) written_before
    ∧ length (filter (λ record, record !! 1%nat = Some filename) written_later)
      = length (filter (keyed filename) later)
    ∧ length (filter (λ record, record !! 1%nat = Some filename)
                (written_before
                 ++ call_record REPO_GITHUB_PATH log_file c
                      (cell_text (kept_created_at first T))
                 :: written_later))
      = length (filter (keyed filename) (load_rows index))
    ∧ (∀ records,
         index = Some (fieldnames :: records) →
         Forall (λ record, length record = length fieldnames) records →
         ∃ old,
           records = written_before ++ old :: written_later
           ∧ old !! 1%nat = Some filename).
Proof.
  intros filename T Hdup Hrun. subst filename T.
  pose proof (load_rows_text index) as Htext.
  pose proof (filename_nonempty (scenario_id c)) as Hne.
  destruct (update_master_index_written _ _ _ _ _ Hrun)
    as [(Hnone & _)
       |(before & first & later & wb & wa & Heq & Hbefore & Hkey & Hwb & Hwa & ->)].
  { rewrite (filter_none _ _ Hnone) in Hdup. simpl in Hdup. lia. }
  rewrite Heq in Hdup, Htext.
  rewrite (filter_upserted _ _ _ _ Hbefore Hkey) in Hdup. simpl in Hdup.
  apply Forall_app in Htext as [Htb Hta]. apply Forall_cons in Hta as [_ Hta].
  pose proof (written_none_keyed _ _ _ Hne Htb Hbefore Hwb) as Hwbnone.
  pose proof (written_count _ _ _ Hne Hta Hwa) as Hcount.
  exists before, first, later, wb, wa.
  split_and!; [done|done|done|lia|done|done|done|done|done| |].
  - rewrite filter_app, (filter_none_records _ _ Hwbnone), filter_cons.
    rewrite decide_True by apply call_record_filename.
    rewrite Heq, (filter_upserted _ _ _ _ Hbefore Hkey). simpl. by rewrite Hcount.
  - intros records -> Hnine.
    rewrite (load_rows_records _ Hnine) in Heq.
    apply fmap_app_inv in Heq as (rb & rest & -> & Hrest & ->).
    symmetry in Hrest. apply fmap_cons_inv in Hrest as (re & ra & -> & -> & ->).
    apply Forall_app in Hnine as [Hnb Hna]. apply Forall_cons in Hna as [_ Hna].
    rewrite (written_as_records _ _ Hnb Hwb), (written_as_records _ _ Hna Hwa).
    exists re. split; [done|]. by apply read_row_keyed.
Qed.


(** ** The upsert on the index file, at concrete inputs *)

Lemma unique_keys_by_name rows names :
  key_of <$> rows = Some <$> names → NoDup names → unique_keys rows.
Proof.
  intros Hnames Hnd filename i j r r' Hi Hj Hr%keyed_key_of Hr'%keyed_key_of.
  assert (∀ k x, rows !! k = Some x → key_of x = Some filename →
                 names !! k = Some filename) as Hk.
  { intros k x Hx Hkey.
    assert ((Some <$> names) !! k = Some (Some filename)) as H.
    { rewrite <-Hnames, list_lookup_fmap, Hx. simpl. by rewrite Hkey. }
    rewrite list_lookup_fmap in H. destruct (names !! k); by simplify_eq/=. }
  pose proof (Hk i r Hi Hr) as Hki. pose proof (Hk j r' Hj Hr') as Hkj.
  by eapply NoDup_lookup.
Qed.

Lemma surplus_index_unique : unique_keys (load_rows surplus_index).
Proof.
  apply (unique_keys_by_name _
           ["SCN_2025_08_11_001.log"; "SCN_2025_08_11_002.log";
            "SCN_2025_08_11_003.log"]).
  - vm_compute. reflexivity.
  - apply (bool_decide_unpack _). vm_compute. reflexivity.
Qed.

Lemma sample_index_unique : unique_keys (load_rows sample_index).
Proof.
  apply (unique_keys_by_name _
           ["SCN_2025_08_11_001.log"; "SCN_2025_08_12_001.log"]).
  - vm_compute. reflexivity.
  - apply (bool_decide_unpack _). vm_compute. reflexivity.
Qed.

Lemma sample_index_updated :
  update_master_index "" (Some sample_log) sample_call sample_index
  = (Return (),
     Some [fieldnames;
           sample_record "SCN_2025_08_11_001" "2025-08-11T08:00:00Z";
           ["2025-08-12"; "SCN_2025_08_12_001.log"; "9"; "2";
            "SCN_2025_08_12_001.metadata.json"; "2025-08-12T09:00:00Z";
            "Throttle, idle"; ""; ""]]).
Proof. vm_compute. reflexivity. Qed.

Lemma duplicate_index_updated :
  update_master_index "" (Some sample_log) sample_call duplicate_index
  = (Return (),
     Some [fieldnames;
           ["2025-08-12"; "SCN_2025_08_12_001.log"; "9"; "2";
            "SCN_2025_08_12_001.metadata.json"; "2025-08-12T09:00:00Z";
            "Throttle, idle"; ""; ""];
           sample_record "SCN_2025_08_12_001" "2025-08-12T09:30:00Z"]).
Proof. vm_compute. reflexivity. Qed.

(** C3 as it stands fails where a record has more fields than the header:
    every file name keys one row, yet the call raises [ValueError] after
    the first record, and the index file is left without a record of the
    file name and without the second and third scenario. It fails as well
    where a record has fewer fields than the header: the call returns, and
    the row of the other file name, whose missing cells were [None], is
    written back with empty fields in their place. *)
Lemma update_master_index_ragged_records :
  (unique_keys (load_rows surplus_index)
   ∧ update_master_index "" (Some sample_log) sample_call surplus_index
     = (Raise ValueError,
        Some [fieldnames;
              sample_record "SCN_2025_08_11_001" "2025-08-11T08:00:00Z"])
   ∧ filter (λ record, record !! 1%nat = Some "SCN_2025_08_12_001.log")
       [sample_record "SCN_2025_08_11_001" "2025-08-11T08:00:00Z"] = [])
  ∧ (unique_keys (load_rows short_record_index)
     ∧ ∃ index' r r',
         update_master_index "" (Some sample_log) sample_call short_record_index
         = (Return (), index')
         ∧ index'
           = Some [fieldnames;
                   ["2025-08-11"; "SCN_2025_08_11_001.log";
                    ""; ""; ""; ""; ""; ""; ""];
                   ["2025-08-12"; "SCN_2025_08_12_001.log"; "9"; "2";
                    "SCN_2025_08_12_001.metadata.json"; "2025-08-12T10:00:00Z";
                    "Throttle, idle"; ""; ""]]
         ∧ load_rows short_record_index !! 0%nat = Some r
         ∧ load_rows index' !! 0%nat = Some r'
         ∧ fields r !! "file_size" = Some CNone
         ∧ fields r' !! "file_size" = Some (CStr "")).
Proof.
  split.
  - split; [exact surplus_index_unique|]. split; vm_compute; reflexivity.
  - split.
    + apply (unique_keys_by_name _ ["SCN_2025_08_11_001.log"]).
      * vm_compute. reflexivity.
      * apply (bool_decide_unpack _). vm_compute. reflexivity.
    + eexists _, _, _. split; [vm_compute; reflexivity|].
      split; [reflexivity|]. split; [reflexivity|]. split; [reflexivity|].
      split; vm_compute; reflexivity.
Qed.

Lemma update_master_index_one_row_witness :
  unique_keys (load_rows sample_index)
  ∧ update_master_index "" (Some sample_log) sample_call sample_index
    = (Return (),
       Some [fieldnames;
             sample_record "SCN_2025_08_11_001" "2025-08-11T08:00:00Z";
             ["2025-08-12"; "SCN_2025_08_12_001.log"; "9"; "2";
              "SCN_2025_08_12_001.metadata.json"; "2025-08-12T09:00:00Z";
              "Throttle, idle"; ""; ""]])
  ∧ ∃ records',
      Some [fieldnames;
            sample_record "SCN_2025_08_11_001" "2025-08-11T08:00:00Z";
            ["2025-08-12"; "SCN_2025_08_12_001.log"; "9"; "2";
             "SCN_2025_08_12_001.metadata.json"; "2025-08-12T09:00:00Z";
             "Throttle, idle"; ""; ""]]
      = Some (fieldnames :: records')
      ∧ length (filter (λ record,
                          record !! 1%nat
                          = Some (scenario_id sample_call +:+ ".log")) records')
        = 1%nat.
Proof.
  split; [exact sample_index_unique|]. split; [exact sample_index_updated|].
  destruct (update_master_index_one_row "" (Some sample_log) sample_call
              sample_index _ sample_index_unique sample_index_updated)
    as (records' & Heq & Hcount & _).
  exists records'. split; [exact Heq|exact Hcount].
Defined.

(** C4 as it stands fails where the header has a column outside the nine:
    the second row is of the file name and holds a creation time, yet the
    call raises [ValueError] on the first row and the index file is left
    with the header alone, no creation time stored. *)
Lemma update_master_index_extra_column_drops_created_at :
  ∃ other existing,
    load_rows extra_column_index = [other; existing]
    ∧ ¬ keyed "SCN_2025_08_12_001.log" other
    ∧ keyed "SCN_2025_08_12_001.log" existing
    ∧ fields existing !! "created_at" = Some (CStr "2025-08-12T09:00:00Z")
    ∧ update_master_index "" (Some sample_log) sample_call extra_column_index
      = (Raise ValueError, Some [fieldnames]).
Proof.
  eexists _, _. split; [reflexivity|].
  split_and!; unfold keyed; vm_compute; [discriminate|reflexivity..].
Qed.

Lemma update_master_index_created_at_witness :
  load_rows sample_index
  = [read_row fieldnames
       (sample_record "SCN_2025_08_11_001" "2025-08-11T08:00:00Z")]
    ++ read_row fieldnames
         (sample_record "SCN_2025_08_12_001" "2025-08-12T09:00:00Z") :: []
  ∧ ∃ records',
      update_master_index "" (Some sample_log) sample_call sample_index
      = (Return (), Some (fieldnames :: records'))
      ∧ records' !! 1%nat
        = Some ["2025-08-12"; "SCN_2025_08_12_001.log"; "9"; "2";
                "SCN_2025_08_12_001.metadata.json"; "2025-08-12T09:00:00Z";
                "Throttle, idle"; ""; ""].
Proof.
  assert (load_rows sample_index
          = [read_row fieldnames
               (sample_record "SCN_2025_08_11_001" "2025-08-11T08:00:00Z")]
            ++ read_row fieldnames
                 (sample_record "SCN_2025_08_12_001" "2025-08-12T09:00:00Z") :: [])
    as Hrows by reflexivity.
  split; [exact Hrows|].
  assert (Forall (λ r, ¬ keyed (scenario_id sample_call +:+ ".log") r)
            [read_row fieldnames
               (sample_record "SCN_2025_08_11_001" "2025-08-11T08:00:00Z")])
    as Hbefore.
  { constructor; [|constructor]. unfold keyed. vm_compute. discriminate. }
  assert (keyed (scenario_id sample_call +:+ ".log")
            (read_row fieldnames
               (sample_record "SCN_2025_08_12_001" "2025-08-12T09:00:00Z")))
    as Hkey.
  { unfold keyed. vm_compute. reflexivity. }
  destruct (update_master_index_created_at "" (Some sample_log) sample_call
              sample_index _ _ _ _ Hrows Hbefore Hkey sample_index_updated)
    as (records' & Heq & _ & Hkept & _).
  exists records'. split; [by rewrite sample_index_updated, Heq|].
  apply (Hkept "2025-08-12T09:00:00Z"); [vm_compute; reflexivity|discriminate].
Defined.

(** C10 as it stands fails where the later row of the file name has more
    fields than the header: the call raises [ValueError] on it, after the
    first row was written, and the index file is left with one record of
    the file name. It fails as well where the later row has fewer fields
    than the header: the call returns, and that row, whose missing cells
    were [None], is written back with empty fields in their place. *)
Lemma update_master_index_ragged_duplicate :
  (length (filter (keyed "SCN_2025_08_12_001.log")
             (load_rows duplicate_surplus_index)) = 2%nat
   ∧ update_master_index "" (Some sample_log) sample_call duplicate_surplus_index
     = (Raise ValueError,
        Some [fieldnames;
              ["2025-08-12"; "SCN_2025_08_12_001.log"; "9"; "2";
               "SCN_2025_08_12_001.metadata.json"; "2025-08-12T09:00:00Z";
               "Throttle, idle"; ""; ""]]))
  ∧ (length (filter (keyed "SCN_2025_08_12_001.log")
               (load_rows duplicate_short_index)) = 2%nat
     ∧ ∃ index' r r',
         update_master_index "" (Some sample_log) sample_call duplicate_short_index
         = (Return (), index')
         ∧ index'
           = Some [fieldnames;
                   ["2025-08-12"; "SCN_2025_08_12_001.log"; "9"; "2";
                    "SCN_2025_08_12_001.metadata.json"; "2025-08-12T09:00:00Z";
                    "Throttle, idle"; ""; ""];
                   ["2025-08-11"; "SCN_2025_08_12_001.log";
                    ""; ""; ""; ""; ""; ""; ""]]
         ∧ load_rows duplicate_short_index !! 1%nat = Some r
         ∧ load_rows index' !! 1%nat = Some r'
         ∧ fields r !! "created_at" = Some CNone
         ∧ fields r' !! "created_at" = Some (CStr "")).
Proof.
  split; [split; vm_compute; reflexivity|].
  split; [vm_compute; reflexivity|].
  eexists _, _, _. split; [vm_compute; reflexivity|].
  split; [reflexivity|]. split; [reflexivity|]. split; [reflexivity|].
  split; vm_compute; reflexivity.
Qed.

Lemma update_master_index_first_of_duplicates_witness :
  (2 ≤ length (filter (keyed (scenario_id sample_call +:+ ".log"))
                 (load_rows duplicate_index)))%nat
  ∧ update_master_index "" (Some sample_log) sample_call duplicate_index
    = (Return (),
       Some [fieldnames;
             ["2025-08-12"; "SCN_2025_08_12_001.log"; "9"; "2";
              "SCN_2025_08_12_001.metadata.json"; "2025-08-12T09:00:00Z";
              "Throttle, idle"; ""; ""];
             sample_record "SCN_2025_08_12_001" "2025-08-12T09:30:00Z"])
  ∧ ∃ first written_before written_later,
      Some [fieldnames;
            ["2025-08-12"; "SCN_2025_08_12_001.log"; "9"; "2";
             "SCN_2025_08_12_001.metadata.json"; "2025-08-12T09:00:00Z";
             "Throttle, idle"; ""; ""];
            sample_record "SCN_2025_08_12_001" "2025-08-12T09:30:00Z"]
      = Some (fieldnames
              :: written_before
                 ++ call_record "" (Some sample_log) sample_call
                      (cell_text
                         (kept_created_at first
                            (date_str sample_call +:+ "T"
                             +:+ time_str sample_call +:+ ":00Z")))
                 :: written_later)
      ∧ Forall (λ record,
                  record !! 1%nat ≠ Some (scenario_id sample_call +:+ ".log"))
          written_before.
Proof.
  assert (2 ≤ length (filter (keyed (scenario_id sample_call +:+ ".log"))
                        (load_rows duplicate_index)))%nat as Hdup
    by (vm_compute; lia).
  split; [exact Hdup|]. split; [exact duplicate_index_updated|].
  destruct (update_master_index_first_of_duplicates "" (Some sample_log)
              sample_call duplicate_index _ Hdup duplicate_index_updated)
    as (before & first & later & wb & wa & _ & _ & _ & _ & _ & _
        & Hindex & Hnone & _).
  exists first, wb, wa. split; [exact Hindex|exact Hnone].
Defined.


